(** * Price crawler: a shallow embedding of the three crawler variants

    The repository holds three Python classes:
    - [APIPriceCrawler]       (your_crawler_script.py),
    - [AutoPriceCrawler]      (your_crawler_script_v1.py),
    - [EnhancedPriceCrawler]  (your_crawler_script_v2.py).

    Modelling conventions.
    - A Python [str] is a list of Unicode code points ([pystr]); [py]
      turns an ASCII literal into one.
    - A Python [float] (and [int]) is an exact rational ([Q]); binary
      rounding is outside the model.  Every number the text parser reads
      has at most two fractional digits and the bounds it is compared with
      (0.01, 100000, 1000000, 10000000) are of the same form, so the
      comparisons agree with the ones on doubles.
    - [\d] and the case conversions are taken on Basic Latin; [\s] and
      [str.strip] use Python's full white-space set.
    - A [dict] is an association list in insertion order; a decoded JSON
      document and a record are values of [pyval].
    - A parsed page is a tree of tags and text fragments, queried by the
      simple selectors the crawlers use.
    - The network and the clock are a [World]; every request and every
      [time.sleep] is appended to the crawler's [trace].  [print] is not
      modelled.  [quote_plus] and [urlparse(...).netloc] are parameters.
    - An exception that no [except] clause of the source catches is the
      outcome [Raise]. *)

From Stdlib Require Import Ascii String.
From Stdlib Require Import List Sorted ZArith NArith QArith Qround Lia Bool Arith.
Import ListNotations.

Set Implicit Arguments.
Set Warnings "-register-all".
Close Scope Q_scope.
Close Scope Z_scope.
Open Scope nat_scope.
Open Scope list_scope.

(* ================================================================= *)
(** ** Python strings *)

Definition pystr := list N.

Definition py (s : string) : pystr :=
  map N_of_ascii (list_ascii_of_string s).

Fixpoint str_eqb (a b : pystr) : bool :=
  match a, b with
  | [], [] => true
  | x :: a', y :: b' => N.eqb x y && str_eqb a' b'
  | _, _ => false
  end.

Fixpoint starts_with (p s : pystr) : bool :=
  match p, s with
  | [], _ => true
  | x :: p', y :: s' => N.eqb x y && starts_with p' s'
  | _ :: _, [] => false
  end.

(** [needle in hay] on two strings. *)
Fixpoint contains (needle hay : pystr) : bool :=
  starts_with needle hay ||
  match hay with
  | [] => false
  | _ :: t => contains needle t
  end.

Definition is_digit (c : N) : bool := (48 <=? c)%N && (c <=? 57)%N.

(** [str.isspace] on one code point; also what [\s] matches. *)
Definition is_space (c : N) : bool :=
  ((9 <=? c) && (c <=? 13) || (28 <=? c) && (c <=? 32) ||
   (c =? 133) || (c =? 160) || (c =? 5760) ||
   (8192 <=? c) && (c <=? 8202) || (c =? 8232) || (c =? 8233) ||
   (c =? 8239) || (c =? 8287) || (c =? 12288))%N.

Definition is_upper (c : N) : bool := (65 <=? c)%N && (c <=? 90)%N.
Definition is_lower (c : N) : bool := (97 <=? c)%N && (c <=? 122)%N.
Definition to_lower (c : N) : N := if is_upper c then (c + 32)%N else c.
Definition to_upper (c : N) : N := if is_lower c then (c - 32)%N else c.

Definition lower (s : pystr) : pystr := map to_lower s.
Definition upper (s : pystr) : pystr := map to_upper s.

(** [s.replace(c, '')] for a one-character [c]. *)
Definition remove_char (c : N) (s : pystr) : pystr :=
  filter (fun x => negb (N.eqb x c)) s.

Fixpoint lstrip (s : pystr) : pystr :=
  match s with
  | c :: t => if is_space c then lstrip t else s
  | [] => []
  end.

Definition rstrip (s : pystr) : pystr := rev (lstrip (rev s)).
Definition strip (s : pystr) : pystr := rstrip (lstrip s).

(** [s.split(sep)] for a non-empty [sep]; [skip] counts the characters of
    a separator still to be passed over. *)
Fixpoint split_aux (sep : pystr) (skip : nat) (cur : pystr) (s : pystr)
  : list pystr :=
  match s with
  | [] => [rev cur]
  | c :: t =>
      match skip with
      | S k => split_aux sep k cur t
      | O => if starts_with sep s
             then rev cur :: split_aux sep (length sep - 1) [] t
             else split_aux sep 0 (c :: cur) t
      end
  end.

Definition split (sep s : pystr) : list pystr := split_aux sep 0 [] s.

(** [str.title]: a cased letter is upper-cased after an uncased character
    and lower-cased after a cased one. *)
Fixpoint title_aux (prev_cased : bool) (s : pystr) : pystr :=
  match s with
  | [] => []
  | c :: t =>
      let cased := is_upper c || is_lower c in
      (if prev_cased then to_lower c else to_upper c) :: title_aux cased t
  end.

Definition title (s : pystr) : pystr := title_aux false s.

(** [s[:n]] *)
Definition slice_to (n : nat) (s : pystr) : pystr := firstn n s.

Definition truthy_str (s : pystr) : bool :=
  match s with [] => false | _ => true end.

(* ================================================================= *)
(** ** Numbers *)

Definition Qltb (a b : Q) : bool := negb (Qle_bool b a).

(** Truth value of a float: [if price:] *)
Definition truthy_num (q : Q) : bool := negb (Qeq_bool q 0).

Definition digit_val (c : N) : N := (c - 48)%N.

Fixpoint digits_value (acc : N) (s : pystr) : N :=
  match s with
  | [] => acc
  | c :: t => digits_value (10 * acc + digit_val c)%N t
  end.

Fixpoint span_digits (s : pystr) : pystr * pystr :=
  match s with
  | c :: t => if is_digit c
              then let '(d, r) := span_digits t in (c :: d, r)
              else ([], s)
  | [] => ([], [])
  end.

Definition pow10 (n : nat) : positive := Pos.pow 10 (Pos.of_nat n).

Definition scale10 (n : nat) : positive :=
  match n with O => 1%positive | S _ => pow10 n end.

(** Unsigned decimal literal: digits, optionally a point and digits, at
    least one digit in all. *)
Definition decimal_of_string (s : pystr) : option Q :=
  let '(ip, r) := span_digits s in
  match r with
  | [] => match ip with
          | [] => None
          | _ => Some (Z.of_N (digits_value 0 ip) # 1)%Q
          end
  | c :: fr =>
      if (c =? 46)%N then
        let '(fp, r') := span_digits fr in
        match r', ip ++ fp with
        | [], _ :: _ =>
            Some (Z.of_N (digits_value 0 (ip ++ fp)) # scale10 (length fp))%Q
        | _, _ => None
        end
      else None
  end.

(** [float(s)] on a string: a decimal literal with an optional sign.  The
    other spellings Python accepts (exponent, inf, nan, blanks around,
    underscores) are answered [None], that is [ValueError]; the price
    patterns never capture one. *)
Definition float_of_string (s : pystr) : option Q :=
  match s with
  | c :: t =>
      if (c =? 45)%N then option_map Qopp (decimal_of_string t)
      else if (c =? 43)%N then decimal_of_string t
      else decimal_of_string s
  | [] => None
  end.

(** [round(x, 2)]: to the nearest hundredth, ties to even. *)
Definition round_half_even (q : Q) : Z :=
  let f := Qfloor q in
  let d := (q - inject_Z f)%Q in
  if Qltb d (1 # 2)%Q then f
  else if Qltb (1 # 2)%Q d then (f + 1)%Z
  else if Z.even f then f else (f + 1)%Z.

Definition round2 (q : Q) : Q := (round_half_even (q * 100) # 100)%Q.

(* ================================================================= *)
(** ** Regular expressions: the fragment of [re] the crawlers use

    A backtracking matcher in continuation-passing style: alternatives
    and repetitions are tried in the order Python's engine tries them
    (left alternative first, greedy repetition longest first), and only
    group 1 is recorded. *)

Inductive regex : Type :=
| Emp
| Sym (p : N -> bool)
| Cat (r1 r2 : regex)
| Or (r1 r2 : regex)
| Rep (r : regex) (lo : nat) (hi : option nat)
| Grp (r : regex).

Definition orelse {A} (x y : option A) : option A :=
  match x with Some a => Some a | None => y end.

Section Matcher.
Variable A : Type.

(** A continuation receives the rest of the input and group 1. *)
Definition cont := pystr -> option pystr -> option A.
Definition matcher := pystr -> option pystr -> cont -> option A.

Fixpoint rep (m : matcher) (fuel lo : nat) (hi : option nat)
         (s : pystr) (cap : option pystr) (k : cont) : option A :=
  let again :=
    match fuel with
    | O => None
    | S f => m s cap (fun s' cap' =>
               rep m f (Nat.pred lo) (option_map Nat.pred hi) s' cap' k)
    end in
  match lo, hi with
  | S _, _ => again
  | O, Some O => k s cap
  | O, _ => orelse again (k s cap)
  end.

Fixpoint rmatch (r : regex) (fuel : nat) (s : pystr) (cap : option pystr)
         (k : cont) {struct r} : option A :=
  match r with
  | Emp => k s cap
  | Sym p =>
      match s with
      | c :: s' => if p c then k s' cap else None
      | [] => None
      end
  | Cat r1 r2 =>
      rmatch r1 fuel s cap (fun s' cap' => rmatch r2 fuel s' cap' k)
  | Or r1 r2 => orelse (rmatch r1 fuel s cap k) (rmatch r2 fuel s cap k)
  | Rep r1 lo hi => rep (rmatch r1 fuel) fuel lo hi s cap k
  | Grp r1 =>
      rmatch r1 fuel s cap
        (fun s' _ => k s' (Some (firstn (length s - length s') s)))
  end.
End Matcher.

(** A match object: the matched text, group 1 and the text after it. *)
Record match_obj : Type := MatchObj {
  group0 : pystr;
  group1 : option pystr;
  after : pystr
}.

Definition match_here (r : regex) (s : pystr) : option match_obj :=
  rmatch r (S (length s)) s None
    (fun s' cap => Some (MatchObj (firstn (length s - length s') s) cap s')).

(** [re.search]: the first position, left to right, where a match starts. *)
Fixpoint search (r : regex) (s : pystr) : option match_obj :=
  match match_here r s with
  | Some m => Some m
  | None => match s with
            | [] => None
            | _ :: t => search r t
            end
  end.

(** [re.finditer]: successive matches, each search resuming where the
    previous match ended (one character further after an empty match). *)
Fixpoint finditer_aux (fuel : nat) (r : regex) (s : pystr) : list match_obj :=
  match fuel with
  | O => []
  | S f =>
      match search r s with
      | None => []
      | Some m =>
          m :: match group0 m, after m with
               | [], _ :: t => finditer_aux f r t
               | [], [] => []
               | _ :: _, rest => finditer_aux f r rest
               end
      end
  end.

Definition finditer (r : regex) (s : pystr) : list match_obj :=
  finditer_aux (S (length s)) r s.

(** Pattern atoms. *)
Definition lit (c : N) : regex := Sym (N.eqb c).

(** A literal letter under [re.IGNORECASE]: both cases, and the
    non-ASCII letters whose case folding is that letter. *)
Definition lit_i (c : N) : regex :=
  Sym (fun x =>
    N.eqb (to_lower x) (to_lower c) ||
    (N.eqb (to_lower c) 105 && (N.eqb x 304 || N.eqb x 305)) ||
    (N.eqb (to_lower c) 115 && N.eqb x 383) ||
    (N.eqb (to_lower c) 107 && N.eqb x 8490))%N.

Fixpoint word_i (s : pystr) : regex :=
  match s with
  | [] => Emp
  | [c] => lit_i c
  | c :: t => Cat (lit_i c) (word_i t)
  end.

Definition star (r : regex) : regex := Rep r 0 None.
Definition plus (r : regex) : regex := Rep r 1 None.
Definition opt (r : regex) : regex := Rep r 0 (Some 1).
Definition times (n : nat) (r : regex) : regex := Rep r n (Some n).

Definition digit : regex := Sym is_digit.
Definition space : regex := Sym is_space.

Definition DOLLAR : N := 36.
Definition POUND : N := 163.
Definition EURO : N := 8364.
Definition YEN : N := 165.
Definition COMMA : N := 44.
Definition DOT : N := 46.
Definition COLON : N := 58.
Definition BLANK : N := 32.
Definition NEWLINE : N := 10.

(** The class of the four currency signs, [$], pound, euro and yen. *)
Definition is_currency_sign (c : N) : bool :=
  (N.eqb c DOLLAR || N.eqb c POUND || N.eqb c EURO || N.eqb c YEN).
Definition currency_sign : regex := Sym is_currency_sign.

(** [(?:\.\d{2})?] *)
Definition cents : regex := opt (Cat (lit DOT) (times 2 digit)).

Declare Scope regex_scope.
Delimit Scope regex_scope with re.
Bind Scope regex_scope with regex.
Infix "+++" := Cat (at level 60, right associativity) : regex_scope.

(** [(\d+(?:\.\d{2})?)] *)
Definition amount_plain : regex := Grp (plus digit +++ cents).

(** [(\d+(?:,\d{3})*(?:\.\d{2})?)] *)
Definition amount_grouped : regex :=
  Grp (plus digit +++ star (lit COMMA +++ times 3 digit) +++ cents).

(* ================================================================= *)
(** ** Python values, dictionaries and exceptions *)

Inductive pyval : Type :=
| PNone
| PBool (b : bool)
| PNum (q : Q)
| PStr (s : pystr)
| PList (l : list pyval)
| PDict (d : list (pystr * pyval)).

Definition pydict := list (pystr * pyval).

Section Dict.
Variable V : Type.

Fixpoint dict_get (k : pystr) (d : list (pystr * V)) : option V :=
  match d with
  | [] => None
  | (k', v) :: t => if str_eqb k k' then Some v else dict_get k t
  end.

Definition dict_mem (k : pystr) (d : list (pystr * V)) : bool :=
  match dict_get k d with Some _ => true | None => false end.

(** [d[k] = v]: a present key keeps its place, a new one goes last. *)
Fixpoint dict_set (k : pystr) (v : V) (d : list (pystr * V))
  : list (pystr * V) :=
  match d with
  | [] => [(k, v)]
  | (k', v') :: t =>
      if str_eqb k k' then (k, v) :: t else (k', v') :: dict_set k v t
  end.

Definition dict_keys (d : list (pystr * V)) : list pystr := map fst d.
End Dict.

Inductive exn : Type :=
| TypeError | KeyError | ValueError | IndexError | AttributeError
| RequestException.

Inductive outcome (A : Type) : Type :=
| Ret (a : A)
| Raise (e : exn).
Arguments Ret {A} a.
Arguments Raise {A} e.

Definition obind {A B} (x : outcome A) (f : A -> outcome B) : outcome B :=
  match x with Ret a => f a | Raise e => Raise e end.

(** Numeric reading of a value where Python wants a number ([bool] is a
    subtype of [int]). *)
Definition py_num (v : pyval) : outcome Q :=
  match v with
  | PNum q => Ret q
  | PBool b => Ret (if b then 1%Q else 0%Q)
  | _ => Raise TypeError
  end.

(** [k in v] for a string [k]. *)
Definition py_in (k : pystr) (v : pyval) : outcome bool :=
  match v with
  | PDict d => Ret (dict_mem k d)
  | PList l =>
      Ret (existsb (fun x => match x with PStr s => str_eqb k s | _ => false end) l)
  | PStr s => Ret (contains k s)
  | _ => Raise TypeError
  end.

(** [v[k]] for a string [k]. *)
Definition py_item (v : pyval) (k : pystr) : outcome pyval :=
  match v with
  | PDict d => match dict_get k d with Some x => Ret x | None => Raise KeyError end
  | _ => Raise TypeError
  end.

(** [v[0]]; the keys of a decoded JSON object are strings, so [0] is
    never one of them. *)
Definition py_item0 (v : pyval) : outcome pyval :=
  match v with
  | PList (x :: _) => Ret x
  | PList [] => Raise IndexError
  | PStr (c :: _) => Ret (PStr [c])
  | PStr [] => Raise IndexError
  | PDict _ => Raise KeyError
  | _ => Raise TypeError
  end.

(** [v.get(k, default)] *)
Definition py_get (v : pyval) (k : pystr) (default : pyval) : outcome pyval :=
  match v with
  | PDict d => Ret (match dict_get k d with Some x => x | None => default end)
  | _ => Raise AttributeError
  end.

Definition py_len (v : pyval) : outcome nat :=
  match v with
  | PList l => Ret (length l)
  | PStr s => Ret (length s)
  | PDict d => Ret (length d)
  | _ => Raise TypeError
  end.

(** [round(v, 2)] *)
Definition py_round2 (v : pyval) : outcome pyval :=
  match v with
  | PNum q => Ret (PNum (round2 q))
  | PBool b => Ret (PNum (if b then 1%Q else 0%Q))
  | _ => Raise TypeError
  end.

(** [float(v)] *)
Definition py_float (v : pyval) : outcome Q :=
  match v with
  | PNum q => Ret q
  | PBool b => Ret (if b then 1%Q else 0%Q)
  | PStr s => match float_of_string (strip s) with
              | Some q => Ret q
              | None => Raise ValueError
              end
  | _ => Raise TypeError
  end.

(** Formatting with a float format specification ([{v:,.2f}],
    [{v:+.2f}]): only the exception it may raise matters. *)
Definition py_format_f (v : pyval) : outcome unit :=
  match v with
  | PNum _ | PBool _ => Ret tt
  | PStr _ => Raise ValueError
  | _ => Raise TypeError
  end.

(* ================================================================= *)
(** ** Parsed HTML: what the crawlers ask of [BeautifulSoup] *)

Inductive node : Type :=
| Text (s : pystr)
| Elem (tag : pystr) (attrs : list (pystr * pystr)) (children : list node).

(** All tags below (and including) a node, in document order. *)
Fixpoint tags_of (n : node) : list node :=
  match n with
  | Text _ => []
  | Elem _ _ cs => n :: flat_map tags_of cs
  end.

(** All text fragments below a node, in document order. *)
Fixpoint strings_of (n : node) : list pystr :=
  match n with
  | Text s => [s]
  | Elem _ _ cs => flat_map strings_of cs
  end.

Definition soup := list node.

Definition all_tags (doc : soup) : list node := flat_map tags_of doc.

(** [get_text()] *)
Definition get_text (n : node) : pystr := concat (strings_of n).
Definition soup_get_text (doc : soup) : pystr :=
  concat (flat_map strings_of doc).

(** [get_text(strip=True)]: every fragment stripped, empty ones dropped. *)
Definition get_text_strip (n : node) : pystr :=
  concat (filter truthy_str (map strip (strings_of n))).

(** [tag.get(name)] *)
Definition attr (name : pystr) (n : node) : option pystr :=
  match n with
  | Elem _ a _ => dict_get name a
  | Text _ => None
  end.

Definition tag_name (n : node) : pystr :=
  match n with Elem t _ _ => t | Text _ => [] end.

(** White-space separated tokens of an attribute value. *)
Fixpoint tokens_aux (cur : pystr) (s : pystr) : list pystr :=
  match s with
  | [] => match cur with [] => [] | _ => [rev cur] end
  | c :: t =>
      if is_space c
      then match cur with [] => tokens_aux [] t | _ => rev cur :: tokens_aux [] t end
      else tokens_aux (c :: cur) t
  end.
Definition tokens (s : pystr) : list pystr := tokens_aux [] s.

(** The simple selectors that occur in the crawlers. *)
Inductive attr_test : Type :=
| AttrHas (name : pystr)                 (* [name] *)
| AttrEq (name value : pystr)            (* [name="value"] *)
| AttrSub (name value : pystr)           (* [name*="value"] *)
| HasClass (c : pystr)                   (* .c *)
| HasId (i : pystr).                     (* #i *)

Record selector : Type := Selector {
  sel_tag : option pystr;
  sel_tests : list attr_test
}.

Definition test_holds (n : node) (t : attr_test) : bool :=
  match t with
  | AttrHas a => match attr a n with Some _ => true | None => false end
  | AttrEq a v => match attr a n with Some x => str_eqb x v | None => false end
  | AttrSub a v => match attr a n with Some x => contains v x | None => false end
  | HasClass c =>
      match attr (py "class") n with
      | Some x => existsb (str_eqb c) (tokens x)
      | None => false
      end
  | HasId i => match attr (py "id") n with Some x => str_eqb x i | None => false end
  end.

Definition sel_matches (sel : selector) (n : node) : bool :=
  match sel_tag sel with
  | Some t => str_eqb (tag_name n) t
  | None => true
  end && forallb (test_holds n) (sel_tests sel).

(** [soup.select(sel)] and [soup.select_one(sel)] *)
Definition select (sel : selector) (doc : soup) : list node :=
  filter (sel_matches sel) (all_tags doc).

Definition select_one (sel : selector) (doc : soup) : option node :=
  hd_error (select sel doc).

(* ================================================================= *)
(** ** The outside world *)

Record Request : Type := mkRequest {
  req_url : pystr;
  req_params : list (pystr * pystr);
  req_headers : list (pystr * pystr)
}.

Record Response : Type := mkResponse {
  status_code : nat;
  json : option pyval;       (* [None]: the body is not JSON *)
  content : soup
}.

(** What a crawler does to the world, in order. *)
Inductive event : Type :=
| Fetched (r : Request)
| Slept (seconds : Q).

(** The answer to a request and the reading of the clock may depend on
    everything done so far.  [None] from [http] is a raised
    [requests.RequestException] (time-out, refused connection). *)
Record World : Type := mkWorld {
  http : list event -> Request -> option Response;
  now : list event -> pystr
}.

(** [response.raise_for_status()] raises on 4xx and 5xx. *)
Definition http_error (r : Response) : bool :=
  (400 <=? status_code r) && (status_code r <? 600).

Definition is_fetch (e : event) : bool :=
  match e with Fetched _ => true | Slept _ => false end.

(** First success of [f] along a list: a loop that breaks on its first hit. *)
Fixpoint first_some {A B : Type} (f : A -> option B) (l : list A) : option B :=
  match l with
  | [] => None
  | x :: t => match f x with Some y => Some y | None => first_some f t end
  end.

(** Truth value of the variable [price] ([None] or a float). *)
Definition truthy_price (p : option Q) : bool :=
  match p with Some q => truthy_num q | None => false end.

(** [min], [max] and [sum] of a list of prices.  A value that is not a
    number raises [TypeError]; in [compare_prices] the three are called
    one after the other on the same list, so which of them raises first
    makes no difference to the caller. *)
Fixpoint py_min_from (m : pyval) (qm : Q) (l : list pyval) : outcome pyval :=
  match l with
  | [] => Ret m
  | x :: t => obind (py_num x) (fun qx =>
                if Qltb qx qm then py_min_from x qx t else py_min_from m qm t)
  end.

Definition py_min (l : list pyval) : outcome pyval :=
  match l with
  | [] => Raise ValueError
  | x :: t => obind (py_num x) (fun qx => py_min_from x qx t)
  end.

Fixpoint py_max_from (m : pyval) (qm : Q) (l : list pyval) : outcome pyval :=
  match l with
  | [] => Ret m
  | x :: t => obind (py_num x) (fun qx =>
                if Qltb qm qx then py_max_from x qx t else py_max_from m qm t)
  end.

Definition py_max (l : list pyval) : outcome pyval :=
  match l with
  | [] => Raise ValueError
  | x :: t => obind (py_num x) (fun qx => py_max_from x qx t)
  end.

Fixpoint py_sum_from (acc : Q) (l : list pyval) : outcome Q :=
  match l with
  | [] => Ret acc
  | x :: t => obind (py_num x) (fun qx => py_sum_from (acc + qx)%Q t)
  end.

Definition py_sum (l : list pyval) : outcome Q := py_sum_from 0%Q l.

(** The body of [compare_prices], which is the same text in the two web
    crawlers. *)
Module Compare.

(** The inner loop: one entry of ['prices'] per record, and the list
    [prices_data]. *)
Fixpoint collect (price_list : list pydict) (entries prices_data : list pyval)
  : outcome (list pyval * list pyval) :=
  match price_list with
  | [] => Ret (entries, prices_data)
  | price_info :: rest =>
      obind (py_item (PDict price_info) (py "source")) (fun source =>
      obind (py_item (PDict price_info) (py "price")) (fun price =>
      obind (py_item (PDict price_info) (py "currency")) (fun currency =>
      obind (py_item (PDict price_info) (py "url")) (fun url =>
      obind (py_item (PDict price_info) (py "price")) (fun price' =>
        collect rest
          (entries ++ [PDict [(py "source", source); (py "price", price);
                              (py "currency", currency); (py "url", url)]])
          (prices_data ++ [price']))))))
  end.

Definition entry (price_list : list pydict) : outcome pyval :=
  obind (collect price_list [] []) (fun '(entries, prices_data) =>
    match prices_data with
    | [] => Ret (PDict [(py "prices", PList entries); (py "lowest", PNone);
                        (py "highest", PNone); (py "average", PNone)])
    | _ :: _ =>
        obind (py_min prices_data) (fun lowest =>
        obind (py_max prices_data) (fun highest =>
        obind (py_sum prices_data) (fun total =>
          Ret (PDict [(py "prices", PList entries); (py "lowest", lowest);
                      (py "highest", highest);
                      (py "average",
                       PNum (total / inject_Z (Z.of_nat (length prices_data)))%Q)]))))
    end).

Fixpoint compare_loop (price_results : list (pystr * list pydict))
         (comparison : pydict) : outcome pydict :=
  match price_results with
  | [] => Ret comparison
  | (item, price_list) :: rest =>
      match price_list with
      | [] => compare_loop rest comparison          (* continue *)
      | _ :: _ =>
          obind (entry price_list) (fun e =>
            compare_loop rest (dict_set item e comparison))
      end
  end.

Definition compare_prices (price_results : list (pystr * list pydict))
  : outcome pydict :=
  compare_loop price_results [].

End Compare.

(** Truth value of a Python value, as [if v:] takes it. *)
Definition py_truthy (v : pyval) : bool :=
  match v with
  | PNone => false
  | PBool b => b
  | PNum q => truthy_num q
  | PStr s => truthy_str s
  | PList l => match l with [] => false | _ :: _ => true end
  | PDict d => match d with [] => false | _ :: _ => true end
  end.

(** [print_results], which is the same text in the two web crawlers.
    What is printed is not kept, and writing to the console is taken to
    succeed: the model tells whether the call returns or raises, and
    what. *)
Module Report.

Section Interpreter.
(** The exception of [d[:n]] on a dict: [TypeError] (unhashable slice)
    before Python 3.12, [KeyError] from 3.12 on. *)
Variable dict_slice_error : exn.

(** [v[:n]] *)
Definition py_slice_to (v : pyval) : outcome unit :=
  match v with
  | PStr _ | PList _ => Ret tt
  | PDict _ => Raise dict_slice_error
  | _ => Raise TypeError
  end.

(** The [for price_data in price_list] loop. *)
Fixpoint print_prices (price_list : list pydict) : outcome unit :=
  match price_list with
  | [] => Ret tt
  | price_data :: rest =>
      obind (py_item (PDict price_data) (py "source")) (fun _ =>
      obind (py_item (PDict price_data) (py "currency")) (fun _ =>
      obind (py_item (PDict price_data) (py "price")) (fun _ =>
      obind (py_item (PDict price_data) (py "url")) (fun url =>
      obind (py_slice_to url) (fun _ =>
        print_prices rest)))))
  end.

Fixpoint print_items (price_results : list (pystr * list pydict))
  : outcome unit :=
  match price_results with
  | [] => Ret tt
  | (item, price_list) :: rest =>
      match price_list with
      | [] => print_items rest                      (* continue *)
      | _ :: _ => obind (print_prices price_list) (fun _ => print_items rest)
      end
  end.

(** The body of the loop over the comparison. *)
Definition print_summary (data : pyval) : outcome unit :=
  obind (py_item data (py "lowest")) (fun lowest =>
  if py_truthy lowest then
    obind (py_item data (py "lowest")) (fun lowest =>
    obind (py_format_f lowest) (fun _ =>
    obind (py_item data (py "highest")) (fun highest =>
    obind (py_format_f highest) (fun _ =>
    obind (py_item data (py "average")) (fun average =>
    obind (py_format_f average) (fun _ =>
    obind (py_item data (py "prices")) (fun prices =>
    obind (py_len prices) (fun _ => Ret tt))))))))
  else Ret tt).

Fixpoint print_comparison (comparison : pydict) : outcome unit :=
  match comparison with
  | [] => Ret tt
  | (item, data) :: rest =>
      obind (print_summary data) (fun _ => print_comparison rest)
  end.

Definition print_results (price_results : list (pystr * list pydict))
  : outcome unit :=
  obind (print_items price_results) (fun _ =>
  obind (Compare.compare_prices price_results) (fun comparison =>
    match comparison with
    | [] => Ret tt
    | _ :: _ => print_comparison comparison
    end)).

End Interpreter.
End Report.

(** [csv.DictWriter(f, fieldnames).writeheader(); writerows(rows)]: the
    table written, one list of cells per line.  A row with a key outside
    [fieldnames] raises [ValueError] (the default [extrasaction]); a
    missing key gives the empty cell (the default [restval]).  Quoting and
    the rendering of a value as text are left to the writer; what reached
    the file before a row raised is not kept. *)
Definition csv_row (fieldnames : list pystr) (row : pydict)
  : outcome (list pyval) :=
  if forallb (fun k => existsb (str_eqb k) fieldnames) (dict_keys row)
  then Ret (map (fun k => match dict_get k row with
                          | Some v => v
                          | None => PStr []
                          end) fieldnames)
  else Raise ValueError.

Fixpoint csv_rows (fieldnames : list pystr) (rows : list pydict)
  : outcome (list (list pyval)) :=
  match rows with
  | [] => Ret []
  | r :: t => obind (csv_row fieldnames r) (fun c =>
              obind (csv_rows fieldnames t) (fun cs => Ret (c :: cs)))
  end.

Definition dict_writer (fieldnames : list pystr) (rows : list pydict)
  : outcome (list (list pyval)) :=
  obind (csv_rows fieldnames rows) (fun cs => Ret (map PStr fieldnames :: cs)).

(* ================================================================= *)
(** * your_crawler_script_v1.py: [AutoPriceCrawler] *)

Module AutoPriceCrawler.

Record state : Type := mkState {
  delay : Q;
  max_results : nat;
  price_history : list pydict;
  trace : list event
}.

(** [__init__] *)
Definition init (delay : Q) (max_results : nat) : state :=
  mkState delay max_results [] [].

Definition headers : list (pystr * pystr) :=
  [(py "User-Agent",
    py "Mozilla/5.0 (Windows NT 10.0; Win64; x64) AppleWebKit/537.36 (KHTML, like Gecko) Chrome/91.0.4472.124 Safari/537.36")].

Definition meta_product_price : selector :=
  Selector (Some (py "meta")) [AttrEq (py "property") (py "product:price:amount")].

Definition price_selectors : list selector :=
  [ Selector None [AttrSub (py "class") (py "price")];
    Selector None [AttrSub (py "id") (py "price")];
    Selector (Some (py "span")) [HasClass (py "price")];
    Selector (Some (py "div")) [HasClass (py "price")];
    Selector (Some (py "p")) [HasClass (py "price")];
    Selector None [HasClass (py "product-price")];
    Selector None [HasClass (py "current-price")];
    Selector None [HasClass (py "sale-price")];
    Selector None [AttrEq (py "itemprop") (py "price")];
    Selector (Some (py "span")) [AttrSub (py "class") (py "amount")];
    meta_product_price ].

Definition patterns : list regex :=
  [ (currency_sign +++ star space +++ amount_grouped)%re;
    (amount_grouped +++ star space +++ currency_sign)%re;
    amount_plain ].

(** The [for pattern in patterns] loop: the first pattern that matches
    decides, unless reading its group raises. *)
Fixpoint extract_loop (ps : list regex) (text : pystr) : option Q :=
  match ps with
  | [] => None
  | pattern :: rest =>
      match search pattern (remove_char COMMA text) with
      | Some m =>
          match group1 m with
          | Some g =>
              match float_of_string (remove_char COMMA g) with
              | Some q => Some q
              | None => extract_loop rest text        (* ValueError *)
              end
          | None => extract_loop rest text            (* AttributeError *)
          end
      | None => extract_loop rest text
      end
  end.

Definition extract_price_from_text (text : pystr) : option Q :=
  extract_loop patterns text.

Definition currencies : list (pystr * pystr) :=
  [ ([DOLLAR], [DOLLAR]); ([POUND], [POUND]); ([EURO], [EURO]); ([YEN], [YEN]);
    (py "USD", [DOLLAR]); (py "GBP", [POUND]); (py "EUR", [EURO]) ].

Definition detect_currency (text : pystr) : pystr :=
  match first_some (fun '(symbol, display) =>
                      if contains symbol text then Some display else None)
                   currencies with
  | Some d => d
  | None => [DOLLAR]
  end.

(** [(?:price|cost|buy)[\s:]*[\$...]?\s*(\d+(?:,\d{3})*(?:\.\d{2})?)],
    case-insensitive. *)
Definition body_pattern : regex :=
  (Or (word_i (py "price")) (Or (word_i (py "cost")) (word_i (py "buy")))
   +++ star (Sym (fun c => is_space c || N.eqb c COLON))
   +++ opt currency_sign +++ star space +++ amount_grouped)%re.

Definition in_range (p : Q) : bool :=
  truthy_num p && Qltb (1 # 100)%Q p && Qltb p 1000000%Q.

(** Strategy 1: the selectors, in order; within one, the elements in
    document order. *)
Definition try_element (elem : node) : option (Q * pystr) :=
  let text := get_text_strip elem in
  match extract_price_from_text text with
  | Some potential_price =>
      if in_range potential_price then Some (potential_price, text) else None
  | None => None
  end.

Definition strategy_selectors (doc : soup) : option (Q * pystr) :=
  first_some (fun selector => first_some try_element (select selector doc))
             price_selectors.

(** Strategy 2: the meta tag; the price it gives is not range checked,
    and a zero price is kept in [price] without a [price_text]. *)
Definition strategy_meta (doc : soup) : option Q * pystr :=
  match select_one meta_product_price doc with
  | Some meta_price =>
      match attr (py "content") meta_price with
      | Some c =>
          if truthy_str c then
            let price := extract_price_from_text c in
            if truthy_price price then (price, c) else (price, [])
          else (None, [])
      | None => (None, [])
      end
  | None => (None, [])
  end.

(** Strategy 3: labelled numbers anywhere in the page text. *)
Definition try_match (m : match_obj) : option (Q * pystr) :=
  match extract_price_from_text (group0 m) with
  | Some potential_price =>
      if in_range potential_price then Some (potential_price, group0 m) else None
  | None => None
  end.

Definition strategy_body (doc : soup) : option (Q * pystr) :=
  first_some try_match (finditer body_pattern (soup_get_text doc)).

(** The three strategies on a parsed page: the final [price] and
    [price_text]. *)
Definition locate_price (doc : soup) : option Q * pystr :=
  let '(price, price_text) :=
    match strategy_selectors doc with
    | Some (p, t) => (Some p, t)
    | None => (None, [])
    end in
  let '(price, price_text) :=
    if negb (truthy_price price) then strategy_meta doc
    else (price, price_text) in
  if negb (truthy_price price) then
    match strategy_body doc with
    | Some (p, t) => (Some p, t)
    | None => (price, price_text)
    end
  else (price, price_text).

Definition page_title (doc : soup) (item_name : pystr) : pystr :=
  match orelse (select_one (Selector (Some (py "h1")) []) doc)
               (select_one (Selector (Some (py "title")) []) doc) with
  | Some title_elem => slice_to 100 (get_text_strip title_elem)
  | None => item_name
  end.

Section World.
Variable world : World.
Variable quote_plus : pystr -> pystr.      (* urllib.parse.quote_plus *)
Variable netloc : pystr -> pystr.          (* urlparse(url).netloc *)

Definition log (e : event) (st : state) : state :=
  mkState (delay st) (max_results st) (price_history st) (trace st ++ [e]).

Definition sleep (seconds : Q) (st : state) : state := log (Slept seconds) st.

Definition append_history (r : pydict) (st : state) : state :=
  mkState (delay st) (max_results st) (price_history st ++ [r]) (trace st).

(** [requests.get(url, headers=self.headers, timeout=10)] *)
Definition get (url : pystr) (st : state) : option Response * state :=
  let req := mkRequest url [] headers in
  (http world (trace st) req, log (Fetched req) st).

Fixpoint collect_urls (cap : nat) (links : list node) (urls : list pystr)
  : list pystr :=
  match links with
  | [] => urls
  | link :: rest =>
      match attr (py "href") link with
      | Some href =>
          if truthy_str href && starts_with (py "http") href then
            if contains (py "//duckduckgo.com/l/?") href
            then collect_urls cap rest urls
            else
              let urls' := urls ++ [href] in
              if cap <=? length urls' then urls' else collect_urls cap rest urls'
          else collect_urls cap rest urls
      | None => collect_urls cap rest urls
      end
  end.

Definition search_web_for_item (item_name : pystr) (search_terms : option pystr)
           (st : state) : list pystr * state :=
  let search_terms :=
    match search_terms with
    | None => item_name ++ py " price buy"
    | Some t => item_name ++ py " " ++ t
    end in
  let search_url :=
    py "https://html.duckduckgo.com/html/?q=" ++ quote_plus search_terms in
  let '(response, st) := get search_url st in
  match response with
  | Some r =>
      if http_error r then ([], st)
      else (collect_urls (max_results st)
              (select (Selector (Some (py "a")) [HasClass (py "result__a")])
                      (content r)) [], st)
  | None => ([], st)
  end.

Definition smart_crawl_url (url item_name : pystr) (st : state)
  : option pydict * state :=
  let '(response, st) := get url st in
  match response with
  | Some r =>
      if http_error r then (None, st)
      else
        let doc := content r in
        let '(price, price_text) := locate_price doc in
        match price with
        | Some p =>
            if truthy_num p then
              (Some [ (py "item_name", PStr item_name);
                      (py "title", PStr (page_title doc item_name));
                      (py "price", PNum p);
                      (py "currency", PStr (detect_currency price_text));
                      (py "url", PStr url);
                      (py "timestamp", PStr (now world (trace st)));
                      (py "source", PStr (netloc url)) ], st)
            else (None, st)
        | None => (None, st)
        end
  | None => (None, st)
  end.

(** The [for url in urls] loop of [search_and_crawl]. *)
Fixpoint crawl_loop (item_name : pystr) (min_results : nat)
         (urls : list pystr) (found_prices : list pydict) (st : state)
  : list pydict * state :=
  match urls with
  | [] => (found_prices, st)
  | url :: rest =>
      let '(price_data, st) := smart_crawl_url url item_name st in
      match price_data with
      | Some r =>
          let found_prices := found_prices ++ [r] in
          let st := append_history r st in
          if min_results <=? length found_prices then (found_prices, st)
          else crawl_loop item_name min_results rest found_prices
                          (sleep (delay st) st)
      | None =>
          crawl_loop item_name min_results rest found_prices
                     (sleep (delay st) st)
      end
  end.

Definition search_and_crawl (item_name : pystr) (search_terms : option pystr)
           (min_results : nat) (st : state) : list pydict * state :=
  let '(urls, st) := search_web_for_item item_name search_terms st in
  match urls with
  | [] => ([], st)
  | _ :: _ => crawl_loop item_name min_results urls [] st
  end.

Fixpoint items_loop (last_item : pystr) (search_terms : option pystr)
         (items : list pystr) (all_items_results : list (pystr * list pydict))
         (st : state) : list (pystr * list pydict) * state :=
  match items with
  | [] => (all_items_results, st)
  | item :: rest =>
      let '(found_prices, st) := search_and_crawl item search_terms 3 st in
      let all_items_results := dict_set item found_prices all_items_results in
      let st := if negb (str_eqb item last_item)
                then sleep (delay st * 2)%Q st else st in
      items_loop last_item search_terms rest all_items_results st
  end.

Definition search_multiple_items (items : list pystr)
           (search_terms : option pystr) (st : state)
  : list (pystr * list pydict) * state :=
  items_loop (last items []) search_terms items [] st.

End World.

Definition compare_prices := Compare.compare_prices.

(** [save_to_csv]: [None] when nothing is written. *)
Definition save_to_csv (st : state) : option (outcome (list (list pyval))) :=
  match price_history st with
  | [] => None
  | first :: _ => Some (dict_writer (dict_keys first) (price_history st))
  end.

End AutoPriceCrawler.

(* ================================================================= *)
(** * your_crawler_script_v2.py: [EnhancedPriceCrawler] *)

Module EnhancedPriceCrawler.

Record state : Type := mkState {
  delay : Q;
  max_results : nat;
  price_history : list pydict;
  trace : list event
}.

(** [__init__] *)
Definition init (delay : Q) (max_results : nat) : state :=
  mkState delay max_results [] [].

Definition headers : list (pystr * pystr) :=
  [ (py "User-Agent",
     py "Mozilla/5.0 (Windows NT 10.0; Win64; x64) AppleWebKit/537.36 (KHTML, like Gecko) Chrome/120.0.0.0 Safari/537.36");
    (py "Accept",
     py "text/html,application/xhtml+xml,application/xml;q=0.9,image/webp,*/*;q=0.8");
    (py "Accept-Language", py "en-US,en;q=0.5");
    (py "Accept-Encoding", py "gzip, deflate");
    (py "Connection", py "keep-alive");
    (py "Upgrade-Insecure-Requests", py "1") ].

Definition known_sources : list (pystr * list pystr) :=
  [ (py "gold",
     [ py "https://www.kitco.com/gold-price-today-usa/";
       py "https://www.bullionvault.com/gold-price-chart.do" ]);
    (py "silver",
     [ py "https://www.kitco.com/silver-price-today-usa/";
       py "https://www.bullionvault.com/silver-price-chart.do" ]);
    (py "bitcoin",
     [ py "https://www.coindesk.com/price/bitcoin/";
       py "https://coinmarketcap.com/currencies/bitcoin/" ]);
    (py "crude oil",
     [ py "https://www.investing.com/commodities/crude-oil";
       py "https://markets.businessinsider.com/commodities/oil-price" ]) ].

(** The six patterns, all searched with [re.IGNORECASE]. *)
Definition patterns : list regex :=
  [ (currency_sign +++ star space +++ amount_plain)%re;
    (amount_plain +++ star space +++ currency_sign)%re;
    (word_i (py "USD") +++ star space +++ amount_plain)%re;
    (amount_plain +++ star space +++ word_i (py "USD"))%re;
    (word_i (py "Price")
     +++ plus (Sym (fun c => N.eqb c COLON || is_space c))
     +++ opt (lit DOLLAR) +++ amount_plain)%re;
    (lit DOLLAR
     +++ Grp (Rep digit 1 (Some 3)
              +++ star (opt (lit COMMA) +++ times 3 digit) +++ cents))%re ].

(** [0.01 < price < 10000000] *)
Definition in_range (price : Q) : bool :=
  Qltb (1 # 100)%Q price && Qltb price 10000000%Q.

(** The [for pattern in patterns] loop on the cleaned text: a pattern
    whose first match is out of range is passed over. *)
Fixpoint extract_loop (ps : list regex) (text : pystr) : option Q :=
  match ps with
  | [] => None
  | pattern :: rest =>
      match search pattern text with
      | Some m =>
          match group1 m with
          | Some g =>
              match float_of_string (remove_char COMMA g) with
              | Some price =>
                  if in_range price then Some price
                  else extract_loop rest text
              | None => extract_loop rest text        (* ValueError *)
              end
          | None => extract_loop rest text            (* AttributeError *)
          end
      | None => extract_loop rest text
      end
  end.

Definition extract_price_from_text (text : pystr) : option Q :=
  let text := remove_char BLANK (remove_char COMMA text) in
  extract_loop patterns text.

Definition currencies : list (pystr * pystr) :=
  [ ([DOLLAR], [DOLLAR]); ([POUND], [POUND]); ([EURO], [EURO]); ([YEN], [YEN]);
    (py "USD", [DOLLAR]); (py "GBP", [POUND]); (py "EUR", [EURO]);
    (py "JPY", [YEN]) ].

Definition detect_currency (text : pystr) : pystr :=
  let text_upper := upper text in
  match first_some (fun '(symbol, display) =>
                      if contains symbol text_upper || contains symbol text
                      then Some display else None)
                   currencies with
  | Some d => d
  | None => [DOLLAR]
  end.

Definition meta_selectors : list selector :=
  [ Selector (Some (py "meta")) [AttrEq (py "property") (py "product:price:amount")];
    Selector (Some (py "meta")) [AttrEq (py "property") (py "og:price:amount")];
    Selector (Some (py "meta")) [AttrEq (py "name") (py "price")];
    Selector (Some (py "meta")) [AttrEq (py "itemprop") (py "price")] ].

Definition price_selectors : list selector :=
  [ Selector None [AttrEq (py "itemprop") (py "price")];
    Selector None [HasClass (py "price")];
    Selector None [HasId (py "price")];
    Selector (Some (py "span")) [HasClass (py "price")];
    Selector None [HasClass (py "product-price")];
    Selector None [HasClass (py "sale-price")];
    Selector None [AttrSub (py "class") (py "price")];
    Selector None [AttrHas (py "data-price")] ].

(** Strategy 1: one meta selector. *)
Definition try_meta (doc : soup) (selector : selector) : option (Q * pystr) :=
  match select_one selector doc with
  | Some meta =>
      match attr (py "content") meta with
      | Some c =>
          if truthy_str c then
            match extract_price_from_text c with
            | Some price => if truthy_num price then Some (price, c) else None
            | None => None
            end
          else None
      | None => None
      end
  | None => None
  end.

Definition strategy_meta (doc : soup) : option (Q * pystr) :=
  first_some (try_meta doc) meta_selectors.

(** Strategy 2: one element; the [data-price] attribute first, then the
    text. *)
Definition try_text (elem : node) : option (Q * pystr) :=
  let text := get_text_strip elem in
  if truthy_str text then
    match extract_price_from_text text with
    | Some potential_price =>
        if truthy_num potential_price then Some (potential_price, text) else None
    | None => None
    end
  else None.

Definition try_element (elem : node) : option (Q * pystr) :=
  match attr (py "data-price") elem with
  | Some d =>
      if truthy_str d then
        match extract_price_from_text d with
        | Some price =>
            if truthy_num price then Some (price, d) else try_text elem
        | None => try_text elem
        end
      else try_text elem
  | None => try_text elem
  end.

Definition strategy_selectors (doc : soup) : option (Q * pystr) :=
  first_some (fun selector => first_some try_element (select selector doc))
             price_selectors.

(** Strategy 3: the lines of the page text. *)
Definition page_lines (doc : soup) : list pystr :=
  filter truthy_str (map strip (split [NEWLINE] (soup_get_text doc))).

Definition try_line (line : pystr) : option (Q * pystr) :=
  if (length line <? 200) &&
     (contains [DOLLAR] line || contains (py "price") (lower line)) then
    match extract_price_from_text line with
    | Some potential_price =>
        if truthy_num potential_price && Qltb (1 # 100)%Q potential_price
           && Qltb potential_price 100000%Q
        then Some (potential_price, line) else None
    | None => None
    end
  else None.

Definition strategy_lines (doc : soup) : option (Q * pystr) :=
  first_some try_line (page_lines doc).

(** The cascade: each strategy runs only if [price] is still unset. *)
Definition locate_price (doc : soup) : option (Q * pystr) :=
  match strategy_meta doc with
  | Some r => Some r
  | None =>
      match strategy_selectors doc with
      | Some r => Some r
      | None => strategy_lines doc
      end
  end.

Definition page_title (doc : soup) (item_name : pystr) : pystr :=
  match orelse (select_one (Selector (Some (py "h1")) []) doc)
               (select_one (Selector (Some (py "title")) []) doc) with
  | Some title_elem => slice_to 100 (get_text_strip title_elem)
  | None => item_name
  end.

(** The links kept by [search_google_shopping]. *)
Fixpoint collect_urls (links : list node) (urls : list pystr) : list pystr :=
  match links with
  | [] => urls
  | link :: rest =>
      match attr (py "href") link with
      | Some href =>
          if contains (py "/url?q=") href then
            let actual_url :=
              hd [] (split (py "&") (nth 1 (split (py "/url?q=") href) [])) in
            if starts_with (py "http") actual_url
               && negb (contains (py "google") actual_url) then
              let urls' := urls ++ [actual_url] in
              if 5 <=? length urls' then urls' else collect_urls rest urls'
            else collect_urls rest urls
          else collect_urls rest urls
      | None => collect_urls rest urls
      end
  end.

(** The candidate lines of [check_known_source]. *)
Definition price_candidates (doc : soup) : list (Q * pystr) :=
  flat_map (fun line =>
              let line := strip line in
              if (0 <? length line) && (length line <? 100) then
                match extract_price_from_text line with
                | Some price => if truthy_num price then [(price, line)] else []
                | None => []
                end
              else [])
           (split [NEWLINE] (soup_get_text doc)).

Section World.
Variable world : World.
Variable quote_plus : pystr -> pystr.      (* urllib.parse.quote_plus *)
Variable netloc : pystr -> pystr.          (* urlparse(url).netloc *)

Definition log (e : event) (st : state) : state :=
  mkState (delay st) (max_results st) (price_history st) (trace st ++ [e]).

Definition sleep (seconds : Q) (st : state) : state := log (Slept seconds) st.

Definition append_history (r : pydict) (st : state) : state :=
  mkState (delay st) (max_results st) (price_history st ++ [r]) (trace st).

(** [requests.get(url, headers=self.headers, timeout=...)] *)
Definition get (url : pystr) (st : state) : option Response * state :=
  let req := mkRequest url [] headers in
  (http world (trace st) req, log (Fetched req) st).

Definition search_google_shopping (query : pystr) (st : state)
  : list pystr * state :=
  let search_url :=
    py "https://www.google.com/search?q=" ++ quote_plus query ++ py "&tbm=shop" in
  let '(response, st) := get search_url st in
  match response with
  | Some r =>
      if status_code r =? 200
      then (collect_urls
              (select (Selector (Some (py "a")) [AttrHas (py "href")]) (content r))
              [], st)
      else ([], st)
  | None => ([], st)
  end.

Definition record (item_name title : pystr) (price : Q) (price_text url : pystr)
           (st : state) : pydict :=
  [ (py "item_name", PStr item_name);
    (py "title", PStr title);
    (py "price", PNum price);
    (py "currency", PStr (detect_currency price_text));
    (py "url", PStr url);
    (py "timestamp", PStr (now world (trace st)));
    (py "source", PStr (netloc url)) ].

Definition check_known_source (url item_name : pystr) (st : state)
  : option pydict * state :=
  let '(response, st) := get url st in
  match response with
  | Some r =>
      if http_error r then (None, st)
      else
        match price_candidates (content r) with
        | (price, line) :: _ =>
            (Some (record item_name item_name price line url st), st)
        | [] => (None, st)
        end
  | None => (None, st)
  end.

Definition smart_crawl_url (url item_name : pystr) (st : state)
  : option pydict * state :=
  let '(response, st) := get url st in
  match response with
  | Some r =>
      if http_error r then (None, st)
      else
        let doc := content r in
        match locate_price doc with
        | Some (price, price_text) =>
            (Some (record item_name (page_title doc item_name) price
                          price_text url st), st)
        | None => (None, st)
        end
  | None => (None, st)
  end.

(** The [for url in urls] loop over the known sources of one commodity. *)
Fixpoint check_loop (item_name : pystr) (urls : list pystr)
         (found_prices : list pydict) (st : state) : list pydict * state :=
  match urls with
  | [] => (found_prices, st)
  | url :: rest =>
      let '(price_data, st) := check_known_source url item_name st in
      let '(found_prices, st) :=
        match price_data with
        | Some r => (found_prices ++ [r], append_history r st)
        | None => (found_prices, st)
        end in
      check_loop item_name rest found_prices (sleep (delay st) st)
  end.

(** The loop over [known_sources]; the flag tells that the function
    returned from inside the loop. *)
Fixpoint known_loop (item_name item_lower : pystr)
         (sources : list (pystr * list pystr))
         (found_prices : list pydict) (st : state)
  : bool * list pydict * state :=
  match sources with
  | [] => (false, found_prices, st)
  | (commodity, urls) :: rest =>
      if contains commodity item_lower then
        let '(found_prices, st) := check_loop item_name urls found_prices st in
        match found_prices with
        | _ :: _ => (true, found_prices, st)
        | [] => known_loop item_name item_lower rest found_prices st
        end
      else known_loop item_name item_lower rest found_prices st
  end.

(** The [for url in urls[:self.max_results]] loop. *)
Fixpoint crawl_loop (item_name : pystr) (urls : list pystr)
         (found_prices : list pydict) (st : state) : list pydict * state :=
  match urls with
  | [] => (found_prices, st)
  | url :: rest =>
      let '(price_data, st) := smart_crawl_url url item_name st in
      match price_data with
      | Some r =>
          let found_prices := found_prices ++ [r] in
          let st := append_history r st in
          if 3 <=? length found_prices then (found_prices, st)
          else crawl_loop item_name rest found_prices (sleep (delay st) st)
      | None =>
          crawl_loop item_name rest found_prices (sleep (delay st) st)
      end
  end.

Definition search_and_crawl (item_name : pystr) (search_terms : option pystr)
           (st : state) : list pydict * state :=
  let item_lower := lower item_name in
  let '(returned, found_prices, st) :=
    known_loop item_name item_lower known_sources [] st in
  if returned then (found_prices, st)
  else
    let search_query :=
      match search_terms with
      | Some (c :: t) => item_name ++ py " " ++ (c :: t)
      | _ => item_name ++ py " buy price"
      end in
    let '(urls, st) := search_google_shopping search_query st in
    crawl_loop item_name (firstn (max_results st) urls) found_prices st.

Fixpoint items_loop (last_item : pystr) (search_terms : option pystr)
         (items : list pystr) (all_items_results : list (pystr * list pydict))
         (st : state) : list (pystr * list pydict) * state :=
  match items with
  | [] => (all_items_results, st)
  | item :: rest =>
      let '(item_results, st) := search_and_crawl item search_terms st in
      let all_items_results := dict_set item item_results all_items_results in
      let st := if negb (str_eqb item last_item)
                then sleep (delay st * 3)%Q st else st in
      items_loop last_item search_terms rest all_items_results st
  end.

Definition search_multiple_items (items : list pystr)
           (search_terms : option pystr) (st : state)
  : list (pystr * list pydict) * state :=
  items_loop (last items []) search_terms items [] st.

End World.

Definition compare_prices := Compare.compare_prices.

(** [save_to_csv]: [None] when nothing is written. *)
Definition save_to_csv (st : state) : option (outcome (list (list pyval))) :=
  match price_history st with
  | [] => None
  | first :: _ => Some (dict_writer (dict_keys first) (price_history st))
  end.

End EnhancedPriceCrawler.

(* ================================================================= *)
(** ** Sets of keys and [sorted] *)

(** Code-point order on strings, as Python compares [str]. *)
Fixpoint str_ltb (a b : pystr) : bool :=
  match a, b with
  | [], [] => false
  | [], _ :: _ => true
  | _ :: _, [] => false
  | x :: a', y :: b' => (x <? y)%N || (N.eqb x y && str_ltb a' b')
  end.

Definition str_leb (a b : pystr) : bool := negb (str_ltb b a).

(** [s.add(k)] on a set kept as a duplicate-free list. *)
Definition set_add (k : pystr) (s : list pystr) : list pystr :=
  if existsb (str_eqb k) s then s else s ++ [k].

(** [s.update(keys)] *)
Definition set_update (s : list pystr) (keys : list pystr) : list pystr :=
  fold_left (fun acc k => set_add k acc) keys s.

Fixpoint insert_sorted (k : pystr) (l : list pystr) : list pystr :=
  match l with
  | [] => [k]
  | x :: t => if str_leb k x then k :: l else x :: insert_sorted k t
  end.

(** [sorted(s)] *)
Definition sorted (s : list pystr) : list pystr :=
  fold_right insert_sorted [] s.

(* ================================================================= *)
(** * your_crawler_script.py: [APIPriceCrawler] *)

Module APIPriceCrawler.

Record state : Type := mkState {
  delay : Q;
  price_history : list pydict;
  api_keys : list (pystr * pystr);
  trace : list event
}.

(** [__init__] *)
Definition init (delay : Q) : state := mkState delay [] [] [].

Definition crypto_map : list (pystr * pystr) :=
  [ (py "bitcoin", py "bitcoin"); (py "btc", py "bitcoin");
    (py "ethereum", py "ethereum"); (py "eth", py "ethereum");
    (py "litecoin", py "litecoin"); (py "ltc", py "litecoin");
    (py "ripple", py "ripple"); (py "xrp", py "ripple");
    (py "cardano", py "cardano"); (py "ada", py "cardano") ].

Definition metal_map : list (pystr * pystr) :=
  [ (py "gold", py "XAU"); (py "silver", py "XAG");
    (py "platinum", py "XPT"); (py "palladium", py "XPD") ].

Definition commodity_map : list (pystr * pystr) :=
  [ (py "crude oil", py "WTI"); (py "oil", py "WTI"); (py "wti", py "WTI");
    (py "brent", py "BRENT"); (py "natural gas", py "NG") ].

Definition add_api_key (service key : pystr) (st : state) : state :=
  mkState (delay st) (price_history st) (dict_set service key (api_keys st))
          (trace st).

(** A computation on the crawler: it may raise, and what it did to the
    crawler before raising stays done. *)
Definition M (A : Type) : Type := state -> outcome A * state.

Definition ret {A} (a : A) : M A := fun st => (Ret a, st).

Definition bind {A B} (m : M A) (f : A -> M B) : M B :=
  fun st => match m st with
            | (Ret a, st') => f a st'
            | (Raise e, st') => (Raise e, st')
            end.

Definition lift {A} (o : outcome A) : M A := fun st => (o, st).

(** [try: body  except requests.RequestException: ...
     except (KeyError, ValueError): ...] followed by [return None]. *)
Definition handled (e : exn) : bool :=
  match e with
  | RequestException | KeyError | ValueError => true
  | _ => false
  end.

Definition try_except {A} (body : M (option A)) : M (option A) :=
  fun st => match body st with
            | (Raise e, st') => if handled e then (Ret None, st') else (Raise e, st')
            | r => r
            end.

Declare Scope crawler_scope.
Delimit Scope crawler_scope with M.
Notation "x <- m ;; k" := (bind m (fun x => k))
  (at level 61, m at next level, right associativity) : crawler_scope.
Notation "m ;;; k" := (bind m (fun _ => k))
  (at level 61, right associativity) : crawler_scope.

Section World.
Variable world : World.

Definition log (e : event) : M unit :=
  fun st => (Ret tt, mkState (delay st) (price_history st) (api_keys st)
                             (trace st ++ [e])).

Definition sleep (seconds : Q) : M unit := log (Slept seconds).

Definition append_history (r : pydict) : M unit :=
  fun st => (Ret tt, mkState (delay st) (price_history st ++ [r])
                             (api_keys st) (trace st)).

Definition timestamp : M pystr := fun st => (Ret (now world (trace st)), st).

Definition key_or (service default : pystr) : M pystr :=
  fun st => (Ret (match dict_get service (api_keys st) with
                  | Some k => k
                  | None => default
                  end), st).

(** [requests.get(url, params=..., headers=..., timeout=10)] *)
Definition get (url : pystr) (params headers : list (pystr * pystr))
  : M Response :=
  fun st =>
    let req := mkRequest url params headers in
    let st' := mkState (delay st) (price_history st) (api_keys st)
                       (trace st ++ [Fetched req]) in
    match http world (trace st) req with
    | Some r => (Ret r, st')
    | None => (Raise RequestException, st')
    end.

Definition raise_for_status (r : Response) : M unit :=
  lift (if http_error r then Raise RequestException else Ret tt).

(** [response.json()] *)
Definition json_of (r : Response) : M pyval :=
  lift (match json r with Some v => Ret v | None => Raise ValueError end).

Definition fetch_crypto_price (crypto_id item_name : pystr)
  : M (option pydict) :=
  try_except (
    response <- get (py "https://api.coingecko.com/api/v3/simple/price")
                    [ (py "ids", crypto_id); (py "vs_currencies", py "usd");
                      (py "include_24hr_change", py "true");
                      (py "include_last_updated_at", py "true") ] [] ;;
    raise_for_status response ;;;
    data <- json_of response ;;
    has_id <- lift (py_in crypto_id data) ;;
    if has_id then
      entry <- lift (py_item data crypto_id) ;;
      has_usd <- lift (py_in (py "usd") entry) ;;
      if has_usd then
        price <- lift (py_item entry (py "usd")) ;;
        change_24h <- lift (py_get entry (py "usd_24h_change") (PNum 0)) ;;
        rounded <- lift (py_round2 change_24h) ;;
        ts <- timestamp ;;
        lift (py_format_f price) ;;;
        lift (py_format_f change_24h) ;;;
        ret (Some [ (py "item_name", PStr item_name);
                    (py "title", PStr (title item_name ++ py " (Cryptocurrency)"));
                    (py "price", price);
                    (py "currency", PStr [DOLLAR]);
                    (py "change_24h", rounded);
                    (py "source", PStr (py "CoinGecko API"));
                    (py "api", PStr (py "coingecko"));
                    (py "timestamp", PStr ts);
                    (py "url", PStr (py "https://www.coingecko.com/en/coins/"
                                     ++ crypto_id)) ])
      else ret None
    else ret None)%M.

Definition metal_record (item_name : pystr) (price : pyval)
           (source api ts url : pystr) : pydict :=
  [ (py "item_name", PStr item_name);
    (py "title", PStr (title item_name ++ py " per Troy Ounce"));
    (py "price", price);
    (py "currency", PStr [DOLLAR]);
    (py "unit", PStr (py "troy oz"));
    (py "source", PStr source);
    (py "api", PStr api);
    (py "timestamp", PStr ts);
    (py "url", PStr url) ].

Definition fetch_metal_price_alternative (metal_code item_name : pystr)
  : M (option pydict) :=
  try_except (
    token <- key_or (py "goldapi") (py "goldapi-demo-key") ;;
    response <- get (py "https://www.goldapi.io/api/" ++ metal_code ++ py "/USD")
                    [] [ (py "x-access-token", token) ] ;;
    if status_code response =? 200 then
      data <- json_of response ;;
      has_price <- lift (py_in (py "price") data) ;;
      if has_price then
        price <- lift (py_item data (py "price")) ;;
        rounded <- lift (py_round2 price) ;;
        ts <- timestamp ;;
        lift (py_format_f price) ;;;
        ret (Some (metal_record item_name rounded (py "Gold API")
                                (py "goldapi") ts (py "https://www.goldapi.io/")))
      else ret None
    else ret None)%M.

Definition fetch_metal_price (metal_code item_name : pystr)
  : M (option pydict) :=
  try_except (
    api_key <- key_or (py "metals_api") (py "demo") ;;
    response <- get (py "https://api.metalpriceapi.com/v1/latest")
                    [ (py "api_key", api_key); (py "base", py "USD");
                      (py "currencies", metal_code) ] [] ;;
    if status_code response =? 200 then
      data <- json_of response ;;
      has_rates <- lift (py_in (py "rates") data) ;;
      if has_rates then
        rates <- lift (py_item data (py "rates")) ;;
        has_code <- lift (py_in metal_code rates) ;;
        if has_code then
          rate <- lift (py_item rates metal_code) ;;
          r <- lift (py_num rate) ;;
          let price := if Qltb 0 r then (1 / r)%Q else 0%Q in
          ts <- timestamp ;;
          ret (Some (metal_record item_name (PNum (round2 price))
                                  (py "Metal Price API") (py "metalpriceapi") ts
                                  (py "https://www.metalpriceapi.com/")))
        else ret None
      else ret None
    else fetch_metal_price_alternative metal_code item_name)%M.

Definition fetch_commodity_price (commodity_code item_name : pystr)
  : M (option pydict) :=
  fun st =>
    match dict_get (py "alphavantage") (api_keys st) with
    | None => (Ret None, st)
    | Some apikey =>
        try_except (
          response <- get (py "https://www.alphavantage.co/query")
                          [ (py "function",
                             if str_eqb commodity_code (py "WTI")
                             then py "WTI" else py "BRENT");
                            (py "apikey", apikey); (py "datatype", py "json") ] [] ;;
          raise_for_status response ;;;
          data <- json_of response ;;
          has_data <- lift (py_in (py "data") data) ;;
          if has_data then
            series <- lift (py_item data (py "data")) ;;
            n <- lift (py_len series) ;;
            if 0 <? n then
              latest <- lift (py_item0 series) ;;
              value <- lift (py_item latest (py "value")) ;;
              price <- lift (py_float value) ;;
              ts <- timestamp ;;
              ret (Some [ (py "item_name", PStr item_name);
                          (py "title", PStr (title item_name ++ py " per Barrel"));
                          (py "price", PNum (round2 price));
                          (py "currency", PStr [DOLLAR]);
                          (py "unit", PStr (py "barrel"));
                          (py "source", PStr (py "Alpha Vantage"));
                          (py "api", PStr (py "alphavantage"));
                          (py "timestamp", PStr ts);
                          (py "url", PStr (py "https://www.alphavantage.co/")) ])
            else ret None
          else ret None)%M st
    end.

(** The first key of a table, in the table's order, that occurs in the
    item name. *)
Definition lookup_in (table : list (pystr * pystr)) (item_lower : pystr)
  : option pystr :=
  first_some (fun '(key, code) =>
                if contains key item_lower then Some code else None) table.

Definition search_item (item_name : pystr) : M (option pydict) :=
  let item_lower := strip (lower item_name) in
  match lookup_in crypto_map item_lower with
  | Some crypto_id => fetch_crypto_price crypto_id item_name
  | None =>
      match lookup_in metal_map item_lower with
      | Some metal_code => fetch_metal_price metal_code item_name
      | None =>
          match lookup_in commodity_map item_lower with
          | Some commodity_code => fetch_commodity_price commodity_code item_name
          | None => ret None
          end
      end
  end.

Fixpoint items_loop (last_item : pystr) (items : list pystr)
         (results : list (pystr * option pydict))
  : M (list (pystr * option pydict)) :=
  match items with
  | [] => ret results
  | item :: rest =>
      (result <- search_item item ;;
       let results := dict_set item result results in
       match result with
       | Some ((_ :: _) as r) => append_history r
       | _ => ret tt
       end ;;;
       (if negb (str_eqb item last_item)
        then (d <- (fun st => (Ret (delay st), st)) ;; sleep d)
        else ret tt) ;;;
       items_loop last_item rest results)%M
  end.

Definition search_multiple_items (items : list pystr)
  : M (list (pystr * option pydict)) :=
  items_loop (last items []) items [].

End World.

(** [save_to_csv]: [None] when nothing is written. *)
Definition all_keys (history : list pydict) : list pystr :=
  fold_left (fun acc record => set_update acc (dict_keys record)) history [].

Definition save_to_csv (st : state) : option (outcome (list (list pyval))) :=
  match price_history st with
  | [] => None
  | _ :: _ =>
      Some (dict_writer (sorted (all_keys (price_history st))) (price_history st))
  end.

End APIPriceCrawler.

(** [print_results] of the API crawler.  What is printed is not kept, and
    writing to the console is taken to succeed: the model tells whether
    the call returns or raises, and what. *)
Module APIReport.

Section Interpreter.
Variable dict_slice_error : exn.     (* as in [Report] *)

(** The body of the loop for one item. *)
Definition print_result (data : option pydict) : outcome unit :=
  match data with
  | None | Some [] => Ret tt                          (* continue *)
  | Some ((_ :: _) as d) =>
      obind (py_item (PDict d) (py "currency")) (fun _ =>
      obind (py_item (PDict d) (py "price")) (fun price =>
      obind (py_format_f price) (fun _ =>
      obind (if dict_mem (py "unit") d
             then obind (py_item (PDict d) (py "unit")) (fun _ => Ret tt)
             else Ret tt) (fun _ =>
      obind (if dict_mem (py "change_24h") d
             then
               obind (py_item (PDict d) (py "change_24h")) (fun change =>
               obind (py_num change) (fun _ =>    (* change > 0, change < 0 *)
                 py_format_f change))
             else Ret tt) (fun _ =>
      obind (py_item (PDict d) (py "source")) (fun _ =>
      obind (py_item (PDict d) (py "timestamp")) (fun timestamp =>
        Report.py_slice_to dict_slice_error timestamp)))))))
  end.

Fixpoint print_results (results : list (pystr * option pydict))
  : outcome unit :=
  match results with
  | [] => Ret tt
  | (item, data) :: rest =>
      obind (print_result data) (fun _ => print_results rest)
  end.

End Interpreter.
End APIReport.

(* ================================================================= *)
(** * Properties stated over the model *)

(** The ['price'] entry of a record lies strictly between 0.01 and
    10,000,000. *)
Definition price_in_range (r : pydict) : Prop :=
  exists q, dict_get (py "price") r = Some (PNum q) /\
            ((1 # 100) < q)%Q /\ (q < 10000000)%Q.

Definition history_in_range (h : list pydict) : Prop :=
  Forall price_in_range h.

(** The one request [fetch_crypto_price] sends. *)
Definition coingecko_request (crypto_id : pystr) : Request :=
  mkRequest (py "https://api.coingecko.com/api/v3/simple/price")
            [ (py "ids", crypto_id); (py "vs_currencies", py "usd");
              (py "include_24hr_change", py "true");
              (py "include_last_updated_at", py "true") ] [].

(** What a computation of the API crawler adds to the trace, whether it
    returns or raises. *)
Definition adds {A} (m : APIPriceCrawler.M A) (t : list event) : Prop :=
  forall st, APIPriceCrawler.trace (snd (m st)) = APIPriceCrawler.trace st ++ t.

(** Strict code-point order, and the cell written for a key of the
    header. *)
Definition str_lt (a b : pystr) : Prop := str_ltb a b = true.

Definition csv_cell (row : pydict) (k : pystr) : pyval :=
  match dict_get k row with
  | Some v => v
  | None => PStr []
  end.

(** The numeric price of a record, and the records [compare_prices] can
    read: the four keys it looks up are present and the price is a number. *)
Definition record_price (r : pydict) : option Q :=
  match dict_get (py "price") r with
  | Some v => match py_num v with Ret q => Some q | Raise _ => None end
  | None => None
  end.

Definition comparable (r : pydict) : bool :=
  dict_mem (py "source") r && dict_mem (py "currency") r &&
  dict_mem (py "url") r &&
  match record_price r with Some _ => true | None => false end.

Definition prices_of (l : list pydict) : list Q :=
  flat_map (fun r => match record_price r with Some q => [q] | None => [] end) l.

Definition Qsum (l : list Q) : Q := fold_right Qplus 0%Q l.

(** The summary of one item, as the claim describes it. *)
Definition summary_of (prices : list Q) (e : pyval) : Prop :=
  exists entries lowest highest average ql qh,
    e = PDict [ (py "prices", PList entries); (py "lowest", lowest);
                (py "highest", highest); (py "average", PNum average) ] /\
    length entries = length prices /\
    py_num lowest = Ret ql /\ In ql prices /\
    (forall q, In q prices -> (ql <= q)%Q) /\
    py_num highest = Ret qh /\ In qh prices /\
    (forall q, In q prices -> (q <= qh)%Q) /\
    (average == Qsum prices / inject_Z (Z.of_nat (length prices)))%Q.

(** A list of values that read as the numbers [qs]. *)
Definition reads (vs : list pyval) (qs : list Q) : Prop :=
  Forall2 (fun v q => py_num v = Ret q) vs qs.

(** What the summary of an item is when its records can be read. *)
Definition entry_of (l : list pydict) : option pyval :=
  match Compare.entry l with Ret e => Some e | Raise _ => None end.

(** The requests of a trace, in order. *)
Definition fetches (t : list event) : list Request :=
  flat_map (fun e => match e with Fetched r => [r] | Slept _ => [] end) t.

Definition auto_page_request (url : pystr) : Request :=
  mkRequest url [] AutoPriceCrawler.headers.

Definition enhanced_page_request (url : pystr) : Request :=
  mkRequest url [] EnhancedPriceCrawler.headers.



(** The words a pattern can match, with the effect on group 1: a
    declarative reading of [regex] against which the matcher is checked.
    [matches r w cap cap'] says that [r] matches exactly [w] and turns the
    group register from [cap] into [cap']. *)
Fixpoint iter (P : pystr -> option pystr -> option pystr -> Prop) (n : nat)
         (w : pystr) (cap cap' : option pystr) : Prop :=
  match n with
  | O => w = [] /\ cap' = cap
  | S n' => exists w1 w2 capm,
              w = w1 ++ w2 /\ P w1 cap capm /\ iter P n' w2 capm cap'
  end.

Fixpoint matches (r : regex) (w : pystr) (cap cap' : option pystr) : Prop :=
  match r with
  | Emp => w = [] /\ cap' = cap
  | Sym p => exists c, w = [c] /\ p c = true /\ cap' = cap
  | Cat r1 r2 => exists w1 w2 capm,
                   w = w1 ++ w2 /\ matches r1 w1 cap capm /\
                   matches r2 w2 capm cap'
  | Or r1 r2 => matches r1 w cap cap' \/ matches r2 w cap cap'
  | Rep r1 lo hi =>
      exists n, lo <= n /\
                match hi with Some h => n <= Nat.max h lo | None => True end /\
                iter (matches r1) n w cap cap'
  | Grp r1 => exists c0, matches r1 w cap c0 /\ cap' = Some w
  end.

(** A run of digits, optionally followed by a point and two digits: what
    the amount groups capture once commas are gone. *)
Definition decimal_shape (g : pystr) : Prop :=
  exists ds frac,
    g = ds ++ frac /\ ds <> [] /\ forallb is_digit ds = true /\
    (frac = [] \/
     exists d1 d2, frac = [DOT; d1; d2] /\ is_digit d1 = true /\
                   is_digit d2 = true).

(** A comma-grouped amount: one to three leading digits, groups of three
    digits each after a comma, and optionally a point and two digits. *)
Definition grouped_amount (lead : pystr) (groups : list pystr) (frac : pystr)
  : pystr :=
  lead ++ flat_map (fun g => COMMA :: g) groups ++ frac.

Definition comma_grouped (lead : pystr) (groups : list pystr) (frac : pystr)
  : Prop :=
  1 <= length lead <= 3 /\ forallb is_digit lead = true /\
  Forall (fun g => length g = 3 /\ forallb is_digit g = true) groups /\
  (frac = [] \/
   exists d1 d2, frac = [DOT; d1; d2] /\ is_digit d1 = true /\
                 is_digit d2 = true).

(** The requests of the other adapters of the API crawler. *)
Definition metals_request (api_key metal_code : pystr) : Request :=
  mkRequest (py "https://api.metalpriceapi.com/v1/latest")
            [ (py "api_key", api_key); (py "base", py "USD");
              (py "currencies", metal_code) ] [].

Definition goldapi_request (token metal_code : pystr) : Request :=
  mkRequest (py "https://www.goldapi.io/api/" ++ metal_code ++ py "/USD")
            [] [ (py "x-access-token", token) ].

Definition alphavantage_request (function apikey : pystr) : Request :=
  mkRequest (py "https://www.alphavantage.co/query")
            [ (py "function", function); (py "apikey", apikey);
              (py "datatype", py "json") ] [].

(** [self.api_keys.get(service, default)] *)
Definition key_of (service default : pystr) (st : APIPriceCrawler.state)
  : pystr :=
  match dict_get service (APIPriceCrawler.api_keys st) with
  | Some k => k
  | None => default
  end.

(** The state after one more request. *)
Definition api_requested (r : Request) (st : APIPriceCrawler.state)
  : APIPriceCrawler.state :=
  APIPriceCrawler.mkState (APIPriceCrawler.delay st)
    (APIPriceCrawler.price_history st) (APIPriceCrawler.api_keys st)
    (APIPriceCrawler.trace st ++ [Fetched r]).

(** A computation of the API crawler adds at most [n] events to the
    trace, and one that leaves the history alone. *)
Definition adds_upto {A} (n : nat) (m : APIPriceCrawler.M A) : Prop :=
  forall st, exists t,
    APIPriceCrawler.trace (snd (m st)) = APIPriceCrawler.trace st ++ t /\
    length t <= n.

Definition keeps_history {A} (m : APIPriceCrawler.M A) : Prop :=
  forall st,
    APIPriceCrawler.price_history (snd (m st)) = APIPriceCrawler.price_history st.

(** The records a result mapping holds for the items, in the order of
    the items. *)
Definition found_records (results : list (pystr * option pydict))
           (items : list pystr) : list pydict :=
  flat_map (fun item => match dict_get item results with
                        | Some (Some (x :: r)) => [x :: r]
                        | _ => []
                        end) items.

(** The keys of a record of the two web crawlers, in insertion order. *)
Definition web_keys : list pystr :=
  map py ["item_name"; "title"; "price"; "currency"; "url"; "timestamp";
          "source"]%string.

Definition web_shaped (r : pydict) : Prop := dict_keys r = web_keys.

(** A record as the two web crawlers build it. *)
Definition is_web_record (r : pydict) : Prop :=
  exists item_name title price currency url timestamp source,
    r = [ (py "item_name", PStr item_name); (py "title", PStr title);
          (py "price", PNum price); (py "currency", PStr currency);
          (py "url", PStr url); (py "timestamp", PStr timestamp);
          (py "source", PStr source) ].

(** Every value a computation of the API crawler can return
    satisfies [P]. *)
Definition yields {A} (P : A -> Prop) (m : APIPriceCrawler.M A) : Prop :=
  forall st a st', m st = (Ret a, st') -> P a.

(** A result of [search_item] that [print_results] can print. *)
Definition api_printed (dict_slice_error : exn) (r : option pydict) : Prop :=
  APIReport.print_result dict_slice_error r = Ret tt.

(** A comparison every summary of which [print_results] can print. *)
Definition printable (comparison : pydict) : Prop :=
  Forall (fun kv => Report.print_summary (snd kv) = Ret tt) comparison.

(** The records a result mapping of a web crawler holds for the items,
    in the order of the items. *)
Definition found_lists (results : list (pystr * list pydict))
           (items : list pystr) : list pydict :=
  flat_map (fun item => match dict_get item results with
                        | Some l => l
                        | None => []
                        end) items.

(** The table [save_to_csv] of a web crawler writes for a history of
    records of the crawler's own shape. *)
Definition web_table (history : list pydict) : list (list pyval) :=
  map PStr web_keys :: map (fun r => map (csv_cell r) web_keys) history.

(** The first commodity of [known_sources], in the table's order, whose
    name occurs in the lower-cased item name, with its URLs. *)
Definition first_known (item_lower : pystr) : option (pystr * list pystr) :=
  find (fun s => contains (fst s) item_lower) EnhancedPriceCrawler.known_sources.

(** The events of a pass over known URLs: each one requested, then a
    pause. *)
Definition known_pass (delay : Q) (urls : list pystr) : list event :=
  flat_map (fun u => [Fetched (enhanced_page_request u); Slept delay]) urls.

(** The request [search_google_shopping] sends for a query, and the query
    [search_and_crawl] builds. *)
Definition shopping_request (quoted_query : pystr) : Request :=
  mkRequest (py "https://www.google.com/search?q=" ++ quoted_query
             ++ py "&tbm=shop") [] EnhancedPriceCrawler.headers.

Definition shopping_query (item_name : pystr) (search_terms : option pystr)
  : pystr :=
  match search_terms with
  | Some (c :: t) => item_name ++ py " " ++ (c :: t)
  | _ => item_name ++ py " buy price"
  end.

(** What [search_google_shopping] keeps of a link target. *)
Definition product_url (u : pystr) : Prop :=
  starts_with (py "http") u = true /\ contains (py "google") u = false.

(** The request [search_web_for_item] sends, the search terms it builds,
    and what it keeps of a link target. *)
Definition duck_request (quoted_terms : pystr) : Request :=
  mkRequest (py "https://html.duckduckgo.com/html/?q=" ++ quoted_terms) []
            AutoPriceCrawler.headers.

Definition auto_search_terms (item_name : pystr) (search_terms : option pystr)
  : pystr :=
  match search_terms with
  | None => item_name ++ py " price buy"
  | Some t => item_name ++ py " " ++ t
  end.

Definition result_url (u : pystr) : Prop :=
  starts_with (py "http") u = true /\
  contains (py "//duckduckgo.com/l/?") u = false.

(** A character one of the patterns of the enhanced crawler needs in what
    it matches: a currency sign, or a letter that matches [U] or [P] when
    case is ignored. *)
Definition price_marker (c : N) : bool :=
  is_currency_sign c || N.eqb (to_lower c) 117 || N.eqb (to_lower c) 112.


(** Concrete pages, responses and histories used below. *)
Module Examples.

Definition clock (_ : list event) : pystr := py "2024-01-01T00:00:00".

(** A world that answers every request with the same response. *)
Definition constant_world (r : Response) : World :=
  mkWorld (fun _ _ => Some r) clock.

Definition identity (s : pystr) : pystr := s.

(** The metals service answers [{"rates": {"XAU": 0}}]. *)
Definition zero_rate_world : World :=
  constant_world
    (mkResponse 200
       (Some (PDict [(py "rates", PDict [(py "XAU", PNum 0)])])) []).

(** The quote service answers [{"bitcoin": {"usd": 65000.12}}]. *)
Definition quote_without_change : World :=
  constant_world
    (mkResponse 200
       (Some (PDict [(py "bitcoin", PDict [(py "usd", PNum 65000.12)])])) []).

(** A page with a price in a meta tag and another one in a
    [span.price]. *)
Definition conflict_page : soup :=
  [ Elem (py "html") []
      [ Elem (py "head") []
          [ Elem (py "meta")
              [ (py "property", py "product:price:amount");
                (py "content", py "$19.99") ] [] ];
        Elem (py "body") []
          [ Elem (py "span") [ (py "class", py "price") ]
              [ Text (py "$25.00") ] ] ] ].

Definition conflict_world : World :=
  constant_world (mkResponse 200 None conflict_page).

Definition shop_url : pystr := py "https://shop.example/item".

(** Two records of the web crawlers' shape, the second without a
    ['source']. *)
Definition web_record : pydict :=
  [ (py "item_name", PStr (py "Gold 1oz")); (py "title", PStr (py "Gold 1oz"));
    (py "price", PNum 25); (py "currency", PStr [DOLLAR]);
    (py "url", PStr shop_url); (py "timestamp", PStr (clock []));
    (py "source", PStr (py "shop.example")) ].

Definition web_record_without_source : pydict :=
  [ (py "item_name", PStr (py "Gold 1oz")); (py "title", PStr (py "Gold 1oz"));
    (py "price", PNum 26); (py "currency", PStr [DOLLAR]);
    (py "url", PStr shop_url); (py "timestamp", PStr (clock [])) ].

Definition mixed_history : list pydict :=
  [ web_record; web_record_without_source ].

(** A metal record and a quote record, as the API crawler builds them. *)
Definition api_history : list pydict :=
  [ [ (py "item_name", PStr (py "Gold")); (py "price", PNum 2127.66);
      (py "unit", PStr (py "troy oz")) ];
    [ (py "item_name", PStr (py "Bitcoin")); (py "price", PNum 65000.12);
      (py "change_24h", PNum 1.5) ] ].

Definition two_items : list (pystr * list pydict) :=
  [ (py "Gold 1oz", [ web_record; (py "price", PNum 27) :: web_record ]);
    (py "Unobtainium", []) ].

(** A search page with ten result links, and a world in which every
    other page shows the price $5. *)
Definition result_link (n : string) : node :=
  Elem (py "a") [ (py "class", py "result__a");
                  (py "href", py "http://site" ++ py n) ] [ Text (py "shop") ].

Definition ten_results : soup :=
  map result_link ["0"; "1"; "2"; "3"; "4"; "5"; "6"; "7"; "8"; "9"]%string.

Definition price_page : soup :=
  [ Elem (py "span") [ (py "class", py "price") ] [ Text (py "$5") ] ].

Definition ten_candidates_world : World :=
  mkWorld (fun _ req =>
             if starts_with (py "https://html.duckduckgo.com/") (req_url req)
             then Some (mkResponse 200 None ten_results)
             else Some (mkResponse 200 None price_page))
          clock.

End Examples.

(** More concrete worlds and pages. *)
Module Samples.

(** The quote service answers [{"bitcoin": {"usd": 65000.12,
    "usd_24h_change": null}}]. *)
Definition quote_with_null_change : World :=
  Examples.constant_world
    (mkResponse 200
       (Some (PDict [(py "bitcoin",
                      PDict [(py "usd", PNum 65000.12);
                             (py "usd_24h_change", PNone)])])) []).


(** Every service answers 503. *)
Definition unavailable_world : World :=
  Examples.constant_world (mkResponse 503 None []).

(** The metals service answers 200 with [{"success": false}]. *)
Definition no_rates_world : World :=
  Examples.constant_world
    (mkResponse 200 (Some (PDict [(py "success", PBool false)])) []).


(** A Google result page with six product links, and a world in which
    every other page is empty. *)
Definition shopping_link (n : string) : node :=
  Elem (py "a") [ (py "href", py "/url?q=http://shop" ++ py n ++ py "&sa=U") ]
       [ Text (py "offer") ].

Definition shopping_results : soup :=
  map shopping_link ["0"; "1"; "2"; "3"; "4"; "5"]%string.

Definition barren_world : World :=
  mkWorld (fun _ req =>
             if starts_with (py "https://www.google.com/") (req_url req)
             then Some (mkResponse 200 None shopping_results)
             else Some (mkResponse 200 None []))
          Examples.clock.

End Samples.

(* ================================================================= *)
(** * Basic facts *)

Unset Implicit Arguments.
#[local] Arguments Nat.leb : simpl never.
#[local] Arguments Nat.ltb : simpl never.

Lemma str_eqb_eq (a b : pystr) : str_eqb a b = true <-> a = b.
Proof.
  revert b; induction a as [|x a IH]; destruct b as [|y b]; simpl;
    try (split; congruence).
  rewrite andb_true_iff, N.eqb_eq, IH. split.
  - intros [-> ->]; reflexivity.
  - intros H; inversion H; auto.
Qed.

Lemma str_eqb_refl (a : pystr) : str_eqb a a = true.
Proof. apply str_eqb_eq; reflexivity. Qed.

Lemma str_eqb_neq (a b : pystr) : str_eqb a b = false <-> a <> b.
Proof.
  rewrite <- str_eqb_eq. destruct (str_eqb a b); split; congruence.
Qed.

Lemma Qltb_lt (a b : Q) : Qltb a b = true <-> (a < b)%Q.
Proof.
  unfold Qltb. rewrite negb_true_iff. split; intros H.
  - apply Qnot_le_lt. intros Hle. apply Qle_bool_iff in Hle. congruence.
  - destruct (Qle_bool b a) eqn:E; auto.
    apply Qle_bool_iff in E. exfalso. eapply Qlt_not_le; eauto.
Qed.

Lemma Qltb_ge (a b : Q) : Qltb a b = false <-> (b <= a)%Q.
Proof.
  unfold Qltb. rewrite negb_false_iff. apply Qle_bool_iff.
Qed.

Lemma truthy_num_pos (q : Q) : (0 < q)%Q -> truthy_num q = true.
Proof.
  intros H. unfold truthy_num. apply negb_true_iff.
  destruct (Qeq_bool q 0) eqn:E; auto.
  apply Qeq_bool_iff in E. rewrite E in H. exfalso. revert H. apply Qlt_irrefl.
Qed.

Lemma first_some_In {A B} (f : A -> option B) (l : list A) (y : B) :
  first_some f l = Some y -> exists x, In x l /\ f x = Some y.
Proof.
  induction l as [|x l IH]; simpl; [discriminate|].
  destruct (f x) eqn:E.
  - intros H; inversion H; subst. exists x; auto.
  - intros H. destruct (IH H) as (x' & Hin & Hx). exists x'; auto.
Qed.

Lemma first_some_app {A B} (f : A -> option B) (l1 l2 : list A) :
  (forall x, In x l1 -> f x = None) ->
  first_some f (l1 ++ l2) = first_some f l2.
Proof.
  induction l1 as [|x l1 IH]; simpl; intros H; auto.
  rewrite (H x) by auto. apply IH. intros; apply H; auto.
Qed.

(* ================================================================= *)
(** * The text parser of the enhanced crawler validates what it returns *)

Module EnhancedFacts.
Import EnhancedPriceCrawler.

Lemma enhanced_in_range_spec (p : Q) :
  in_range p = true <-> ((1 # 100) < p)%Q /\ (p < 10000000)%Q.
Proof.
  unfold in_range. rewrite andb_true_iff, !Qltb_lt. tauto.
Qed.

Lemma in_range_truthy (p : Q) : in_range p = true -> truthy_num p = true.
Proof.
  intros H. apply enhanced_in_range_spec in H. destruct H as [H _].
  apply truthy_num_pos. eapply Qlt_trans; [|exact H]. reflexivity.
Qed.

Lemma extract_loop_in_range (ps : list regex) (text : pystr) (p : Q) :
  extract_loop ps text = Some p -> in_range p = true.
Proof.
  induction ps as [|r ps IH]; simpl; [discriminate|].
  destruct (search r text) as [m|]; auto.
  destruct (group1 m) as [g|]; auto.
  destruct (float_of_string (remove_char COMMA g)) as [q|]; auto.
  destruct (in_range q) eqn:E; auto.
  intros H; inversion H; subst; exact E.
Qed.

Lemma extract_in_range (text : pystr) (p : Q) :
  extract_price_from_text text = Some p -> in_range p = true.
Proof. apply extract_loop_in_range. Qed.

Lemma extract_empty : extract_price_from_text [] = None.
Proof. reflexivity. Qed.

End EnhancedFacts.




(** The enhanced parser on an eight-digit amount: the first pattern
    reads 10000000, which is refused; the last pattern then matches the
    first six digits. *)
Example enhanced_extract_ten_million :
  EnhancedPriceCrawler.extract_price_from_text (py "$10,000,000") = Some 100000%Q.
Proof. reflexivity. Qed.

(* ================================================================= *)
(** * The history of the enhanced crawler only holds validated prices *)

Module EnhancedHistory.
Import EnhancedPriceCrawler EnhancedFacts.

Lemma try_meta_in_range doc sel p t :
  try_meta doc sel = Some (p, t) -> in_range p = true.
Proof.
  unfold try_meta.
  destruct (select_one sel doc) as [meta|]; [|discriminate].
  destruct (attr (py "content") meta) as [c|]; [|discriminate].
  destruct (truthy_str c); [|discriminate].
  destruct (extract_price_from_text c) as [q|] eqn:E; [|discriminate].
  destruct (truthy_num q); [|discriminate].
  intros H; inversion H; subst. eapply extract_in_range; eauto.
Qed.

Lemma try_text_in_range elem p t :
  try_text elem = Some (p, t) -> in_range p = true.
Proof.
  unfold try_text.
  destruct (truthy_str (get_text_strip elem)); [|discriminate].
  destruct (extract_price_from_text (get_text_strip elem)) as [q|] eqn:E;
    [|discriminate].
  destruct (truthy_num q); [|discriminate].
  intros H; inversion H; subst. eapply extract_in_range; eauto.
Qed.

Lemma try_element_in_range elem p t :
  try_element elem = Some (p, t) -> in_range p = true.
Proof.
  unfold try_element.
  destruct (attr (py "data-price") elem) as [d|];
    [|apply try_text_in_range].
  destruct (truthy_str d); [|apply try_text_in_range].
  destruct (extract_price_from_text d) as [q|] eqn:E;
    [|apply try_text_in_range].
  destruct (truthy_num q); [|apply try_text_in_range].
  intros H; inversion H; subst. eapply extract_in_range; eauto.
Qed.

Lemma try_line_in_range line p t :
  try_line line = Some (p, t) -> in_range p = true.
Proof.
  unfold try_line.
  destruct ((length line <? 200) && _); [|discriminate].
  destruct (extract_price_from_text line) as [q|] eqn:E; [|discriminate].
  destruct (truthy_num q && _ && _); [|discriminate].
  intros H; inversion H; subst. eapply extract_in_range; eauto.
Qed.

Lemma locate_price_in_range doc p t :
  locate_price doc = Some (p, t) -> in_range p = true.
Proof.
  unfold locate_price, strategy_meta, strategy_selectors, strategy_lines.
  destruct (first_some (try_meta doc) meta_selectors) as [[q u]|] eqn:E1.
  { intros H; inversion H; subst.
    apply first_some_In in E1. destruct E1 as (sel & _ & Hs).
    eapply try_meta_in_range; eauto. }
  destruct (first_some _ price_selectors) as [[q u]|] eqn:E2.
  { intros H; inversion H; subst.
    apply first_some_In in E2. destruct E2 as (sel & _ & Hs).
    apply first_some_In in Hs. destruct Hs as (elem & _ & He).
    eapply try_element_in_range; eauto. }
  intros H. apply first_some_In in H. destruct H as (line & _ & Hl).
  eapply try_line_in_range; eauto.
Qed.

Lemma price_candidates_in_range doc p line :
  In (p, line) (price_candidates doc) -> in_range p = true.
Proof.
  unfold price_candidates. rewrite in_flat_map.
  intros (l & _ & H).
  destruct ((0 <? length (strip l)) && _); [|contradiction].
  destruct (extract_price_from_text (strip l)) as [q|] eqn:E; [|contradiction].
  destruct (truthy_num q); [|contradiction].
  destruct H as [H|[]]. inversion H; subst. eapply extract_in_range; eauto.
Qed.

Section World.
Variable world : World.
Variable quote_plus : pystr -> pystr.
Variable netloc : pystr -> pystr.

Lemma record_has_price item_name title price price_text url st :
  dict_get (py "price")
           (record world netloc item_name title price price_text url st)
  = Some (PNum price).
Proof. reflexivity. Qed.

Lemma record_in_range item_name title price price_text url st :
  in_range price = true ->
  price_in_range (record world netloc item_name title price price_text url st).
Proof.
  intros H. exists price. split; [apply record_has_price|].
  apply enhanced_in_range_spec; assumption.
Qed.

Lemma check_known_source_sound url item_name st res st' :
  check_known_source world netloc url item_name st = (res, st') ->
  price_history st' = price_history st /\
  (forall r, res = Some r -> price_in_range r).
Proof.
  unfold check_known_source, get.
  destruct (http world (trace st) _) as [r|].
  2:{ intros H; inversion H; subst; split; [reflexivity|discriminate]. }
  destruct (http_error r).
  { intros H; inversion H; subst; split; [reflexivity|discriminate]. }
  destruct (price_candidates (content r)) as [|[p line] rest] eqn:E.
  { intros H; inversion H; subst; split; [reflexivity|discriminate]. }
  intros H; inversion H; subst; split; [reflexivity|].
  intros r0 Hr; inversion Hr; subst. apply record_in_range.
  apply (price_candidates_in_range (content r) p line).
  rewrite E; left; reflexivity.
Qed.

Lemma smart_crawl_url_sound url item_name st res st' :
  smart_crawl_url world netloc url item_name st = (res, st') ->
  price_history st' = price_history st /\
  (forall r, res = Some r -> price_in_range r).
Proof.
  unfold smart_crawl_url, get.
  destruct (http world (trace st) _) as [r|].
  2:{ intros H; inversion H; subst; split; [reflexivity|discriminate]. }
  destruct (http_error r).
  { intros H; inversion H; subst; split; [reflexivity|discriminate]. }
  destruct (locate_price (content r)) as [[p t]|] eqn:E.
  2:{ intros H; inversion H; subst; split; [reflexivity|discriminate]. }
  intros H; inversion H; subst; split; [reflexivity|].
  intros r0 Hr; inversion Hr; subst. apply record_in_range.
  eapply locate_price_in_range; eauto.
Qed.

Lemma check_loop_sound item_name urls : forall found st found' st',
  check_loop world netloc item_name urls found st = (found', st') ->
  history_in_range (price_history st) ->
  history_in_range (price_history st').
Proof.
  induction urls as [|url urls IH]; simpl; intros found st found' st' H Hinv.
  { inversion H; subst; assumption. }
  destruct (check_known_source world netloc url item_name st) as [res st1] eqn:E.
  apply check_known_source_sound in E. destruct E as [Eh Er].
  destruct res as [r|]; eapply IH; eauto; simpl; rewrite Eh; auto.
  apply Forall_app; split; auto.
Qed.

Lemma known_loop_sound item_name item_lower sources :
  forall found st b found' st',
  known_loop world netloc item_name item_lower sources found st
    = (b, found', st') ->
  history_in_range (price_history st) ->
  history_in_range (price_history st').
Proof.
  induction sources as [|[commodity urls] sources IH]; simpl;
    intros found st b found' st' H Hinv.
  { inversion H; subst; assumption. }
  destruct (contains commodity item_lower); [|eapply IH; eauto].
  destruct (check_loop world netloc item_name urls found st) as [f1 st1] eqn:E.
  apply check_loop_sound in E; auto.
  destruct f1; [eapply IH; eauto|].
  inversion H; subst; assumption.
Qed.

Lemma crawl_loop_sound item_name urls : forall found st found' st',
  crawl_loop world netloc item_name urls found st = (found', st') ->
  history_in_range (price_history st) ->
  history_in_range (price_history st').
Proof.
  induction urls as [|url urls IH]; simpl; intros found st found' st' H Hinv.
  { inversion H; subst; assumption. }
  destruct (smart_crawl_url world netloc url item_name st) as [res st1] eqn:E.
  apply smart_crawl_url_sound in E. destruct E as [Eh Er].
  destruct res as [r|].
  - assert (Hinv1 : history_in_range (price_history (append_history r st1))).
    { simpl. rewrite Eh. apply Forall_app; split; auto. }
    destruct (3 <=? length (found ++ [r])).
    + inversion H; subst; exact Hinv1.
    + eapply IH; eauto.
  - eapply IH; eauto. simpl. rewrite Eh; assumption.
Qed.

Lemma search_and_crawl_sound item_name search_terms st found st' :
  search_and_crawl world quote_plus netloc item_name search_terms st
    = (found, st') ->
  history_in_range (price_history st) ->
  history_in_range (price_history st').
Proof.
  unfold search_and_crawl. intros H Hinv.
  destruct (known_loop world netloc item_name (lower item_name)
                       known_sources [] st) as [[b f1] st1] eqn:E.
  apply known_loop_sound in E; auto.
  destruct b. { inversion H; subst; assumption. }
  destruct (search_google_shopping world quote_plus _ st1) as [urls st2] eqn:E2.
  assert (Hst2 : price_history st2 = price_history st1).
  { unfold search_google_shopping, get in E2.
    destruct (http world (trace st1) _) as [r|];
      [destruct (status_code r =? 200)|]; inversion E2; reflexivity. }
  eapply crawl_loop_sound; eauto. rewrite Hst2; assumption.
Qed.

Lemma items_loop_sound last_item search_terms items :
  forall results st results' st',
  items_loop world quote_plus netloc last_item search_terms items results st
    = (results', st') ->
  history_in_range (price_history st) ->
  history_in_range (price_history st').
Proof.
  induction items as [|item items IH]; simpl;
    intros results st results' st' H Hinv.
  { inversion H; subst; assumption. }
  destruct (search_and_crawl world quote_plus netloc item search_terms st)
    as [found st1] eqn:E.
  apply search_and_crawl_sound in E; auto.
  eapply IH; eauto.
  destruct (negb (str_eqb item last_item)); simpl; assumption.
Qed.

End World.
End EnhancedHistory.

(** C1, as amended for the enhanced crawler: after any batch run of
    [search_multiple_items] on a fresh crawler, whatever the items and
    whatever the network answers, every record of [price_history] has a
    ['price'] strictly between 0.01 and 10,000,000. *)
Theorem enhanced_history_in_range
  (world : World) (quote_plus netloc : pystr -> pystr)
  (items : list pystr) (search_terms : option pystr)
  (delay : Q) (max_results : nat) :
  history_in_range
    (EnhancedPriceCrawler.price_history
       (snd (EnhancedPriceCrawler.search_multiple_items
               world quote_plus netloc items search_terms
               (EnhancedPriceCrawler.init delay max_results)))).
Proof.
  unfold EnhancedPriceCrawler.search_multiple_items.
  destruct (EnhancedPriceCrawler.items_loop _ _ _ _ _ _ _ _) as [res st'] eqn:E.
  simpl. eapply EnhancedHistory.items_loop_sound; eauto.
  constructor.
Qed.

(** C1 fails on the API crawler: with the metals service answering a
    rate of 0, the batch run for "Gold" appends a record whose price is 0. *)
Lemma api_history_holds_a_zero_price :
  ~ history_in_range
      (APIPriceCrawler.price_history
         (snd (APIPriceCrawler.search_multiple_items
                 Examples.zero_rate_world [py "Gold"]
                 (APIPriceCrawler.init 1)))).
Proof.
  intros H. inversion H as [|r l Hr _ Heq]; subst; clear H.
  destruct Hr as (q & Hq & Hlo & _).
  vm_compute in Hq. inversion Hq; subst.
  revert Hlo. vm_compute. discriminate.
Qed.

(* ================================================================= *)
(** * The API crawler: classification and the quote adapter *)

Module APIFacts.
Import APIPriceCrawler.

Lemma lookup_in_hit (table : list (pystr * pystr)) (item_lower key : pystr) :
  In key (dict_keys table) -> contains key item_lower = true ->
  exists code, lookup_in table item_lower = Some code /\ In code (map snd table).
Proof.
  unfold lookup_in, dict_keys.
  induction table as [|[k c] table IH]; simpl; [contradiction|].
  intros [Hk|Hk] Hc.
  - subst k. rewrite Hc. exists c; auto.
  - destruct (contains k item_lower).
    + exists c; auto.
    + destruct (IH Hk Hc) as (code & H1 & H2). exists code; auto.
Qed.

Section World.
Variable world : World.

Lemma adds_ret {A} (a : A) : adds (ret a) [].
Proof. intros st; simpl; rewrite app_nil_r; reflexivity. Qed.

Lemma adds_lift {A} (o : outcome A) : adds (lift o) [].
Proof. intros st; simpl; rewrite app_nil_r; reflexivity. Qed.

Lemma adds_timestamp : adds (timestamp world) [].
Proof. intros st; simpl; rewrite app_nil_r; reflexivity. Qed.

Lemma adds_get url params headers :
  adds (get world url params headers) [Fetched (mkRequest url params headers)].
Proof.
  intros st; unfold get.
  destruct (http world (trace st) _); reflexivity.
Qed.

Lemma adds_bind {A B} (m : M A) (f : A -> M B) (t : list event) :
  adds m t -> (forall a, adds (f a) []) -> adds (bind m f) t.
Proof.
  intros Hm Hf st. unfold bind. specialize (Hm st).
  destruct (m st) as [[a|e] st1]; simpl in *; auto.
  rewrite (Hf a st1), app_nil_r. exact Hm.
Qed.

Lemma adds_try {A} (m : M (option A)) (t : list event) :
  adds m t -> adds (try_except m) t.
Proof.
  intros Hm st. unfold try_except. specialize (Hm st).
  destruct (m st) as [[a|e] st1]; simpl in *; auto.
  destruct (handled e); exact Hm.
Qed.

Ltac adds_nothing :=
  repeat first
    [ apply adds_ret | apply adds_lift | apply adds_timestamp
    | apply adds_bind; [|intros]
    | match goal with
      | |- adds (if ?b then _ else _) _ => destruct b
      end ].

Lemma fetch_crypto_trace crypto_id item_name st :
  trace (snd (fetch_crypto_price world crypto_id item_name st))
  = trace st ++ [Fetched (coingecko_request crypto_id)].
Proof.
  revert st. change (adds (fetch_crypto_price world crypto_id item_name)
                          [Fetched (coingecko_request crypto_id)]).
  unfold fetch_crypto_price, raise_for_status, json_of.
  apply adds_try. apply adds_bind; [apply adds_get|].
  intros response. adds_nothing.
Qed.



End World.
End APIFacts.

(** C5: an item name whose lower-cased form contains a key of the
    cryptocurrency table and a key of the metal table is resolved by the
    cryptocurrency table: [search_item] is the quote adapter on one of
    that table's identifiers, and the only request it sends is the one to
    the quote service. *)
Theorem search_item_prefers_crypto
  (world : World) (item_name crypto_key metal_key : pystr) :
  In crypto_key (dict_keys APIPriceCrawler.crypto_map) ->
  contains crypto_key (strip (lower item_name)) = true ->
  In metal_key (dict_keys APIPriceCrawler.metal_map) ->
  contains metal_key (strip (lower item_name)) = true ->
  exists crypto_id,
    In crypto_id (map snd APIPriceCrawler.crypto_map) /\
    APIPriceCrawler.search_item world item_name
      = APIPriceCrawler.fetch_crypto_price world crypto_id item_name /\
    forall st,
      APIPriceCrawler.trace (snd (APIPriceCrawler.search_item world item_name st))
      = APIPriceCrawler.trace st ++ [Fetched (coingecko_request crypto_id)].
Proof.
  intros Hk Hc _ _.
  destruct (APIFacts.lookup_in_hit _ _ _ Hk Hc) as (crypto_id & Hl & Hin).
  exists crypto_id. split; [exact Hin|].
  assert (E : APIPriceCrawler.search_item world item_name
              = APIPriceCrawler.fetch_crypto_price world crypto_id item_name).
  { unfold APIPriceCrawler.search_item. rewrite Hl. reflexivity. }
  split; [exact E|].
  intros st. rewrite E. apply APIFacts.fetch_crypto_trace.
Qed.

Lemma search_item_prefers_crypto_witness :
  exists crypto_id,
    In crypto_id (map snd APIPriceCrawler.crypto_map) /\
    APIPriceCrawler.search_item Examples.zero_rate_world (py "Bitcoin Gold fund")
      = APIPriceCrawler.fetch_crypto_price Examples.zero_rate_world crypto_id
          (py "Bitcoin Gold fund") /\
    forall st,
      APIPriceCrawler.trace
        (snd (APIPriceCrawler.search_item Examples.zero_rate_world
                (py "Bitcoin Gold fund") st))
      = APIPriceCrawler.trace st ++ [Fetched (coingecko_request crypto_id)].
Proof.
  apply (search_item_prefers_crypto Examples.zero_rate_world
           (py "Bitcoin Gold fund") (py "bitcoin") (py "gold")).
  - simpl; auto.
  - reflexivity.
  - simpl; auto.
  - reflexivity.
Defined.



(* ================================================================= *)
(** * The strategy cascade of the page locator *)

(** C2, as amended for the enhanced crawler: if one of the meta
    selectors finds a tag whose [content] the text parser reads as a
    price [p], and the selectors before it give nothing, then
    [smart_crawl_url] returns a record with price [p] and the currency
    detected in that [content], whatever the rest of the page holds. *)
Theorem enhanced_metadata_first
  (world : World) (netloc : pystr -> pystr)
  (url item_name : pystr) (st : EnhancedPriceCrawler.state)
  (resp : Response) (before after : list selector) (sel : selector)
  (meta : node) (c : pystr) (p : Q) :
  http world (EnhancedPriceCrawler.trace st)
       (mkRequest url [] EnhancedPriceCrawler.headers) = Some resp ->
  http_error resp = false ->
  EnhancedPriceCrawler.meta_selectors = before ++ sel :: after ->
  (forall s, In s before ->
             EnhancedPriceCrawler.try_meta (content resp) s = None) ->
  select_one sel (content resp) = Some meta ->
  attr (py "content") meta = Some c ->
  EnhancedPriceCrawler.extract_price_from_text c = Some p ->
  exists r st',
    EnhancedPriceCrawler.smart_crawl_url world netloc url item_name st
      = (Some r, st') /\
    dict_get (py "price") r = Some (PNum p) /\
    dict_get (py "currency") r
      = Some (PStr (EnhancedPriceCrawler.detect_currency c)).
Proof.
  intros Hh He Hsel Hbefore Hone Hc Hp.
  assert (Hm : EnhancedPriceCrawler.try_meta (content resp) sel = Some (p, c)).
  { unfold EnhancedPriceCrawler.try_meta. rewrite Hone, Hc.
    destruct c as [|x c].
    - rewrite EnhancedFacts.extract_empty in Hp; discriminate.
    - simpl truthy_str. cbv iota. rewrite Hp.
      rewrite (EnhancedFacts.in_range_truthy p); [reflexivity|].
      eapply EnhancedFacts.extract_in_range; eauto. }
  unfold EnhancedPriceCrawler.smart_crawl_url, EnhancedPriceCrawler.get.
  rewrite Hh, He.
  unfold EnhancedPriceCrawler.locate_price, EnhancedPriceCrawler.strategy_meta.
  rewrite Hsel, (first_some_app _ before (sel :: after) Hbefore).
  simpl first_some. rewrite Hm.
  do 2 eexists. split; [reflexivity|]. split; reflexivity.
Qed.

Lemma enhanced_metadata_first_witness :
  exists r st',
    EnhancedPriceCrawler.smart_crawl_url Examples.conflict_world Examples.identity
      Examples.shop_url (py "Gold 1oz") (EnhancedPriceCrawler.init 2 15)
      = (Some r, st') /\
    dict_get (py "price") r = Some (PNum 19.99) /\
    dict_get (py "currency") r
      = Some (PStr (EnhancedPriceCrawler.detect_currency (py "$19.99"))).
Proof.
  apply (enhanced_metadata_first Examples.conflict_world Examples.identity
           Examples.shop_url (py "Gold 1oz") (EnhancedPriceCrawler.init 2 15)
           (mkResponse 200 None Examples.conflict_page)
           [] (tl EnhancedPriceCrawler.meta_selectors)
           (Selector (Some (py "meta"))
                     [AttrEq (py "property") (py "product:price:amount")])
           (Elem (py "meta")
                 [ (py "property", py "product:price:amount");
                   (py "content", py "$19.99") ] [])
           (py "$19.99") 19.99%Q).
  - reflexivity.
  - reflexivity.
  - reflexivity.
  - intros s [].
  - reflexivity.
  - reflexivity.
  - reflexivity.
Defined.

(** C2 fails on the auto-discovery crawler, whose first strategy is the
    selector list: on a page with the meta price 19.99 and a [span.price]
    of 25.00 it returns 25.00. *)
Lemma auto_selector_price_wins :
  select_one AutoPriceCrawler.meta_product_price Examples.conflict_page
    = Some (Elem (py "meta")
                 [ (py "property", py "product:price:amount");
                   (py "content", py "$19.99") ] []) /\
  AutoPriceCrawler.extract_price_from_text (py "$19.99") = Some 19.99%Q /\
  exists r,
    fst (AutoPriceCrawler.smart_crawl_url Examples.conflict_world Examples.identity
           Examples.shop_url (py "Gold 1oz") (AutoPriceCrawler.init 2 10))
      = Some r /\
    dict_get (py "price") r = Some (PNum 25.00) /\
    ~ (25.00 == 19.99)%Q.
Proof.
  split; [reflexivity|]. split; [reflexivity|].
  eexists. split; [vm_compute; reflexivity|].
  split; [reflexivity | discriminate].
Qed.

(* ================================================================= *)
(** * CSV export *)

Module CsvFacts.

Lemma str_ltb_trans (a b c : pystr) :
  str_ltb a b = true -> str_ltb b c = true -> str_ltb a c = true.
Proof.
  revert b c; induction a as [|x a IH]; intros [|y b] [|z c]; simpl;
    try congruence.
  rewrite !orb_true_iff, !andb_true_iff, !N.ltb_lt, !N.eqb_eq.
  intros [H1|[H1 H1']] [H2|[H2 H2']].
  - left; lia.
  - left; lia.
  - left; lia.
  - right; split; [lia | eapply IH; eauto].
Qed.

Lemma str_ltb_irrefl (a : pystr) : str_ltb a a = false.
Proof.
  induction a as [|x a IH]; simpl; auto.
  rewrite IH, N.ltb_irrefl, andb_false_r. reflexivity.
Qed.

Lemma str_ltb_total (a b : pystr) :
  str_ltb a b = false -> str_ltb b a = false -> a = b.
Proof.
  revert b; induction a as [|x a IH]; intros [|y b]; simpl; try congruence.
  rewrite !orb_false_iff, !andb_false_iff, !N.ltb_ge, !N.eqb_neq.
  intros [H1 H1'] [H2 H2'].
  assert (x = y) by lia. subst y. f_equal. apply IH.
  - destruct H1'; [congruence | assumption].
  - destruct H2'; [congruence | assumption].
Qed.

Lemma existsb_str_eqb (k : pystr) (l : list pystr) :
  existsb (str_eqb k) l = true <-> In k l.
Proof.
  rewrite existsb_exists. split.
  - intros (x & Hin & Hx). apply str_eqb_eq in Hx; subst; assumption.
  - intros H. exists k; split; [assumption | apply str_eqb_refl].
Qed.

Lemma set_add_In (k x : pystr) (s : list pystr) :
  In x (set_add k s) <-> x = k \/ In x s.
Proof.
  unfold set_add. destruct (existsb (str_eqb k) s) eqn:E.
  - apply existsb_str_eqb in E. split; [auto|]. intros [->|H]; auto.
  - rewrite in_app_iff. simpl. intuition.
Qed.

Lemma set_add_NoDup (k : pystr) (s : list pystr) :
  NoDup s -> NoDup (set_add k s).
Proof.
  intros H. unfold set_add. destruct (existsb (str_eqb k) s) eqn:E; auto.
  assert (Hk : ~ In k s).
  { intros Hin. apply existsb_str_eqb in Hin. congruence. }
  clear E. induction H as [|x s Hx Hs IH]; simpl.
  - constructor; [intros []|constructor].
  - constructor.
    + rewrite in_app_iff. simpl. intros [H|[H|[]]]; [auto|].
      subst; apply Hk; left; reflexivity.
    + apply IH. intros H; apply Hk; right; assumption.
Qed.

Lemma set_update_In (keys s : list pystr) (x : pystr) :
  In x (set_update s keys) <-> In x s \/ In x keys.
Proof.
  unfold set_update. revert s; induction keys as [|k keys IH]; intros s; simpl.
  - tauto.
  - rewrite IH, set_add_In. intuition.
Qed.

Lemma set_update_NoDup (keys s : list pystr) :
  NoDup s -> NoDup (set_update s keys).
Proof.
  unfold set_update. revert s; induction keys as [|k keys IH]; intros s H; simpl.
  - assumption.
  - apply IH, set_add_NoDup, H.
Qed.

Lemma fold_keys_In (history : list pydict) (s : list pystr) (x : pystr) :
  In x (fold_left (fun acc record => set_update acc (dict_keys record)) history s)
  <-> In x s \/ exists r, In r history /\ In x (dict_keys r).
Proof.
  revert s; induction history as [|r history IH]; intros s; simpl.
  - split; [auto|]. intros [H|(r & [] & _)]; assumption.
  - rewrite IH, set_update_In. split.
    + intros [[H|H]|(r' & H1 & H2)]; eauto.
    + intros [H|(r' & [->|H1] & H2)]; eauto.
Qed.

Lemma fold_keys_NoDup (history : list pydict) (s : list pystr) :
  NoDup s ->
  NoDup (fold_left (fun acc record => set_update acc (dict_keys record)) history s).
Proof.
  revert s; induction history as [|r history IH]; intros s H; simpl; auto.
  apply IH, set_update_NoDup, H.
Qed.

Lemma all_keys_In (history : list pydict) (x : pystr) :
  In x (APIPriceCrawler.all_keys history)
  <-> exists r, In r history /\ In x (dict_keys r).
Proof.
  unfold APIPriceCrawler.all_keys. rewrite fold_keys_In. simpl. tauto.
Qed.

Lemma all_keys_NoDup (history : list pydict) :
  NoDup (APIPriceCrawler.all_keys history).
Proof. apply fold_keys_NoDup. constructor. Qed.

Lemma insert_sorted_In (k x : pystr) (l : list pystr) :
  In x (insert_sorted k l) <-> x = k \/ In x l.
Proof.
  induction l as [|y l IH]; simpl.
  - intuition.
  - destruct (str_leb k y); simpl; rewrite ?IH; intuition.
Qed.

Lemma insert_sorted_strict (k : pystr) (l : list pystr) :
  ~ In k l -> StronglySorted str_lt l -> StronglySorted str_lt (insert_sorted k l).
Proof.
  intros Hk Hs. induction Hs as [|y l Hs IH Hy]; simpl.
  - constructor; constructor.
  - unfold str_leb. destruct (str_ltb y k) eqn:E; simpl.
    + constructor.
      * apply IH. intros H; apply Hk; right; assumption.
      * rewrite Forall_forall. intros x Hx. apply insert_sorted_In in Hx.
        destruct Hx as [->|Hx]; [exact E|].
        rewrite Forall_forall in Hy. apply Hy; assumption.
    + assert (Hky : str_ltb k y = true).
      { destruct (str_ltb k y) eqn:E'; auto.
        exfalso. apply Hk. left. symmetry. apply str_ltb_total; assumption. }
      constructor; [constructor; assumption|].
      constructor; [exact Hky|].
      rewrite Forall_forall in *. intros x Hx.
      eapply str_ltb_trans; [exact Hky|]. apply Hy; assumption.
Qed.

Lemma sorted_In (s : list pystr) (x : pystr) : In x (sorted s) <-> In x s.
Proof.
  unfold sorted. induction s as [|k s IH]; simpl; [tauto|].
  rewrite insert_sorted_In, IH. intuition.
Qed.

Lemma sorted_strict (s : list pystr) :
  NoDup s -> StronglySorted str_lt (sorted s).
Proof.
  unfold sorted. induction 1 as [|k s Hk Hs IH]; simpl; [constructor|].
  apply insert_sorted_strict; [|assumption].
  intros H. apply Hk. apply sorted_In. exact H.
Qed.

Lemma csv_rows_total (fieldnames : list pystr) (rows : list pydict) :
  (forall r k, In r rows -> In k (dict_keys r) -> In k fieldnames) ->
  csv_rows fieldnames rows
  = Ret (map (fun r => map (csv_cell r) fieldnames) rows).
Proof.
  induction rows as [|r rows IH]; intros H; simpl; [reflexivity|].
  unfold csv_row.
  assert (E : forallb (fun k => existsb (str_eqb k) fieldnames) (dict_keys r) = true).
  { apply forallb_forall. intros k Hk. apply existsb_str_eqb.
    apply (H r k); [left; reflexivity | assumption]. }
  rewrite E. simpl. rewrite IH; [reflexivity|].
  intros r' k Hr Hk. apply (H r' k); [right|]; assumption.
Qed.

End CsvFacts.

(** C6, as amended for the API crawler: for a non-empty history
    [save_to_csv] writes a header that is the union of the keys of all
    records in strictly increasing code-point order, and under it one row
    per record whose cell for a key the record lacks is the empty string. *)
Theorem api_csv_header_sorted_union (st : APIPriceCrawler.state) :
  APIPriceCrawler.price_history st <> [] ->
  exists header,
    APIPriceCrawler.save_to_csv st
      = Some (Ret (map PStr header ::
                   map (fun r => map (csv_cell r) header)
                       (APIPriceCrawler.price_history st))) /\
    StronglySorted str_lt header /\
    (forall k, In k header <->
               exists r, In r (APIPriceCrawler.price_history st) /\
                         In k (dict_keys r)) /\
    (forall r k, In r (APIPriceCrawler.price_history st) -> In k header ->
                 dict_get k r = None -> csv_cell r k = PStr []).
Proof.
  intros Hne.
  exists (sorted (APIPriceCrawler.all_keys (APIPriceCrawler.price_history st))).
  assert (Hin : forall k,
             In k (sorted (APIPriceCrawler.all_keys (APIPriceCrawler.price_history st)))
             <-> exists r, In r (APIPriceCrawler.price_history st) /\
                           In k (dict_keys r)).
  { intros k. rewrite CsvFacts.sorted_In. apply CsvFacts.all_keys_In. }
  split; [|split; [|split]].
  - unfold APIPriceCrawler.save_to_csv.
    destruct (APIPriceCrawler.price_history st) as [|r0 h] eqn:E; [congruence|].
    unfold dict_writer. rewrite CsvFacts.csv_rows_total; [reflexivity|].
    intros r k Hr Hk. apply Hin. exists r; auto.
  - apply CsvFacts.sorted_strict, CsvFacts.all_keys_NoDup.
  - exact Hin.
  - intros r k _ _ Hk. unfold csv_cell. rewrite Hk. reflexivity.
Qed.

Lemma api_csv_header_sorted_union_witness :
  exists header,
    APIPriceCrawler.save_to_csv
      (APIPriceCrawler.mkState 1 Examples.api_history [] [])
      = Some (Ret (map PStr header ::
                   map (fun r => map (csv_cell r) header) Examples.api_history)) /\
    StronglySorted str_lt header /\
    (forall k, In k header <->
               exists r, In r Examples.api_history /\ In k (dict_keys r)) /\
    (forall r k, In r Examples.api_history -> In k header ->
                 dict_get k r = None -> csv_cell r k = PStr []).
Proof.
  apply (api_csv_header_sorted_union
           (APIPriceCrawler.mkState 1 Examples.api_history [] [])).
  simpl. discriminate.
Defined.

(** C6 fails on the two web crawlers: their header is the key list of the
    first record in insertion order.  With one record that has a
    ['source'] and one that has none, the header written is not the
    sorted union of the keys. *)
Lemma web_csv_header_is_first_record_keys :
  EnhancedPriceCrawler.save_to_csv
    (EnhancedPriceCrawler.mkState 2 15 Examples.mixed_history [])
  = Some (dict_writer (dict_keys Examples.web_record) Examples.mixed_history) /\
  AutoPriceCrawler.save_to_csv
    (AutoPriceCrawler.mkState 2 10 Examples.mixed_history [])
  = Some (dict_writer (dict_keys Examples.web_record) Examples.mixed_history) /\
  dict_keys Examples.web_record
  = map py ["item_name"; "title"; "price"; "currency"; "url"; "timestamp";
            "source"]%string /\
  sorted (APIPriceCrawler.all_keys Examples.mixed_history)
  = map py ["currency"; "item_name"; "price"; "source"; "timestamp"; "title";
            "url"]%string /\
  ~ (exists rows,
        EnhancedPriceCrawler.save_to_csv
          (EnhancedPriceCrawler.mkState 2 15 Examples.mixed_history [])
        = Some (Ret (map PStr (sorted (APIPriceCrawler.all_keys
                                         Examples.mixed_history)) :: rows))).
Proof.
  split; [reflexivity|]. split; [reflexivity|].
  split; [reflexivity|]. split; [vm_compute; reflexivity|].
  intros [rows H]. vm_compute in H. discriminate H.
Qed.

(* ================================================================= *)
(** * Comparison statistics *)

Module CompareFacts.
Import Compare.

Lemma dict_get_set_same {V} (k : pystr) (v : V) (d : list (pystr * V)) :
  dict_get k (dict_set k v d) = Some v.
Proof.
  induction d as [|[k' v'] d IH]; simpl.
  - rewrite str_eqb_refl; reflexivity.
  - destruct (str_eqb k k') eqn:E; simpl.
    + rewrite str_eqb_refl; reflexivity.
    + rewrite E; exact IH.
Qed.

Lemma dict_get_set_other {V} (k k' : pystr) (v : V) (d : list (pystr * V)) :
  k <> k' -> dict_get k (dict_set k' v d) = dict_get k d.
Proof.
  intros Hne. induction d as [|[k0 v0] d IH]; simpl.
  - apply str_eqb_neq in Hne. rewrite Hne; reflexivity.
  - destruct (str_eqb k' k0) eqn:E; simpl.
    + apply str_eqb_eq in E; subst k0.
      apply str_eqb_neq in Hne. rewrite Hne; reflexivity.
    + destruct (str_eqb k k0); [reflexivity | exact IH].
Qed.

Lemma dict_get_absent {V} (k : pystr) (d : list (pystr * V)) :
  ~ In k (dict_keys d) -> dict_get k d = None.
Proof.
  induction d as [|[k' v] d IH]; simpl; intros H; [reflexivity|].
  destruct (str_eqb k k') eqn:E.
  - apply str_eqb_eq in E. exfalso; apply H; left; congruence.
  - apply IH. intros Hin; apply H; right; exact Hin.
Qed.

Lemma py_min_from_spec vs qs : reads vs qs -> forall m qm,
  py_num m = Ret qm ->
  exists m' q', py_min_from m qm vs = Ret m' /\ py_num m' = Ret q' /\
                In q' (qm :: qs) /\ forall q, In q (qm :: qs) -> (q' <= q)%Q.
Proof.
  induction 1 as [|v q vs qs Hv Hr IH]; intros m qm Hm; simpl.
  - exists m, qm. split; [reflexivity|]. split; [exact Hm|].
    split; [left; reflexivity|].
    intros q [<-|[]]. apply Qle_refl.
  - rewrite Hv. simpl. destruct (Qltb q qm) eqn:E.
    + apply Qltb_lt in E.
      destruct (IH v q Hv) as (m' & q' & H1 & H2 & H3 & H4).
      exists m', q'. split; [exact H1|]. split; [exact H2|]. split.
      * destruct H3 as [<-|H3]; [right; left; reflexivity | right; right; exact H3].
      * intros x [<-|[<-|Hx]].
        -- apply Qle_trans with q; [apply H4; left; reflexivity|].
           apply Qlt_le_weak; exact E.
        -- apply H4; left; reflexivity.
        -- apply H4; right; exact Hx.
    + apply Qltb_ge in E.
      destruct (IH m qm Hm) as (m' & q' & H1 & H2 & H3 & H4).
      exists m', q'. split; [exact H1|]. split; [exact H2|]. split.
      * destruct H3 as [<-|H3]; [left; reflexivity | right; right; exact H3].
      * intros x [<-|[<-|Hx]].
        -- apply H4; left; reflexivity.
        -- apply Qle_trans with qm; [apply H4; left; reflexivity | exact E].
        -- apply H4; right; exact Hx.
Qed.

Lemma py_max_from_spec vs qs : reads vs qs -> forall m qm,
  py_num m = Ret qm ->
  exists m' q', py_max_from m qm vs = Ret m' /\ py_num m' = Ret q' /\
                In q' (qm :: qs) /\ forall q, In q (qm :: qs) -> (q <= q')%Q.
Proof.
  induction 1 as [|v q vs qs Hv Hr IH]; intros m qm Hm; simpl.
  - exists m, qm. split; [reflexivity|]. split; [exact Hm|].
    split; [left; reflexivity|].
    intros q [<-|[]]. apply Qle_refl.
  - rewrite Hv. simpl. destruct (Qltb qm q) eqn:E.
    + apply Qltb_lt in E.
      destruct (IH v q Hv) as (m' & q' & H1 & H2 & H3 & H4).
      exists m', q'. split; [exact H1|]. split; [exact H2|]. split.
      * destruct H3 as [<-|H3]; [right; left; reflexivity | right; right; exact H3].
      * intros x [<-|[<-|Hx]].
        -- apply Qle_trans with q; [|apply H4; left; reflexivity].
           apply Qlt_le_weak; exact E.
        -- apply H4; left; reflexivity.
        -- apply H4; right; exact Hx.
    + apply Qltb_ge in E.
      destruct (IH m qm Hm) as (m' & q' & H1 & H2 & H3 & H4).
      exists m', q'. split; [exact H1|]. split; [exact H2|]. split.
      * destruct H3 as [<-|H3]; [left; reflexivity | right; right; exact H3].
      * intros x [<-|[<-|Hx]].
        -- apply H4; left; reflexivity.
        -- apply Qle_trans with qm; [exact E | apply H4; left; reflexivity].
        -- apply H4; right; exact Hx.
Qed.

Lemma py_sum_from_spec vs qs : reads vs qs -> forall acc,
  exists total, py_sum_from acc vs = Ret total /\ (total == acc + Qsum qs)%Q.
Proof.
  induction 1 as [|v q vs qs Hv Hr IH]; intros acc; simpl.
  - exists acc. split; [reflexivity|]. ring.
  - rewrite Hv. simpl. destruct (IH (acc + q)%Q) as (total & H1 & H2).
    exists total. split; [exact H1|]. rewrite H2. ring.
Qed.

Lemma comparable_spec (r : pydict) :
  comparable r = true ->
  exists source price currency url q,
    dict_get (py "source") r = Some source /\
    dict_get (py "price") r = Some price /\
    dict_get (py "currency") r = Some currency /\
    dict_get (py "url") r = Some url /\
    py_num price = Ret q /\ record_price r = Some q.
Proof.
  unfold comparable, dict_mem, record_price.
  destruct (dict_get (py "source") r) as [source|]; [|discriminate].
  destruct (dict_get (py "currency") r) as [currency|]; [|discriminate].
  destruct (dict_get (py "url") r) as [url|]; [|discriminate].
  destruct (dict_get (py "price") r) as [price|]; [|discriminate].
  destruct (py_num price) as [q|] eqn:E; [|discriminate].
  intros _. exists source, price, currency, url, q.
  repeat (split; [reflexivity|]). split; [exact E | reflexivity].
Qed.

Lemma collect_spec (l : list pydict) :
  Forall (fun r => comparable r = true) l ->
  forall entries prices_data,
  exists es vs,
    collect l entries prices_data = Ret (entries ++ es, prices_data ++ vs) /\
    length es = length (prices_of l) /\ reads vs (prices_of l).
Proof.
  induction 1 as [|r l Hr Hl IH]; intros entries prices_data; simpl.
  - exists [], []. rewrite !app_nil_r. repeat split; constructor.
  - destruct (comparable_spec r Hr)
      as (source & price & currency & url & q & H1 & H2 & H3 & H4 & H5 & H6).
    unfold py_item. rewrite H1, H2, H3, H4. simpl.
    destruct (IH (entries ++ [PDict [(py "source", source); (py "price", price);
                                     (py "currency", currency); (py "url", url)]])
                 (prices_data ++ [price])) as (es & vs & E1 & E2 & E3).
    rewrite E1. rewrite <- !app_assoc. simpl.
    do 2 eexists. split; [reflexivity|].
    unfold prices_of in *. simpl. rewrite H6. simpl.
    split; [congruence|]. constructor; assumption.
Qed.

Lemma prices_of_nonempty (r : pydict) (l : list pydict) :
  comparable r = true -> exists q qs, prices_of (r :: l) = q :: qs.
Proof.
  intros Hr.
  destruct (comparable_spec r Hr) as (s & p & c & u & q & _ & _ & _ & _ & _ & H).
  unfold prices_of. simpl. rewrite H. simpl. eauto.
Qed.

Lemma entry_spec (r : pydict) (l : list pydict) :
  Forall (fun r => comparable r = true) (r :: l) ->
  exists e, entry (r :: l) = Ret e /\ summary_of (prices_of (r :: l)) e.
Proof.
  intros H. unfold entry.
  destruct (collect_spec (r :: l) H [] []) as (es & vs & E1 & E2 & E3).
  rewrite E1. simpl app. cbn [obind].
  destruct (prices_of_nonempty r l) as (q & qs & Eq).
  { inversion H; assumption. }
  rewrite Eq in *. inversion E3 as [|v q' vs' qs' Hv Hvs]; subst.
  destruct (py_min_from_spec vs' qs Hvs v q Hv) as (lo & ql & L1 & L2 & L3 & L4).
  destruct (py_max_from_spec vs' qs Hvs v q Hv) as (hi & qh & M1 & M2 & M3 & M4).
  destruct (py_sum_from_spec (v :: vs') (q :: qs) E3 0%Q) as (total & S1 & S2).
  unfold py_min, py_max, py_sum. rewrite Hv. cbn [obind].
  rewrite L1. cbn [obind]. rewrite M1. cbn [obind]. rewrite S1. cbn [obind].
  eexists. split; [reflexivity|].
  exists es, lo, hi, (total / inject_Z (Z.of_nat (length (v :: vs'))))%Q, ql, qh.
  split; [reflexivity|]. split; [exact E2|].
  split; [exact L2|]. split; [exact L3|]. split; [exact L4|].
  split; [exact M2|]. split; [exact M3|]. split; [exact M4|].
  rewrite S2. rewrite (Forall2_length E3). rewrite Qplus_0_l. reflexivity.
Qed.

Lemma compare_loop_spec (price_results : list (pystr * list pydict)) :
  NoDup (dict_keys price_results) ->
  (forall item l r, In (item, l) price_results -> In r l -> comparable r = true) ->
  forall comparison,
  exists comparison',
    compare_loop price_results comparison = Ret comparison' /\
    forall item,
      dict_get item comparison'
      = match dict_get item price_results with
        | Some (r :: l) => entry_of (r :: l)
        | _ => dict_get item comparison
        end.
Proof.
  induction price_results as [|[i l] rest IH]; intros Hnd Hok comparison.
  - exists comparison. split; reflexivity.
  - simpl in Hnd. inversion Hnd as [|? ? Hi Hrest]; subst.
    assert (Hok' : forall item l r, In (item, l) rest -> In r l -> comparable r = true).
    { intros item l0 r H1 H2. apply (Hok item l0 r); [right|]; assumption. }
    assert (Habs : dict_get i rest = None) by (apply dict_get_absent; exact Hi).
    destruct l as [|r l]; simpl.
    + destruct (IH Hrest Hok' comparison) as (c' & E & Hc).
      exists c'. split; [exact E|].
      intros item. rewrite Hc. destruct (str_eqb item i) eqn:Ei.
      * apply str_eqb_eq in Ei; subst. rewrite Habs. reflexivity.
      * reflexivity.
    + destruct (entry_spec r l) as (e & Ee & _).
      { rewrite Forall_forall. intros x Hx. apply (Hok i (r :: l) x); [left|]; auto. }
      rewrite Ee. simpl.
      destruct (IH Hrest Hok' (dict_set i e comparison)) as (c' & E & Hc).
      exists c'. split; [exact E|].
      intros item. rewrite Hc. destruct (str_eqb item i) eqn:Ei.
      * apply str_eqb_eq in Ei; subst. rewrite Habs.
        rewrite dict_get_set_same. unfold entry_of. rewrite Ee. reflexivity.
      * apply str_eqb_neq in Ei.
        destruct (dict_get item rest) as [[|r' l']|]; auto;
          apply dict_get_set_other; assumption.
Qed.

End CompareFacts.

(** C8: [compare_prices] is a function of its argument alone.  When every
    record can be read (it has the four keys looked up and a numeric
    price), it returns a mapping in which every item with at least one
    record has the entries of its records, the least and the greatest of
    their prices and their arithmetic mean, and every item with no record,
    like every name that is not an item, has no entry at all. *)
Theorem compare_prices_summary (price_results : list (pystr * list pydict)) :
  NoDup (dict_keys price_results) ->
  (forall item l r, In (item, l) price_results -> In r l -> comparable r = true) ->
  exists comparison,
    EnhancedPriceCrawler.compare_prices price_results = Ret comparison /\
    AutoPriceCrawler.compare_prices price_results = Ret comparison /\
    forall item,
      match dict_get item price_results with
      | Some (r :: l) =>
          exists e, dict_get item comparison = Some e /\
                    summary_of (prices_of (r :: l)) e
      | Some [] => dict_get item comparison = None
      | None => dict_get item comparison = None
      end.
Proof.
  intros Hnd Hok.
  destruct (CompareFacts.compare_loop_spec price_results Hnd Hok [])
    as (comparison & E & Hc).
  exists comparison. split; [exact E|]. split; [exact E|].
  intros item. rewrite Hc.
  destruct (dict_get item price_results) as [[|r l]|] eqn:Eg; try reflexivity.
  destruct (CompareFacts.entry_spec r l) as (e & Ee & He).
  { rewrite Forall_forall. intros x Hx. apply (Hok item (r :: l) x); [|exact Hx].
    clear - Eg. induction price_results as [|[k v] rest IH]; simpl in *.
    - discriminate.
    - destruct (str_eqb item k) eqn:Ek.
      + apply str_eqb_eq in Ek. inversion Eg; subst. left; reflexivity.
      + right. apply IH. exact Eg. }
  exists e. unfold entry_of. rewrite Ee. split; [reflexivity | exact He].
Qed.

Lemma compare_prices_summary_witness :
  exists comparison,
    EnhancedPriceCrawler.compare_prices Examples.two_items = Ret comparison /\
    AutoPriceCrawler.compare_prices Examples.two_items = Ret comparison /\
    forall item,
      match dict_get item Examples.two_items with
      | Some (r :: l) =>
          exists e, dict_get item comparison = Some e /\
                    summary_of (prices_of (r :: l)) e
      | Some [] => dict_get item comparison = None
      | None => dict_get item comparison = None
      end.
Proof.
  apply (compare_prices_summary Examples.two_items).
  - repeat constructor; simpl; intuition discriminate.
  - intros item l r [H|[H|[]]] Hr; inversion H; subst.
    + destruct Hr as [<-|[<-|[]]]; reflexivity.
    + destruct Hr.
Defined.

(* ================================================================= *)
(** * The success cap of the crawl loop *)

Lemma fetches_app (a b : list event) : fetches (a ++ b) = fetches a ++ fetches b.
Proof. unfold fetches. apply flat_map_app. Qed.

Module AutoCap.
Import AutoPriceCrawler.

Section World.
Variable world : World.
Variable netloc : pystr -> pystr.



End World.
End AutoCap.

Module EnhancedCap.
Import EnhancedPriceCrawler.

Section World.
Variable world : World.
Variable netloc : pystr -> pystr.





End World.
End EnhancedCap.


(* ================================================================= *)
(** * The matcher only finds what the pattern describes *)

Module RegexFacts.

Section RepSound.
Variable A : Type.
Variable P : pystr -> option pystr -> option pystr -> Prop.
Variable m : matcher A.
Hypothesis m_sound : forall s cap k a,
  m s cap k = Some a ->
  exists w s' cap', s = w ++ s' /\ P w cap cap' /\ k s' cap' = Some a.

Lemma rep_sound : forall fuel lo hi s cap k a,
  rep m fuel lo hi s cap k = Some a ->
  exists n w s' cap',
    lo <= n /\
    match hi with Some h => n <= Nat.max h lo | None => True end /\
    s = w ++ s' /\ iter P n w cap cap' /\ k s' cap' = Some a.
Proof.
  assert (Hstop : forall lo hi s cap (k : cont A) a,
             lo = 0 -> k s cap = Some a ->
             exists n w s' cap',
               lo <= n /\
               match hi with Some h => n <= Nat.max h lo | None => True end /\
               s = w ++ s' /\ iter P n w cap cap' /\ k s' cap' = Some a).
  { intros lo hi s cap k a -> Hk. exists 0, [], s, cap.
    split; [lia|]. split; [destruct hi; [lia|exact I]|].
    split; [reflexivity|]. split; [split; reflexivity | exact Hk]. }
  induction fuel as [|f IH]; intros lo hi s cap k a H.
  - simpl in H. destruct lo as [|lo']; [|discriminate H].
    destruct hi as [[|h]|].
    + apply (Hstop 0 (Some 0) s cap k a); auto.
    + apply (Hstop 0 (Some (S h)) s cap k a); auto.
    + apply (Hstop 0 None s cap k a); auto.
  - assert (Hagain :
      m s cap (fun s' cap' =>
                 rep m f (Nat.pred lo) (option_map Nat.pred hi) s' cap' k) = Some a ->
      (lo <> 0 \/ hi <> Some 0) ->
      exists n w s' cap',
        lo <= n /\
        match hi with Some h => n <= Nat.max h lo | None => True end /\
        s = w ++ s' /\ iter P n w cap cap' /\ k s' cap' = Some a).
    { intros Hm Hnz.
      destruct (m_sound _ _ _ _ Hm) as (w1 & s1 & capm & E1 & P1 & K1).
      destruct (IH _ _ _ _ _ _ K1) as (n & w2 & s' & cap' & L & B & E2 & I2 & K2).
      exists (S n), (w1 ++ w2), s', cap'.
      split; [lia|]. split.
      { destruct hi as [h|]; simpl in B; [|exact I].
        assert (lo <> 0 \/ h <> 0) by (destruct Hnz; [left | right; congruence]; auto).
        lia. }
      split; [rewrite E1, E2, app_assoc; reflexivity|].
      split; [|exact K2]. simpl. exists w1, w2, capm. auto. }
    simpl in H. destruct lo as [|lo'].
    + destruct hi as [[|h]|].
      * apply (Hstop 0 (Some 0) s cap k a); auto.
      * unfold orelse in H.
        destruct (m s cap _) as [a'|] eqn:Em.
        -- inversion H; subst a'. apply Hagain; [reflexivity | right; discriminate].
        -- apply (Hstop 0 (Some (S h)) s cap k a); auto.
      * unfold orelse in H.
        destruct (m s cap _) as [a'|] eqn:Em.
        -- inversion H; subst a'. apply Hagain; [reflexivity | right; discriminate].
        -- apply (Hstop 0 None s cap k a); auto.
    + apply Hagain; [exact H | left; discriminate].
Qed.

End RepSound.

Lemma firstn_prefix (w s' : pystr) :
  firstn (length (w ++ s') - length s') (w ++ s') = w.
Proof.
  rewrite length_app, Nat.add_sub.
  rewrite firstn_app, Nat.sub_diag, firstn_all. simpl. apply app_nil_r.
Qed.

Lemma rmatch_sound (A : Type) (r : regex) : forall fuel s cap (k : cont A) a,
  rmatch r fuel s cap k = Some a ->
  exists w s' cap', s = w ++ s' /\ matches r w cap cap' /\ k s' cap' = Some a.
Proof.
  induction r as [|p|r1 IH1 r2 IH2|r1 IH1 r2 IH2|r1 IH1 lo hi|r1 IH1];
    intros fuel s cap k a H; simpl in H.
  - exists [], s, cap. simpl. auto.
  - destruct s as [|c s']; [discriminate|].
    destruct (p c) eqn:Ep; [|discriminate].
    exists [c], s', cap. simpl. split; [reflexivity|]. split; [|exact H].
    exists c; auto.
  - destruct (IH1 _ _ _ _ _ H) as (w1 & s1 & capm & E1 & M1 & K1).
    destruct (IH2 _ _ _ _ _ K1) as (w2 & s' & cap' & E2 & M2 & K2).
    exists (w1 ++ w2), s', cap'.
    split; [rewrite E1, E2, app_assoc; reflexivity|].
    split; [|exact K2]. simpl. exists w1, w2, capm. auto.
  - unfold orelse in H. destruct (rmatch r1 fuel s cap k) as [a'|] eqn:E.
    + inversion H; subst a'.
      destruct (IH1 _ _ _ _ _ E) as (w & s' & cap' & E1 & M1 & K1).
      exists w, s', cap'. simpl. auto.
    + destruct (IH2 _ _ _ _ _ H) as (w & s' & cap' & E1 & M1 & K1).
      exists w, s', cap'. simpl. auto.
  - destruct (rep_sound A (matches r1) (rmatch r1 fuel) (IH1 fuel) _ _ _ _ _ _ _ H)
      as (n & w & s' & cap' & L & B & E & I & K).
    exists w, s', cap'. split; [exact E|]. split; [|exact K].
    simpl. exists n. auto.
  - destruct (IH1 _ _ _ _ _ H) as (w & s' & c0 & E & M & K).
    exists w, s', (Some w). split; [exact E|]. split.
    + simpl. exists c0. auto.
    + subst s. rewrite firstn_prefix in K. exact K.
Qed.

Lemma match_here_sound (r : regex) (s : pystr) (m : match_obj) :
  match_here r s = Some m ->
  s = group0 m ++ after m /\ matches r (group0 m) None (group1 m).
Proof.
  unfold match_here. intros H.
  destruct (rmatch_sound _ _ _ _ _ _ _ H) as (w & s' & cap' & E & M & K).
  inversion K; subst; simpl. rewrite firstn_prefix. auto.
Qed.

Lemma search_sound (r : regex) (s : pystr) (m : match_obj) :
  search r s = Some m ->
  exists before, s = before ++ group0 m ++ after m /\
                 matches r (group0 m) None (group1 m).
Proof.
  induction s as [|c s IH]; simpl.
  - destruct (match_here r []) as [m'|] eqn:E; [|discriminate].
    intros H; inversion H; subst m'.
    apply match_here_sound in E. exists []. exact E.
  - destruct (match_here r (c :: s)) as [m'|] eqn:E.
    + intros H; inversion H; subst m'.
      apply match_here_sound in E. exists []. exact E.
    + intros H. destruct (IH H) as (before & E1 & M).
      exists (c :: before). rewrite E1. auto.
Qed.

End RegexFacts.

(* ================================================================= *)
(** * What the amount groups capture *)

Module AmountFacts.
Import RegexFacts.






Lemma remove_char_app (c : N) (a b : pystr) :
  remove_char c (a ++ b) = remove_char c a ++ remove_char c b.
Proof. unfold remove_char. apply filter_app. Qed.

Lemma is_digit_not (c x : N) :
  is_digit c = false -> is_digit x = true -> negb (N.eqb x c) = true.
Proof.
  intros Hc Hx. apply negb_true_iff. apply N.eqb_neq. congruence.
Qed.

Lemma remove_char_digits (c : N) (w : pystr) :
  is_digit c = false -> forallb is_digit w = true -> remove_char c w = w.
Proof.
  intros Hc. induction w as [|x w IH]; simpl; [reflexivity|].
  intros H. apply andb_true_iff in H. destruct H as [Hx Hw].
  rewrite (is_digit_not c x Hc Hx), IH; auto.
Qed.



Lemma decimal_shape_no_comma (g : pystr) :
  decimal_shape g -> remove_char COMMA g = g.
Proof.
  intros (ds & frac & -> & _ & Hd & Hf).
  rewrite remove_char_app, (remove_char_digits COMMA ds); [|reflexivity|exact Hd].
  f_equal. destruct Hf as [->|(d1 & d2 & -> & H1 & H2)]; [reflexivity|].
  simpl. rewrite (is_digit_not COMMA d1), (is_digit_not COMMA d2); auto.
Qed.


Lemma span_digits_app (ds rest : pystr) :
  forallb is_digit ds = true ->
  match rest with [] => True | c :: _ => is_digit c = false end ->
  span_digits (ds ++ rest) = (ds, rest).
Proof.
  intros Hd Hr. induction ds as [|d ds IH]; simpl.
  - destruct rest as [|c rest]; [reflexivity|]. simpl. rewrite Hr. reflexivity.
  - simpl in Hd. apply andb_true_iff in Hd. destruct Hd as [Hd1 Hd2].
    rewrite Hd1, (IH Hd2). reflexivity.
Qed.

Lemma decimal_of_shape (g : pystr) :
  decimal_shape g -> exists q, decimal_of_string g = Some q.
Proof.
  intros (ds & frac & -> & Hne & Hd & Hf). unfold decimal_of_string.
  destruct Hf as [->|(d1 & d2 & -> & H1 & H2)].
  - rewrite span_digits_app; [|exact Hd|exact I].
    destruct ds; [congruence|]. eauto.
  - rewrite span_digits_app; [|exact Hd|reflexivity].
    change (DOT =? 46)%N with true. cbv iota.
    simpl span_digits. rewrite H1, H2.
    destruct (ds ++ [d1; d2]) eqn:E.
    + apply app_eq_nil in E. destruct E; congruence.
    + eauto.
Qed.

Lemma float_of_shape (g : pystr) :
  decimal_shape g -> exists q, float_of_string g = Some q.
Proof.
  intros H. destruct (decimal_of_shape g H) as (q & Hq).
  destruct H as (ds & frac & -> & Hne & Hd & _).
  destruct ds as [|d ds]; [congruence|].
  simpl in Hd. apply andb_true_iff in Hd. destruct Hd as [Hd _].
  exists q. unfold float_of_string. simpl app in *.
  assert (E1 : (d =? 45)%N = false).
  { apply N.eqb_neq. intros ->. discriminate Hd. }
  assert (E2 : (d =? 43)%N = false).
  { apply N.eqb_neq. intros ->. discriminate Hd. }
  cbv iota. rewrite E1, E2. exact Hq.
Qed.




End AmountFacts.

(* ================================================================= *)
(** * The text parser of the auto-discovery crawler *)

Module AutoParser.
Import RegexFacts AmountFacts AutoPriceCrawler.







Lemma rep_step {A} (m : matcher A) f lo hi s cap (k : cont A) :
  rep m (S f) (S lo) hi s cap k
  = m s cap (fun s' cap' => rep m f lo (option_map Nat.pred hi) s' cap' k).
Proof. reflexivity. Qed.




Lemma auto_in_range_spec (p : Q) :
  in_range p = true -> ((1 # 100) < p)%Q /\ (p < 1000000)%Q.
Proof.
  unfold in_range. rewrite !andb_true_iff, !Qltb_lt. tauto.
Qed.

End AutoParser.



(* ================================================================= *)
(** * The enhanced parser on a dollar amount *)

Module DollarAmount.
Import RegexFacts AmountFacts AutoParser EnhancedPriceCrawler.

Lemma rep_skip {A} (m : matcher A) fuel hi s cap (k : cont A) :
  (forall k', m s cap k' = None) -> rep m fuel 0 hi s cap k = k s cap.
Proof.
  intros Hm. destruct fuel; simpl; destruct hi as [[|h]|]; auto;
    rewrite ?Hm; reflexivity.
Qed.

Lemma rep_zero {A} (m : matcher A) f s cap (k : cont A) :
  rep m (S f) 0 None s cap k
  = orelse (m s cap (fun s' cap' => rep m f 0 None s' cap' k)) (k s cap).
Proof. reflexivity. Qed.

Lemma no_digit_here {A} fuel' (rest : pystr) cap (k' : cont A) :
  match rest with [] => True | c :: _ => is_digit c = false end ->
  rmatch digit fuel' rest cap k' = None.
Proof.
  destruct rest as [|c rest]; simpl; [reflexivity|]. intros ->. reflexivity.
Qed.

(** A greedy run of digits takes them all when what follows accepts. *)
Lemma rep_digits_greedy {A} fuel' (rest : pystr) cap (k : cont A) (a : A) :
  match rest with [] => True | c :: _ => is_digit c = false end ->
  k rest cap = Some a ->
  forall ds fuel lo,
    forallb is_digit ds = true -> length ds < fuel -> lo <= length ds ->
    rep (rmatch digit fuel') fuel lo None (ds ++ rest) cap k = Some a.
Proof.
  intros Hrest Hk. induction ds as [|d ds IH]; intros fuel lo Hd Hf Hlo.
  - simpl in Hlo. assert (lo = 0) by lia. subst lo. simpl app.
    rewrite rep_skip; [exact Hk|]. intros k'. apply no_digit_here. exact Hrest.
  - simpl in Hd. apply andb_true_iff in Hd. destruct Hd as [Hd1 Hd2].
    destruct fuel as [|f]; [simpl in Hf; lia|]. simpl in Hf, Hlo.
    assert (Hnext : forall lo', lo' <= length ds ->
              rmatch digit fuel' ((d :: ds) ++ rest) cap
                (fun s' cap' =>
                   rep (rmatch digit fuel') f lo' None s' cap' k) = Some a).
    { intros lo' Hl. simpl. rewrite Hd1. apply IH; [exact Hd2 | lia | exact Hl]. }
    destruct lo as [|lo'].
    + rewrite rep_zero. rewrite (Hnext 0) by lia. reflexivity.
    + rewrite rep_step. simpl option_map. apply Hnext. lia.
Qed.

Lemma cents_none {A} fuel cap (k : cont A) :
  rmatch cents fuel [] cap k = k [] cap.
Proof.
  unfold cents, opt. cbn [rmatch]. apply rep_skip. reflexivity.
Qed.

Lemma cents_some {A} fuel d1 d2 cap (k : cont A) (a : A) :
  3 <= fuel -> is_digit d1 = true -> is_digit d2 = true ->
  k [] cap = Some a ->
  rmatch cents fuel [DOT; d1; d2] cap k = Some a.
Proof.
  intros Hf H1 H2 Hk.
  destruct fuel as [|[|[|f]]]; try lia.
  unfold cents, opt, times, lit, digit. cbn [rmatch].
  simpl. rewrite H1, H2. simpl. rewrite Hk. reflexivity.
Qed.

Lemma not_space_digit (d : N) : is_digit d = true -> is_space d = false.
Proof.
  unfold is_digit, is_space. intros H.
  apply andb_true_iff in H. destruct H as [H1 H2].
  apply N.leb_le in H1. apply N.leb_le in H2.
  repeat match goal with
         | |- context [(?a <=? ?b)%N] =>
             destruct (N.leb_spec a b); try lia
         | |- context [(?a =? ?b)%N] =>
             destruct (N.eqb_spec a b); try lia
         end; reflexivity.
Qed.

(** The first pattern on a dollar sign followed by a plain decimal. *)
Lemma first_pattern_here (ds frac : pystr) :
  ds <> [] -> forallb is_digit ds = true ->
  (frac = [] \/ exists d1 d2, frac = [DOT; d1; d2] /\ is_digit d1 = true /\
                              is_digit d2 = true) ->
  match_here (currency_sign +++ star space +++ amount_plain)%re
             (DOLLAR :: ds ++ frac)
  = Some (MatchObj (DOLLAR :: ds ++ frac) (Some (ds ++ frac)) []).
Proof.
  intros Hne Hd Hf. unfold match_here.
  set (s := DOLLAR :: ds ++ frac).
  set (fuel := S (length s)).
  assert (Hfuel : length ds + length frac + 2 = fuel).
  { unfold fuel, s. simpl. rewrite length_app. lia. }
  cbn [rmatch]. unfold s at 1. unfold currency_sign at 1. cbn [rmatch].
  change (is_currency_sign DOLLAR) with true. cbv iota.
  unfold star at 1. cbn [rmatch].
  rewrite rep_skip.
  2:{ intros k'. destruct ds as [|d ds']; [congruence|].
      simpl in Hd. apply andb_true_iff in Hd. destruct Hd as [Hd _].
      unfold space. simpl. rewrite (not_space_digit d Hd). reflexivity. }
  unfold amount_plain. cbn [rmatch]. unfold plus at 1. cbn [rmatch].
  assert (Hlen : 1 <= length ds) by (destruct ds; [congruence | simpl; lia]).
  assert (Hfirst : firstn (length s - 0) s = s)
    by (rewrite Nat.sub_0_r; apply firstn_all).
  assert (Hgrp : firstn (length (ds ++ frac) - 0) (ds ++ frac) = ds ++ frac)
    by (rewrite Nat.sub_0_r; apply firstn_all).
  apply rep_digits_greedy; try assumption; try lia.
  - destruct Hf as [->|(d1 & d2 & -> & _)]; [exact I | reflexivity].
  - destruct Hf as [->|(d1 & d2 & -> & H1 & H2)].
    + rewrite cents_none. cbv beta. change (length (@nil N)) with 0.
      rewrite Hgrp, Hfirst. reflexivity.
    + apply cents_some; try assumption.
      * simpl in Hfuel. lia.
      * cbv beta. change (length (@nil N)) with 0.
        rewrite Hgrp, Hfirst. reflexivity.
Qed.

Lemma remove_comma_groups (groups : list pystr) :
  Forall (fun g => length g = 3 /\ forallb is_digit g = true) groups ->
  remove_char COMMA (flat_map (fun g => COMMA :: g) groups) = concat groups /\
  forallb is_digit (concat groups) = true.
Proof.
  induction 1 as [|g groups [_ Hg] _ [IH1 IH2]]; simpl; [auto|].
  rewrite remove_char_app, IH1, (remove_char_digits COMMA g); [|reflexivity|exact Hg].
  rewrite forallb_app, Hg, IH2. auto.
Qed.

Lemma remove_frac (c : N) (frac : pystr) :
  is_digit c = false -> N.eqb DOT c = false ->
  (frac = [] \/ exists d1 d2, frac = [DOT; d1; d2] /\ is_digit d1 = true /\
                              is_digit d2 = true) ->
  remove_char c frac = frac.
Proof.
  intros Hc Hdot [->|(d1 & d2 & -> & H1 & H2)]; [reflexivity|].
  unfold remove_char. cbn [filter].
  rewrite Hdot, (is_digit_not c d1), (is_digit_not c d2); auto.
Qed.

(** The text the patterns see for ["$" + amount]. *)
Lemma cleaned_amount lead groups frac :
  comma_grouped lead groups frac ->
  let ds := lead ++ concat groups in
  ds <> [] /\ forallb is_digit ds = true /\
  remove_char COMMA (grouped_amount lead groups frac) = ds ++ frac /\
  remove_char BLANK (remove_char COMMA (DOLLAR :: grouped_amount lead groups frac))
  = DOLLAR :: ds ++ frac.
Proof.
  intros (Hl & Hd & Hg & Hf). simpl.
  destruct (remove_comma_groups groups Hg) as [E1 E2].
  assert (Hds : forallb is_digit (lead ++ concat groups) = true)
    by (rewrite forallb_app, Hd, E2; reflexivity).
  assert (Hc : remove_char COMMA (grouped_amount lead groups frac)
               = (lead ++ concat groups) ++ frac).
  { unfold grouped_amount. rewrite !remove_char_app, E1.
    rewrite (remove_char_digits COMMA lead); [|reflexivity|exact Hd].
    rewrite (remove_frac COMMA frac); [|reflexivity|reflexivity|exact Hf].
    apply app_assoc. }
  split; [destruct lead; [simpl in Hl; lia | discriminate]|].
  split; [exact Hds|]. split; [exact Hc|].
  change (remove_char COMMA (DOLLAR :: grouped_amount lead groups frac))
    with (DOLLAR :: remove_char COMMA (grouped_amount lead groups frac)).
  rewrite Hc.
  change (remove_char BLANK (DOLLAR :: (lead ++ concat groups) ++ frac))
    with (DOLLAR :: remove_char BLANK ((lead ++ concat groups) ++ frac)).
  rewrite remove_char_app.
  rewrite (remove_char_digits BLANK _ eq_refl Hds).
  rewrite (remove_frac BLANK frac); [reflexivity|reflexivity|reflexivity|exact Hf].
Qed.

Lemma detect_dollar (text : pystr) : detect_currency (DOLLAR :: text) = [DOLLAR].
Proof.
  unfold detect_currency, currencies. cbn [first_some].
  replace (contains [DOLLAR] (DOLLAR :: text)) with true by reflexivity.
  rewrite orb_true_r. reflexivity.
Qed.

End DollarAmount.

(** C4, as amended: for a dollar sign followed by a comma-grouped amount
    (one to three digits, groups of three digits after commas, optionally
    a point and two digits), the amount without its commas is a number
    [v]; if 0.01 < v < 10,000,000 the parser of the enhanced crawler
    returns exactly [v], and currency detection answers the dollar sign. *)
Theorem enhanced_extract_dollar_amount
  (lead : pystr) (groups : list pystr) (frac : pystr) :
  comma_grouped lead groups frac ->
  exists v,
    float_of_string (remove_char COMMA (grouped_amount lead groups frac)) = Some v /\
    (((1 # 100) < v)%Q /\ (v < 10000000)%Q ->
     EnhancedPriceCrawler.extract_price_from_text
       (DOLLAR :: grouped_amount lead groups frac) = Some v) /\
    EnhancedPriceCrawler.detect_currency
      (DOLLAR :: grouped_amount lead groups frac) = [DOLLAR].
Proof.
  intros H.
  destruct (DollarAmount.cleaned_amount lead groups frac H) as (Hne & Hd & Hc & Ht).
  destruct H as (_ & _ & _ & Hf).
  assert (Hshape : decimal_shape ((lead ++ concat groups) ++ frac)).
  { exists (lead ++ concat groups), frac. auto. }
  destruct (AmountFacts.float_of_shape _ Hshape) as (v & Hv).
  exists v. rewrite Hc. split; [exact Hv|].
  split; [|apply DollarAmount.detect_dollar].
  intros Hr. apply EnhancedFacts.enhanced_in_range_spec in Hr.
  unfold EnhancedPriceCrawler.extract_price_from_text. rewrite Ht.
  unfold EnhancedPriceCrawler.patterns.
  cbn [EnhancedPriceCrawler.extract_loop search].
  rewrite (DollarAmount.first_pattern_here _ _ Hne Hd Hf).
  cbn [group1].
  rewrite (AmountFacts.decimal_shape_no_comma _ Hshape), Hv, Hr. reflexivity.
Qed.

Lemma enhanced_extract_dollar_amount_witness :
  EnhancedPriceCrawler.extract_price_from_text (py "$1,234.56") = Some 1234.56%Q /\
  EnhancedPriceCrawler.detect_currency (py "$1,234.56") = py "$".
Proof.
  destruct (enhanced_extract_dollar_amount (py "1") [py "234"] (py ".56"))
    as (v & Hv & Hx & Hd).
  - split; [simpl; lia|]. split; [reflexivity|].
    split; [repeat constructor|].
    right. exists 53%N, 54%N. repeat split; reflexivity.
  - vm_compute in Hv. inversion Hv; subst v. split; [|exact Hd].
    apply Hx. split; reflexivity.
Defined.

(** C4 fails without the range proviso: ["$0.01"] is a well-formed dollar
    amount, its value is 0.01, and the parser returns nothing. *)
Lemma enhanced_extract_refuses_a_cent :
  comma_grouped (py "0") [] (py ".01") /\
  DOLLAR :: grouped_amount (py "0") [] (py ".01") = py "$0.01" /\
  float_of_string (remove_char COMMA (grouped_amount (py "0") [] (py ".01")))
  = Some 0.01%Q /\
  EnhancedPriceCrawler.extract_price_from_text (py "$0.01") = None.
Proof.
  split.
  { split; [simpl; lia|]. split; [reflexivity|]. split; [constructor|].
    right. exists 48%N, 49%N. repeat split; reflexivity. }
  split; [reflexivity|]. split; reflexivity.
Qed.

(** Ten candidates that all show a price: three records, and after the
    search request exactly the first three pages are requested. *)
Example ten_candidates_three_requests :
  let '(found, st') :=
    AutoPriceCrawler.search_and_crawl Examples.ten_candidates_world
      Examples.identity Examples.identity (py "Gold 1oz") None 3
      (AutoPriceCrawler.init 2 10) in
  length found = 3 /\
  map req_url (fetches (AutoPriceCrawler.trace st'))
  = [ py "https://html.duckduckgo.com/html/?q=Gold 1oz price buy";
      py "http://site0"; py "http://site1"; py "http://site2" ] /\
  AutoPriceCrawler.price_history st' = found.
Proof. vm_compute. repeat split. Qed.

(* ================================================================= *)
(** * Further properties of the API crawler *)

Module APIMore.
Import APIPriceCrawler.

Section World.
Variable world : World.

Lemma try_except_idem {A} (m : M (option A)) (st : state) :
  try_except (try_except m) st = try_except m st.
Proof.
  unfold try_except. destruct (m st) as [[a|e] st1]; [reflexivity|].
  destruct (handled e) eqn:E; [reflexivity|]. rewrite E. reflexivity.
Qed.

(** Events added, compositionally. *)
Lemma upto_weaken {A} (n n' : nat) (m : M A) :
  n <= n' -> adds_upto n m -> adds_upto n' m.
Proof.
  intros Hn H st. destruct (H st) as (t & E & L). exists t. split; [exact E | lia].
Qed.

Lemma upto_ret {A} (a : A) : adds_upto 0 (ret a).
Proof. intros st. exists []. simpl. rewrite app_nil_r. auto. Qed.

Lemma upto_lift {A} (o : outcome A) : adds_upto 0 (lift o).
Proof. intros st. exists []. simpl. rewrite app_nil_r. auto. Qed.

Lemma upto_timestamp : adds_upto 0 (timestamp world).
Proof. intros st. exists []. simpl. rewrite app_nil_r. auto. Qed.

Lemma upto_key_or service default : adds_upto 0 (key_or service default).
Proof. intros st. exists []. simpl. rewrite app_nil_r. auto. Qed.

Lemma upto_get url params headers : adds_upto 1 (get world url params headers).
Proof.
  intros st. exists [Fetched (mkRequest url params headers)]. unfold get.
  destruct (http world (trace st) _); simpl; auto.
Qed.

Lemma upto_bind {A B} (a b : nat) (m : M A) (f : A -> M B) :
  adds_upto a m -> (forall x, adds_upto b (f x)) -> adds_upto (a + b) (bind m f).
Proof.
  intros Hm Hf st. unfold bind. destruct (Hm st) as (t1 & E1 & L1).
  destruct (m st) as [[x|e] st1]; simpl in *.
  - destruct (Hf x st1) as (t2 & E2 & L2). exists (t1 ++ t2).
    rewrite E2, E1, app_assoc, length_app. split; [reflexivity | lia].
  - exists t1. split; [exact E1 | lia].
Qed.

Lemma upto_try {A} (n : nat) (m : M (option A)) :
  adds_upto n m -> adds_upto n (try_except m).
Proof.
  intros Hm st. unfold try_except. destruct (Hm st) as (t & E & L).
  destruct (m st) as [[a|e] st1]; simpl in *; [eauto|].
  destruct (handled e); simpl; eauto.
Qed.

Ltac upto_zero :=
  repeat first
    [ apply upto_ret | apply upto_lift | apply upto_timestamp
    | apply upto_key_or
    | apply (upto_bind 0 0); [|intros]
    | match goal with
      | |- adds_upto _ (if ?b then _ else _) => destruct b
      end ].

Lemma upto_crypto crypto_id item_name :
  adds_upto 1 (fetch_crypto_price world crypto_id item_name).
Proof.
  unfold fetch_crypto_price, raise_for_status, json_of.
  apply upto_try. apply (upto_bind 1 0); [apply upto_get|].
  intros response. upto_zero.
Qed.

Lemma upto_alternative metal_code item_name :
  adds_upto 1 (fetch_metal_price_alternative world metal_code item_name).
Proof.
  unfold fetch_metal_price_alternative, json_of.
  apply upto_try. apply (upto_bind 0 1); [apply upto_key_or|]. intros token.
  apply (upto_bind 1 0); [apply upto_get|].
  intros response. upto_zero.
Qed.

Lemma upto_metal metal_code item_name :
  adds_upto 2 (fetch_metal_price world metal_code item_name).
Proof.
  unfold fetch_metal_price, json_of.
  apply upto_try. apply (upto_bind 0 2); [apply upto_key_or|]. intros api_key.
  apply (upto_bind 1 1); [apply upto_get|].
  intros response. destruct (status_code response =? 200).
  - apply (upto_weaken 0); [lia|]. upto_zero.
  - apply upto_alternative.
Qed.

Lemma upto_commodity commodity_code item_name :
  adds_upto 1 (fetch_commodity_price world commodity_code item_name).
Proof.
  intros st. unfold fetch_commodity_price.
  destruct (dict_get (py "alphavantage") (api_keys st)) as [apikey|].
  - match goal with
    | |- exists t, trace (snd (?m st)) = _ /\ _ =>
        cut (adds_upto 1 m); [intros H; exact (H st)|]
    end.
    unfold raise_for_status, json_of.
    apply upto_try. apply (upto_bind 1 0); [apply upto_get|].
    intros response. upto_zero.
  - exists []. simpl. rewrite app_nil_r. split; [reflexivity | lia].
Qed.

Lemma upto_search_item item_name : adds_upto 2 (search_item world item_name).
Proof.
  unfold search_item.
  destruct (lookup_in crypto_map _) as [crypto_id|].
  { apply (upto_weaken 1); [lia | apply upto_crypto]. }
  destruct (lookup_in metal_map _) as [metal_code|]; [apply upto_metal|].
  destruct (lookup_in commodity_map _) as [commodity_code|].
  { apply (upto_weaken 1); [lia | apply upto_commodity]. }
  apply (upto_weaken 0); [lia | apply upto_ret].
Qed.

(** The history is touched by [search_multiple_items] only. *)
Lemma hist_ret {A} (a : A) : keeps_history (ret a).
Proof. intros st; reflexivity. Qed.

Lemma hist_lift {A} (o : outcome A) : keeps_history (lift o).
Proof. intros st; reflexivity. Qed.

Lemma hist_timestamp : keeps_history (timestamp world).
Proof. intros st; reflexivity. Qed.

Lemma hist_key_or service default : keeps_history (key_or service default).
Proof. intros st; reflexivity. Qed.

Lemma hist_get url params headers : keeps_history (get world url params headers).
Proof.
  intros st. unfold get. destruct (http world (trace st) _); reflexivity.
Qed.

Lemma hist_bind {A B} (m : M A) (f : A -> M B) :
  keeps_history m -> (forall x, keeps_history (f x)) -> keeps_history (bind m f).
Proof.
  intros Hm Hf st. unfold bind. specialize (Hm st).
  destruct (m st) as [[x|e] st1]; simpl in *; [|exact Hm].
  rewrite (Hf x st1). exact Hm.
Qed.

Lemma hist_try {A} (m : M (option A)) :
  keeps_history m -> keeps_history (try_except m).
Proof.
  intros Hm st. unfold try_except. specialize (Hm st).
  destruct (m st) as [[a|e] st1]; simpl in *; [exact Hm|].
  destruct (handled e); exact Hm.
Qed.

Ltac hist :=
  repeat first
    [ apply hist_ret | apply hist_lift | apply hist_timestamp
    | apply hist_key_or | apply hist_get | apply hist_try
    | apply hist_bind; [|intros]
    | match goal with
      | |- keeps_history (if ?b then _ else _) => destruct b
      end ].

Lemma hist_alternative metal_code item_name :
  keeps_history (fetch_metal_price_alternative world metal_code item_name).
Proof. unfold fetch_metal_price_alternative, json_of. hist. Qed.

Lemma hist_search_item item_name : keeps_history (search_item world item_name).
Proof.
  unfold search_item.
  destruct (lookup_in crypto_map _) as [crypto_id|].
  { unfold fetch_crypto_price, raise_for_status, json_of. hist. }
  destruct (lookup_in metal_map _) as [metal_code|].
  { unfold fetch_metal_price, json_of. hist. }
  destruct (lookup_in commodity_map _) as [commodity_code|]; [|apply hist_ret].
  intros st. unfold fetch_commodity_price.
  destruct (dict_get (py "alphavantage") (api_keys st)) as [apikey|];
    [|reflexivity].
  match goal with
  | |- price_history (snd (?m st)) = _ =>
      cut (keeps_history m); [intros H; exact (H st)|]
  end.
  unfold raise_for_status, json_of. hist.
Qed.

(** One turn of the batch loop. *)
Lemma items_loop_cons last i rest results st :
  items_loop world last (i :: rest) results st
  = match search_item world i st with
    | (Raise e, s1) => (Raise e, s1)
    | (Ret result, s1) =>
        let s2 := match result with
                  | Some (x :: r) => snd (append_history (x :: r) s1)
                  | _ => s1
                  end in
        let s3 := if negb (str_eqb i last)
                  then snd (sleep (delay s2) s2) else s2 in
        items_loop world last rest (dict_set i result results) s3
    end.
Proof.
  cbn [items_loop]. unfold bind.
  destruct (search_item world i st) as [[res|e] s1]; [|reflexivity].
  destruct res as [[|x r]|]; simpl; destruct (negb (str_eqb i last)); reflexivity.
Qed.

Lemma items_loop_app last a b : forall results st,
  items_loop world last (a ++ b) results st
  = match items_loop world last a results st with
    | (Ret r1, s1) => items_loop world last b r1 s1
    | (Raise e, s1) => (Raise e, s1)
    end.
Proof.
  induction a as [|i a IH]; intros results st; [reflexivity|].
  simpl app. rewrite !items_loop_cons.
  destruct (search_item world i st) as [[res|e] s1]; [|reflexivity].
  cbv zeta. apply IH.
Qed.

Lemma dict_keys_set_new {V} (k : pystr) (v : V) (d : list (pystr * V)) :
  ~ In k (dict_keys d) -> dict_keys (dict_set k v d) = dict_keys d ++ [k].
Proof.
  unfold dict_keys. induction d as [|[k' v'] d IH]; simpl; intros H; [reflexivity|].
  destruct (str_eqb k k') eqn:E.
  - apply str_eqb_eq in E. exfalso. apply H. left. congruence.
  - simpl. f_equal. apply IH. intros Hin. apply H. right. exact Hin.
Qed.

Lemma items_loop_results last items : forall results0 st results st',
  NoDup items ->
  (forall i, In i items -> ~ In i (dict_keys results0)) ->
  items_loop world last items results0 st = (Ret results, st') ->
  price_history st' = price_history st ++ found_records results items /\
  dict_keys results = dict_keys results0 ++ items /\
  (forall k, ~ In k items -> dict_get k results = dict_get k results0).
Proof.
  induction items as [|i items IH]; intros results0 st results st' Hnd Hnew H.
  - simpl in H. inversion H; subst. simpl. rewrite !app_nil_r. auto.
  - rewrite items_loop_cons in H.
    pose proof (hist_search_item i st) as Hh.
    destruct (search_item world i st) as [[res|e] s1]; [|discriminate H].
    simpl in Hh. cbv zeta in H.
    inversion Hnd as [|? ? Hi Hnd']; subst.
    set (s2 := match res with
               | Some (x :: r) => snd (append_history (x :: r) s1)
               | _ => s1
               end) in *.
    set (s3 := if negb (str_eqb i last) then snd (sleep (delay s2) s2) else s2) in *.
    assert (Hkeys : dict_keys (dict_set i res results0) = dict_keys results0 ++ [i]).
    { apply dict_keys_set_new. apply Hnew. left; reflexivity. }
    destruct (IH _ _ _ _ Hnd'
                 (fun j Hj => ltac:(rewrite Hkeys, in_app_iff; simpl;
                                    intros [Hin|[->|[]]];
                                    [exact (Hnew j (or_intror Hj) Hin) | exact (Hi Hj)]))
                 H) as (E1 & E2 & E3).
    assert (Hres : dict_get i results = Some res).
    { rewrite (E3 i Hi). apply CompareFacts.dict_get_set_same. }
    assert (Hs3 : price_history s3 = price_history s2).
    { unfold s3. destruct (negb (str_eqb i last)); reflexivity. }
    assert (Hs2 : price_history s2
                  = price_history st
                    ++ match res with Some (x :: r) => [x :: r] | _ => [] end).
    { unfold s2. destruct res as [[|x r]|]; simpl; rewrite Hh, ?app_nil_r; reflexivity. }
    split; [|split].
    + rewrite E1, Hs3, Hs2. unfold found_records at 2. simpl flat_map.
      rewrite Hres, <- app_assoc. reflexivity.
    + rewrite E2, Hkeys, <- app_assoc. reflexivity.
    + intros k Hk. rewrite E3.
      * apply CompareFacts.dict_get_set_other. intros ->. apply Hk. left; reflexivity.
      * intros Hin. apply Hk. right. exact Hin.
Qed.

End World.
End APIMore.

Module APIAdapters.
Import APIPriceCrawler.

Section World.
Variable world : World.

Lemma lookup_in_miss (table : list (pystr * pystr)) (item_lower : pystr) :
  (forall k, In k (dict_keys table) -> contains k item_lower = false) ->
  lookup_in table item_lower = None.
Proof.
  unfold lookup_in, dict_keys.
  induction table as [|[k c] table IH]; simpl; intros H; [reflexivity|].
  rewrite (H k) by auto. apply IH. intros k' Hk. apply H. auto.
Qed.

Lemma crypto_bad_change crypto_id item_name st resp data entry price change :
  http world (trace st) (coingecko_request crypto_id) = Some resp ->
  http_error resp = false ->
  json resp = Some (PDict data) ->
  dict_get crypto_id data = Some (PDict entry) ->
  dict_get (py "usd") entry = Some price ->
  dict_get (py "usd_24h_change") entry = Some change ->
  py_num change = Raise TypeError ->
  fetch_crypto_price world crypto_id item_name st
  = (Raise TypeError, api_requested (coingecko_request crypto_id) st).
Proof.
  intros Hh He Hj Hd Hu Hc Hn.
  unfold fetch_crypto_price, try_except, bind, get, raise_for_status,
    json_of, lift, ret, timestamp.
  fold (coingecko_request crypto_id). rewrite Hh, He, Hj. simpl.
  unfold dict_mem. rewrite Hd. simpl. unfold dict_mem. rewrite Hu, Hc. simpl.
  destruct change; simpl in Hn; try discriminate Hn; reflexivity.
Qed.


Lemma metal_fallback metal_code item_name st resp :
  http world (trace st)
       (metals_request (key_of (py "metals_api") (py "demo") st) metal_code)
  = Some resp ->
  status_code resp <> 200 ->
  fetch_metal_price world metal_code item_name st
  = fetch_metal_price_alternative world metal_code item_name
      (api_requested
         (metals_request (key_of (py "metals_api") (py "demo") st) metal_code) st).
Proof.
  intros Hh Hs. apply Nat.eqb_neq in Hs.
  unfold fetch_metal_price.
  set (alt := fetch_metal_price_alternative world metal_code item_name).
  unfold try_except at 1. unfold bind, get, key_or.
  unfold metals_request, key_of in Hh. rewrite Hh. simpl. rewrite Hs.
  fold (key_of (py "metals_api") (py "demo") st).
  fold (metals_request (key_of (py "metals_api") (py "demo") st) metal_code).
  fold (api_requested
          (metals_request (key_of (py "metals_api") (py "demo") st) metal_code) st).
  set (st1 := api_requested _ st).
  unfold alt, fetch_metal_price_alternative, try_except.
  match goal with
  | |- match (match ?x with _ => _ end) with _ => _ end = _ =>
      destruct x as [[a|e] s']; [reflexivity|]
  end.
  destruct (handled e) eqn:E; [reflexivity|]. rewrite E. reflexivity.
Qed.

Lemma metal_no_rates metal_code item_name st resp data :
  http world (trace st)
       (metals_request (key_of (py "metals_api") (py "demo") st) metal_code)
  = Some resp ->
  status_code resp = 200 ->
  json resp = Some (PDict data) ->
  dict_get (py "rates") data = None ->
  fetch_metal_price world metal_code item_name st
  = (Ret None,
     api_requested
       (metals_request (key_of (py "metals_api") (py "demo") st) metal_code) st).
Proof.
  intros Hh Hs Hj Hd.
  unfold fetch_metal_price, try_except, bind, get, key_or, json_of, lift, ret.
  unfold metals_request, key_of in Hh. rewrite Hh. simpl. rewrite Hs, Hj. simpl.
  unfold dict_mem. rewrite Hd. reflexivity.
Qed.

End World.
End APIAdapters.

(** X1: when a batch run of the API crawler returns and the items are
    pairwise distinct, the result mapping has exactly the items as keys,
    in order, and the history has grown by exactly the records of that
    mapping, in the order of the items. *)
Theorem api_results_agree_with_history
  (world : World) (items : list pystr) (st st' : APIPriceCrawler.state)
  (results : list (pystr * option pydict)) :
  NoDup items ->
  APIPriceCrawler.search_multiple_items world items st = (Ret results, st') ->
  APIPriceCrawler.price_history st'
  = APIPriceCrawler.price_history st ++ found_records results items /\
  dict_keys results = items.
Proof.
  intros Hnd H. unfold APIPriceCrawler.search_multiple_items in H.
  destruct (APIMore.items_loop_results world _ items [] st results st' Hnd
              (fun _ _ (F : False) => F) H) as (E1 & E2 & _).
  split; [exact E1 | exact E2].
Qed.

Lemma api_results_agree_with_history_witness :
  exists results st',
    APIPriceCrawler.search_multiple_items Examples.zero_rate_world
      [py "Gold"; py "Laptop"] (APIPriceCrawler.init 1) = (Ret results, st') /\
    APIPriceCrawler.price_history st'
    = [] ++ found_records results [py "Gold"; py "Laptop"] /\
    dict_keys results = [py "Gold"; py "Laptop"].
Proof.
  do 2 eexists. split; [vm_compute; reflexivity|].
  apply (api_results_agree_with_history Examples.zero_rate_world
           [py "Gold"; py "Laptop"] (APIPriceCrawler.init 1)).
  - repeat constructor; simpl; intuition discriminate.
  - vm_compute; reflexivity.
Defined.

(** X2: an exception that escapes [search_item] ends the batch: if the
    items before [item] were processed and [search_item item] raises,
    [search_multiple_items] raises the same exception in the state of the
    raise, so the items after it are never searched. *)
Theorem api_batch_stops_at_raise
  (world : World) (before : list pystr) (item : pystr) (after : list pystr)
  (st st1 st2 : APIPriceCrawler.state)
  (results1 : list (pystr * option pydict)) (e : exn) :
  APIPriceCrawler.items_loop world (last (before ++ item :: after) [])
    before [] st = (Ret results1, st1) ->
  APIPriceCrawler.search_item world item st1 = (Raise e, st2) ->
  APIPriceCrawler.search_multiple_items world (before ++ item :: after) st
  = (Raise e, st2).
Proof.
  intros H1 H2. unfold APIPriceCrawler.search_multiple_items.
  rewrite APIMore.items_loop_app, H1, APIMore.items_loop_cons, H2. reflexivity.
Qed.

Lemma api_batch_stops_at_raise_witness :
  APIPriceCrawler.search_multiple_items Samples.quote_with_null_change
    ([] ++ py "Bitcoin" :: [py "Gold"]) (APIPriceCrawler.init 1)
  = (Raise TypeError,
     api_requested (coingecko_request (py "bitcoin")) (APIPriceCrawler.init 1)).
Proof.
  apply (api_batch_stops_at_raise Samples.quote_with_null_change
           [] (py "Bitcoin") [py "Gold"] (APIPriceCrawler.init 1)
           (APIPriceCrawler.init 1) _ []).
  - reflexivity.
  - vm_compute; reflexivity.
Defined.

(** X3: a quote whose ['usd_24h_change'] is present but not a number
    (for instance [null]) makes [fetch_crypto_price] raise [TypeError],
    which none of its [except] clauses catches; the request has been
    sent and nothing else has changed. *)
Theorem fetch_crypto_price_bad_change
  (world : World) (crypto_id item_name : pystr) (st : APIPriceCrawler.state)
  (resp : Response) (data entry : pydict) (price change : pyval) :
  http world (APIPriceCrawler.trace st) (coingecko_request crypto_id) = Some resp ->
  http_error resp = false ->
  json resp = Some (PDict data) ->
  dict_get crypto_id data = Some (PDict entry) ->
  dict_get (py "usd") entry = Some price ->
  dict_get (py "usd_24h_change") entry = Some change ->
  py_num change = Raise TypeError ->
  APIPriceCrawler.fetch_crypto_price world crypto_id item_name st
  = (Raise TypeError, api_requested (coingecko_request crypto_id) st).
Proof. apply APIAdapters.crypto_bad_change. Qed.

Lemma fetch_crypto_price_bad_change_witness :
  APIPriceCrawler.fetch_crypto_price Samples.quote_with_null_change
    (py "bitcoin") (py "Bitcoin") (APIPriceCrawler.init 1)
  = (Raise TypeError,
     api_requested (coingecko_request (py "bitcoin")) (APIPriceCrawler.init 1)).
Proof.
  apply (fetch_crypto_price_bad_change Samples.quote_with_null_change
           (py "bitcoin") (py "Bitcoin") (APIPriceCrawler.init 1)
           (mkResponse 200
              (Some (PDict [(py "bitcoin",
                             PDict [(py "usd", PNum 65000.12);
                                    (py "usd_24h_change", PNone)])])) [])
           [(py "bitcoin", PDict [(py "usd", PNum 65000.12);
                                  (py "usd_24h_change", PNone)])]
           [(py "usd", PNum 65000.12); (py "usd_24h_change", PNone)]
           (PNum 65000.12) PNone); reflexivity.
Defined.

(** X4: whatever the item and the answers of the network, and whether it
    returns or raises, [search_item] adds at most two events to the
    trace (two requests at most: the metals service and its fallback). *)
Theorem search_item_request_bound
  (world : World) (item_name : pystr) (st : APIPriceCrawler.state) :
  exists t,
    APIPriceCrawler.trace (snd (APIPriceCrawler.search_item world item_name st))
    = APIPriceCrawler.trace st ++ t /\
    length t <= 2.
Proof. apply APIMore.upto_search_item. Qed.



(** X6: after [add_api_key('alphavantage', key)], whatever keys were
    there before, [fetch_commodity_price] sends exactly one request, which
    carries that key and asks for the series WTI when the commodity code
    is WTI and for BRENT for every other code (also for NG, natural gas). *)
Theorem fetch_commodity_price_request
  (world : World) (commodity_code item_name key : pystr)
  (st : APIPriceCrawler.state) :
  APIPriceCrawler.trace
    (snd (APIPriceCrawler.fetch_commodity_price world commodity_code item_name
            (APIPriceCrawler.add_api_key (py "alphavantage") key st)))
  = APIPriceCrawler.trace st
    ++ [Fetched (alphavantage_request
                   (if str_eqb commodity_code (py "WTI")
                    then py "WTI" else py "BRENT") key)].
Proof.
  unfold APIPriceCrawler.fetch_commodity_price.
  replace (dict_get (py "alphavantage")
             (APIPriceCrawler.api_keys
                (APIPriceCrawler.add_api_key (py "alphavantage") key st)))
    with (Some key)
    by (symmetry; apply CompareFacts.dict_get_set_same).
  change (APIPriceCrawler.trace st)
    with (APIPriceCrawler.trace
            (APIPriceCrawler.add_api_key (py "alphavantage") key st)).
  generalize (APIPriceCrawler.add_api_key (py "alphavantage") key st).
  match goal with
  | |- forall s, APIPriceCrawler.trace (snd (?m s)) = _ ++ ?t =>
      change (adds m t)
  end.
  unfold APIPriceCrawler.raise_for_status, APIPriceCrawler.json_of.
  apply APIFacts.adds_try. apply APIFacts.adds_bind; [apply APIFacts.adds_get|].
  intros response.
  repeat first
    [ apply APIFacts.adds_ret | apply APIFacts.adds_lift
    | apply APIFacts.adds_timestamp
    | apply APIFacts.adds_bind; [|intros]
    | match goal with
      | |- adds (if ?b then _ else _) _ => destruct b
      end ].
Qed.



(** X8: [fetch_metal_price] falls back to the second service exactly when
    the first answers with a status other than 200: it is then
    [fetch_metal_price_alternative] run after the first request.  A 200
    answer without a ['rates'] key gives [None] with no second request. *)
Theorem fetch_metal_price_fallback (world : World) :
  (forall metal_code item_name st resp,
      http world (APIPriceCrawler.trace st)
           (metals_request (key_of (py "metals_api") (py "demo") st) metal_code)
      = Some resp ->
      status_code resp <> 200 ->
      APIPriceCrawler.fetch_metal_price world metal_code item_name st
      = APIPriceCrawler.fetch_metal_price_alternative world metal_code item_name
          (api_requested
             (metals_request (key_of (py "metals_api") (py "demo") st) metal_code)
             st)) /\
  (forall metal_code item_name st resp data,
      http world (APIPriceCrawler.trace st)
           (metals_request (key_of (py "metals_api") (py "demo") st) metal_code)
      = Some resp ->
      status_code resp = 200 ->
      json resp = Some (PDict data) ->
      dict_get (py "rates") data = None ->
      APIPriceCrawler.fetch_metal_price world metal_code item_name st
      = (Ret None,
         api_requested
           (metals_request (key_of (py "metals_api") (py "demo") st) metal_code)
           st)).
Proof.
  split.
  - intros. eapply APIAdapters.metal_fallback; eauto.
  - intros. eapply APIAdapters.metal_no_rates; eauto.
Qed.

Lemma fetch_metal_price_fallback_witness :
  map req_url
      (fetches (APIPriceCrawler.trace
                  (snd (APIPriceCrawler.fetch_metal_price Samples.unavailable_world
                          (py "XAU") (py "Gold") (APIPriceCrawler.init 1)))))
  = [ py "https://api.metalpriceapi.com/v1/latest";
      py "https://www.goldapi.io/api/XAU/USD" ] /\
  APIPriceCrawler.fetch_metal_price Samples.no_rates_world (py "XAU") (py "Gold")
    (APIPriceCrawler.init 1)
  = (Ret None,
     api_requested (metals_request (py "demo") (py "XAU")) (APIPriceCrawler.init 1)).
Proof.
  split.
  - rewrite (proj1 (fetch_metal_price_fallback Samples.unavailable_world)
               (py "XAU") (py "Gold") (APIPriceCrawler.init 1)
               (mkResponse 503 None [])); [reflexivity | reflexivity |].
    simpl. discriminate.
  - apply (proj2 (fetch_metal_price_fallback Samples.no_rates_world)
             (py "XAU") (py "Gold") (APIPriceCrawler.init 1)
             (mkResponse 200 (Some (PDict [(py "success", PBool false)])) [])
             [(py "success", PBool false)]); reflexivity.
Defined.

(* ================================================================= *)
(** * When the comparison raises *)

Module CompareRaises.
Import Compare.

Lemma collect_ret (l : list pydict) : forall entries prices_data es ps,
  collect l entries prices_data = Ret (es, ps) ->
  exists vs,
    ps = prices_data ++ vs /\
    Forall2 (fun r v => dict_get (py "price") r = Some v /\
                        dict_mem (py "source") r = true /\
                        dict_mem (py "currency") r = true /\
                        dict_mem (py "url") r = true) l vs.
Proof.
  induction l as [|r l IH]; intros entries prices_data es ps H; simpl in H.
  - inversion H; subst. exists []. rewrite app_nil_r. split; [reflexivity|constructor].
  - unfold py_item in H.
    destruct (dict_get (py "source") r) as [source|] eqn:Es; [|discriminate H].
    destruct (dict_get (py "price") r) as [price|] eqn:Ep; [|discriminate H].
    destruct (dict_get (py "currency") r) as [currency|] eqn:Ec; [|discriminate H].
    destruct (dict_get (py "url") r) as [url|] eqn:Eu; [|discriminate H].
    simpl in H. destruct (IH _ _ _ _ H) as (vs & E & F).
    exists (price :: vs). rewrite E, <- app_assoc. split; [reflexivity|].
    constructor; [|exact F]. unfold dict_mem. rewrite Es, Ec, Eu. auto.
Qed.

Lemma py_sum_from_ret (vs : list pyval) : forall acc total,
  py_sum_from acc vs = Ret total ->
  Forall (fun v => exists q, py_num v = Ret q) vs.
Proof.
  induction vs as [|v vs IH]; intros acc total H; [constructor|].
  simpl in H. destruct (py_num v) as [q|] eqn:E; [|discriminate H].
  simpl in H. constructor; [eauto | eapply IH; eauto].
Qed.

Lemma entry_ret (l : list pydict) (e : pyval) :
  entry l = Ret e -> Forall (fun r => comparable r = true) l.
Proof.
  unfold entry. destruct (collect l [] []) as [[es ps]|] eqn:Ec; [|discriminate].
  apply collect_ret in Ec. destruct Ec as (vs & -> & F). simpl app.
  cbn [obind]. intros H.
  assert (Hnum : Forall (fun v => exists q, py_num v = Ret q) vs).
  { destruct vs as [|v vs]; [constructor|].
    destruct (py_min (v :: vs)); [|discriminate H]. cbn [obind] in H.
    destruct (py_max (v :: vs)); [|discriminate H]. cbn [obind] in H.
    destruct (py_sum (v :: vs)) as [total|] eqn:Es; [|discriminate H].
    eapply py_sum_from_ret; exact Es. }
  clear H. induction F as [|r v l vs (Hp & Hs & Hc & Hu) F IH]; [constructor|].
  inversion Hnum as [|? ? (q & Hq) Hnum']; subst.
  constructor; [|apply IH; exact Hnum'].
  unfold comparable, record_price. rewrite Hs, Hc, Hu, Hp, Hq. reflexivity.
Qed.

Lemma compare_loop_ret (price_results : list (pystr * list pydict)) :
  forall comparison comparison',
  compare_loop price_results comparison = Ret comparison' ->
  forall item l r, In (item, l) price_results -> In r l -> comparable r = true.
Proof.
  induction price_results as [|[i l0] rest IH];
    intros comparison comparison' H item l r Hin Hr; [destruct Hin|].
  simpl in H. destruct Hin as [Hin|Hin].
  - inversion Hin; subst. destruct l as [|x l]; [destruct Hr|].
    destruct (entry (x :: l)) as [e|] eqn:Ee; [|discriminate H].
    apply entry_ret in Ee. rewrite Forall_forall in Ee. apply Ee. exact Hr.
  - destruct l0 as [|x l0]; [eapply IH; eauto|].
    destruct (entry (x :: l0)) as [e|]; [|discriminate H].
    simpl in H. eapply IH; eauto.
Qed.

End CompareRaises.

(** X9: [compare_prices] returns only if every record of every item has
    the keys 'source', 'price', 'currency' and 'url' and a numeric price;
    one record without them makes the whole comparison raise ([KeyError]
    or [TypeError]) instead of skipping that record. *)
Theorem compare_prices_returns_only_if_readable
  (price_results : list (pystr * list pydict)) (comparison : pydict) :
  EnhancedPriceCrawler.compare_prices price_results = Ret comparison ->
  forall item l r, In (item, l) price_results -> In r l -> comparable r = true.
Proof. apply CompareRaises.compare_loop_ret. Qed.

Lemma compare_prices_returns_only_if_readable_witness :
  comparable Examples.web_record = true.
Proof.
  apply (compare_prices_returns_only_if_readable Examples.two_items _ eq_refl
           (py "Gold 1oz")
           [ Examples.web_record; (py "price", PNum 27) :: Examples.web_record ]).
  - left; reflexivity.
  - left; reflexivity.
Defined.

(* ================================================================= *)
(** * Batches of the enhanced crawler *)

Lemma dict_set_In {V : Type} (k : pystr) (v : V) (d : list (pystr * V))
      (item : pystr) (l : V) :
  In (item, l) (dict_set k v d) -> (item = k /\ l = v) \/ In (item, l) d.
Proof.
  induction d as [|[k' v'] d IH]; simpl.
  - intros [H|[]]. inversion H; subst. left; split; reflexivity.
  - destruct (str_eqb k k').
    + intros [H|H]; [inversion H; subst; left; split; reflexivity|].
      right; right; exact H.
    + intros [H|H]; [right; left; exact H|].
      destruct (IH H) as [E|E]; [left; exact E | right; right; exact E].
Qed.

Lemma dict_set_keys_In {V : Type} (k : pystr) (v : V) (d : list (pystr * V))
      (x : pystr) :
  In x (dict_keys (dict_set k v d)) -> x = k \/ In x (dict_keys d).
Proof.
  induction d as [|[k' v'] d IH]; simpl.
  - intros [H|[]]; left; congruence.
  - destruct (str_eqb k k') eqn:E; simpl.
    + intros [H|H]; [left; congruence | right; right; exact H].
    + intros [H|H]; [right; left; exact H|].
      destruct (IH H) as [F|F]; [left; exact F | right; right; exact F].
Qed.

Lemma dict_set_NoDup {V : Type} (k : pystr) (v : V) (d : list (pystr * V)) :
  NoDup (dict_keys d) -> NoDup (dict_keys (dict_set k v d)).
Proof.
  induction d as [|[k' v'] d IH]; simpl; intros H.
  - constructor; [intros []|constructor].
  - inversion H as [|? ? Hn Hd]; subst.
    destruct (str_eqb k k') eqn:E; simpl.
    + apply str_eqb_eq in E; subst. constructor; assumption.
    + constructor; [|apply IH; exact Hd].
      intros Hin. apply dict_set_keys_In in Hin. destruct Hin as [->|Hin].
      * rewrite str_eqb_refl in E. discriminate.
      * exact (Hn Hin).
Qed.

Lemma dict_get_In {V : Type} (k : pystr) (v : V) (d : list (pystr * V)) :
  dict_get k d = Some v -> In (k, v) d.
Proof.
  induction d as [|[k' v'] d IH]; simpl; [discriminate|].
  destruct (str_eqb k k') eqn:E.
  - apply str_eqb_eq in E. intros H; inversion H; subst. left; reflexivity.
  - intros H. right. apply IH, H.
Qed.

Lemma web_record_shaped (r : pydict) : is_web_record r -> web_shaped r.
Proof.
  intros (i & t & p & c & u & ts & s & ->). reflexivity.
Qed.

Lemma web_record_comparable (r : pydict) :
  is_web_record r -> comparable r = true.
Proof.
  intros (i & t & p & c & u & ts & s & ->). reflexivity.
Qed.

Module EnhancedBatch.
Import EnhancedPriceCrawler.

Section World.
Variable world : World.
Variable quote_plus : pystr -> pystr.
Variable netloc : pystr -> pystr.

Lemma record_shaped item_name title price price_text url st :
  is_web_record (record world netloc item_name title price price_text url st).
Proof. unfold is_web_record, record. repeat eexists. Qed.

Lemma check_known_source_effect url item_name st res st1 :
  check_known_source world netloc url item_name st = (res, st1) ->
  st1 = log (Fetched (enhanced_page_request url)) st /\
  (forall r, res = Some r -> is_web_record r).
Proof.
  unfold check_known_source, get. fold (enhanced_page_request url).
  assert (E : forall x, (forall r, x = Some r -> is_web_record r) ->
              (x, log (Fetched (enhanced_page_request url)) st) = (res, st1) ->
              st1 = log (Fetched (enhanced_page_request url)) st /\
              (forall r, res = Some r -> is_web_record r)).
  { intros x Hx H; inversion H; subst. auto. }
  assert (N : forall r : pydict, None = Some r -> is_web_record r) by discriminate.
  destruct (http world (trace st) (enhanced_page_request url)) as [r|];
    [|apply E, N].
  destruct (http_error r); [apply E, N|].
  destruct (price_candidates (content r)) as [|[p line] rest]; [apply E, N|].
  apply E. intros r0 Hr; inversion Hr; subst. apply record_shaped.
Qed.

Lemma smart_crawl_url_shape url item_name st res st1 :
  smart_crawl_url world netloc url item_name st = (res, st1) ->
  st1 = log (Fetched (enhanced_page_request url)) st /\
  (forall r, res = Some r -> is_web_record r).
Proof.
  unfold smart_crawl_url, get. fold (enhanced_page_request url).
  assert (E : forall x, (forall r, x = Some r -> is_web_record r) ->
              (x, log (Fetched (enhanced_page_request url)) st) = (res, st1) ->
              st1 = log (Fetched (enhanced_page_request url)) st /\
              (forall r, res = Some r -> is_web_record r)).
  { intros x Hx H; inversion H; subst. auto. }
  assert (N : forall r : pydict, None = Some r -> is_web_record r) by discriminate.
  destruct (http world (trace st) (enhanced_page_request url)) as [r|];
    [|apply E, N].
  destruct (http_error r); [apply E, N|].
  destruct (locate_price (content r)) as [[p t]|]; [|apply E, N].
  apply E. intros r0 Hr; inversion Hr; subst. apply record_shaped.
Qed.

(** The known sources of a commodity are all requested, with a pause
    after each, whether or not they give a price. *)
Lemma check_loop_effect item_name urls : forall found st found' st',
  check_loop world netloc item_name urls found st = (found', st') ->
  exists new,
    found' = found ++ new /\
    price_history st' = price_history st ++ new /\
    Forall is_web_record new /\ length new <= length urls /\
    trace st'
    = trace st ++ flat_map (fun u => [Fetched (enhanced_page_request u);
                                      Slept (delay st)]) urls /\
    delay st' = delay st /\ max_results st' = max_results st.
Proof.
  induction urls as [|url urls IH]; intros found st found' st' H; simpl in H.
  - inversion H; subst. exists []. rewrite !app_nil_r. simpl.
    repeat split; auto.
  - destruct (check_known_source world netloc url item_name st) as [res s1] eqn:E.
    apply check_known_source_effect in E. destruct E as [-> Hres].
    destruct res as [r|].
    + apply IH in H.
      destruct H as (new & E1 & E2 & E3 & E4 & E5 & E6 & E7).
      exists (r :: new). simpl in *.
      rewrite E1, E2, E5, <- !app_assoc. simpl.
      split; [reflexivity|]. split; [reflexivity|].
      split; [constructor; [apply Hres; reflexivity | exact E3]|].
      split; [lia|]. auto.
    + apply IH in H.
      destruct H as (new & E1 & E2 & E3 & E4 & E5 & E6 & E7).
      exists new. simpl in *.
      rewrite E5, <- !app_assoc. simpl. repeat split; auto.
Qed.

Lemma known_loop_effect item_name item_lower sources :
  forall found st returned found' st',
  known_loop world netloc item_name item_lower sources found st
  = (returned, found', st') ->
  exists new,
    found' = found ++ new /\
    price_history st' = price_history st ++ new /\
    Forall is_web_record new /\ max_results st' = max_results st.
Proof.
  induction sources as [|[commodity urls] sources IH];
    intros found st returned found' st' H; simpl in H.
  - inversion H; subst. exists []. rewrite !app_nil_r. auto.
  - destruct (contains commodity item_lower); [|eapply IH; eauto].
    destruct (check_loop world netloc item_name urls found st) as [f1 s1] eqn:E.
    apply check_loop_effect in E.
    destruct E as (new1 & E1 & E2 & E3 & _ & _ & _ & E7).
    destruct f1 as [|r f1].
    + apply IH in H. destruct H as (new2 & F1 & F2 & F3 & F4).
      symmetry in E1. apply app_eq_nil in E1. destruct E1 as [-> ->].
      rewrite app_nil_r in E2. exists new2. simpl in F1.
      rewrite F1, F2, E2, F4, E7. auto.
    + inversion H; subst. exists new1. auto.
Qed.

Lemma crawl_loop_effect item_name urls : forall found st found' st',
  crawl_loop world netloc item_name urls found st = (found', st') ->
  exists new,
    found' = found ++ new /\
    price_history st' = price_history st ++ new /\
    Forall is_web_record new.
Proof.
  induction urls as [|url urls IH]; intros found st found' st' H; simpl in H.
  - inversion H; subst. exists []. rewrite !app_nil_r. auto.
  - destruct (smart_crawl_url world netloc url item_name st) as [res s1] eqn:E.
    apply smart_crawl_url_shape in E. destruct E as [-> Hres].
    destruct res as [r|].
    + destruct (3 <=? length (found ++ [r])).
      * inversion H; subst. exists [r]. simpl. repeat split; auto.
      * apply IH in H. destruct H as (new & E1 & E2 & E3).
        exists (r :: new). simpl in *.
        rewrite E1, E2, <- !app_assoc. simpl. repeat split; auto.
    + apply IH in H. destruct H as (new & E1 & E2 & E3).
      exists new. simpl in *. auto.
Qed.

Lemma search_and_crawl_effect item_name search_terms st found st' :
  search_and_crawl world quote_plus netloc item_name search_terms st
  = (found, st') ->
  price_history st' = price_history st ++ found /\ Forall is_web_record found.
Proof.
  unfold search_and_crawl. intros H.
  destruct (known_loop world netloc item_name (lower item_name)
                       known_sources [] st) as [[b f1] s1] eqn:Ek.
  apply known_loop_effect in Ek. destruct Ek as (new1 & E1 & E2 & E3 & _).
  simpl in E1. subst f1.
  destruct b. { inversion H; subst. auto. }
  destruct (search_google_shopping world quote_plus _ s1) as [urls s2] eqn:Eg.
  assert (Hs2 : price_history s2 = price_history s1).
  { unfold search_google_shopping, get in Eg.
    destruct (http world (trace s1) _) as [r|];
      [destruct (status_code r =? 200)|]; inversion Eg; reflexivity. }
  apply crawl_loop_effect in H. destruct H as (new2 & F1 & F2 & F3).
  rewrite F2, Hs2, E2, F1, app_assoc. split; [reflexivity|].
  apply Forall_app. auto.
Qed.

Lemma items_loop_effect last_item search_terms items :
  forall results0 st results st',
  NoDup items ->
  (forall i, In i items -> ~ In i (dict_keys results0)) ->
  items_loop world quote_plus netloc last_item search_terms items results0 st
  = (results, st') ->
  price_history st' = price_history st ++ found_lists results items /\
  dict_keys results = dict_keys results0 ++ items /\
  (forall k, ~ In k items -> dict_get k results = dict_get k results0).
Proof.
  induction items as [|i items IH]; intros results0 st results st' Hnd Hnew H.
  - simpl in H. inversion H; subst. simpl. rewrite !app_nil_r. auto.
  - simpl in H.
    destruct (search_and_crawl world quote_plus netloc i search_terms st)
      as [found s1] eqn:Es.
    apply search_and_crawl_effect in Es. destruct Es as [Eh _].
    inversion Hnd as [|? ? Hi Hnd']; subst.
    assert (Hkeys : dict_keys (dict_set i found results0) = dict_keys results0 ++ [i]).
    { apply APIMore.dict_keys_set_new. apply Hnew. left; reflexivity. }
    apply IH in H; [|exact Hnd'|].
    2:{ intros j Hj. rewrite Hkeys, in_app_iff. simpl.
        intros [Hin|[->|[]]]; [exact (Hnew j (or_intror Hj) Hin) | exact (Hi Hj)]. }
    destruct H as (E1 & E2 & E3).
    assert (Hres : dict_get i results = Some found).
    { rewrite (E3 i Hi). apply CompareFacts.dict_get_set_same. }
    split; [|split].
    + rewrite E1. unfold found_lists at 2. simpl flat_map. rewrite Hres.
      replace (price_history (if negb (str_eqb i last_item)
                              then sleep (delay s1 * 3) s1 else s1))
        with (price_history s1)
        by (destruct (negb (str_eqb i last_item)); reflexivity).
      rewrite Eh, <- app_assoc. reflexivity.
    + rewrite E2, Hkeys, <- app_assoc. reflexivity.
    + intros k Hk. rewrite E3.
      * apply CompareFacts.dict_get_set_other. intros ->. apply Hk. left; reflexivity.
      * intros Hin. apply Hk. right. exact Hin.
Qed.

Lemma items_loop_shaped last_item search_terms items :
  forall results0 st results st',
  items_loop world quote_plus netloc last_item search_terms items results0 st
  = (results, st') ->
  Forall is_web_record (price_history st) ->
  Forall is_web_record (price_history st').
Proof.
  induction items as [|i items IH]; intros results0 st results st' H Hinv;
    simpl in H.
  - inversion H; subst. exact Hinv.
  - destruct (search_and_crawl world quote_plus netloc i search_terms st)
      as [found s1] eqn:Es.
    apply search_and_crawl_effect in Es. destruct Es as [Eh Hf].
    eapply IH; [exact H|].
    replace (price_history (if negb (str_eqb i last_item)
                            then sleep (delay s1 * 3) s1 else s1))
      with (price_history s1)
      by (destruct (negb (str_eqb i last_item)); reflexivity).
    rewrite Eh. apply Forall_app. auto.
Qed.

Lemma items_loop_records last_item search_terms items :
  forall results0 st results st',
  items_loop world quote_plus netloc last_item search_terms items results0 st
  = (results, st') ->
  NoDup (dict_keys results0) ->
  (forall item l, In (item, l) results0 -> Forall is_web_record l) ->
  NoDup (dict_keys results) /\
  (forall item l, In (item, l) results -> Forall is_web_record l).
Proof.
  induction items as [|i items IH]; intros results0 st results st' H Hnd Hok;
    simpl in H.
  - inversion H; subst. split; assumption.
  - destruct (search_and_crawl world quote_plus netloc i search_terms st)
      as [found s1] eqn:Es.
    apply search_and_crawl_effect in Es. destruct Es as [_ Hf].
    apply IH in H; [exact H | apply dict_set_NoDup; exact Hnd |].
    intros item l Hin. apply dict_set_In in Hin.
    destruct Hin as [[_ ->]|Hin]; [exact Hf | exact (Hok item l Hin)].
Qed.

Lemma check_loop_pass item_name urls found st found' st' :
  check_loop world netloc item_name urls found st = (found', st') ->
  trace st' = trace st ++ known_pass (delay st) urls /\ delay st' = delay st.
Proof.
  intros H. apply check_loop_effect in H.
  destruct H as (new & _ & _ & _ & _ & E5 & E6 & _). split; assumption.
Qed.

Lemma crawl_loop_trace item_name urls : forall found st found' st',
  crawl_loop world netloc item_name urls found st = (found', st') ->
  exists rest,
    trace st' = trace st ++ rest /\ length (fetches rest) <= length urls.
Proof.
  unfold fetches.
  induction urls as [|url urls IH]; intros found st found' st' H; simpl in H.
  - inversion H; subst. exists []. rewrite app_nil_r. simpl. auto.
  - destruct (smart_crawl_url world netloc url item_name st) as [res s1] eqn:E.
    apply smart_crawl_url_shape in E. destruct E as [-> _].
    destruct res as [r|].
    + destruct (3 <=? length (found ++ [r])).
      * inversion H; subst.
        exists [Fetched (enhanced_page_request url)]. simpl.
        split; [reflexivity | lia].
      * apply IH in H. destruct H as (rest & E & L).
        exists (Fetched (enhanced_page_request url) :: Slept (delay st) :: rest).
        simpl in *. rewrite E, <- !app_assoc. simpl.
        split; [reflexivity | lia].
    + apply IH in H. destruct H as (rest & E & L).
      exists (Fetched (enhanced_page_request url) :: Slept (delay st) :: rest).
      simpl in *. rewrite E, <- !app_assoc. simpl.
      split; [reflexivity | lia].
Qed.

Lemma known_loop_trace item_name item_lower sources :
  forall found st returned found' st',
  known_loop world netloc item_name item_lower sources found st
  = (returned, found', st') ->
  exists rest, trace st' = trace st ++ rest.
Proof.
  induction sources as [|[commodity urls] sources IH];
    intros found st returned found' st' H; simpl in H.
  - inversion H; subst. exists []. rewrite app_nil_r. reflexivity.
  - destruct (contains commodity item_lower); [|eapply IH; eauto].
    destruct (check_loop world netloc item_name urls found st) as [f1 s1] eqn:E.
    apply check_loop_pass in E. destruct E as [E _].
    destruct f1 as [|r f1].
    + apply IH in H. destruct H as (rest & H).
      exists (known_pass (delay st) urls ++ rest).
      rewrite H, E, <- app_assoc. reflexivity.
    + inversion H; subst. eexists; exact E.
Qed.

Lemma known_loop_first item_name item_lower sources :
  forall found st returned found' st' commodity urls,
  known_loop world netloc item_name item_lower sources found st
  = (returned, found', st') ->
  find (fun s => contains (fst s) item_lower) sources = Some (commodity, urls) ->
  exists rest, trace st' = trace st ++ known_pass (delay st) urls ++ rest.
Proof.
  induction sources as [|[c us] sources IH];
    intros found st returned found' st' commodity urls H Hf;
    simpl in H, Hf; [discriminate|].
  destruct (contains c item_lower); [|eapply IH; eauto].
  inversion Hf; subst; clear Hf.
  destruct (check_loop world netloc item_name urls found st) as [f1 s1] eqn:E.
  apply check_loop_pass in E. destruct E as [E _].
  destruct f1 as [|r f1].
  - apply known_loop_trace in H. destruct H as (rest & H).
    exists rest. rewrite H, E, <- app_assoc. reflexivity.
  - inversion H; subst. exists []. rewrite app_nil_r. exact E.
Qed.

Lemma known_loop_none item_name item_lower sources : forall found st,
  find (fun s => contains (fst s) item_lower) sources = None ->
  known_loop world netloc item_name item_lower sources found st
  = (false, found, st).
Proof.
  induction sources as [|[c us] sources IH]; intros found st Hf;
    simpl in *; [reflexivity|].
  destruct (contains c item_lower); [discriminate|]. apply IH, Hf.
Qed.

Lemma collect_urls_spec links : forall urls,
  length urls < 5 -> Forall product_url urls ->
  length (collect_urls links urls) <= 5 /\
  Forall product_url (collect_urls links urls).
Proof.
  induction links as [|link links IH]; intros urls Hl Hf; cbn [collect_urls].
  - split; [lia | exact Hf].
  - destruct (attr (py "href") link) as [href|]; [|apply IH; assumption].
    destruct (contains (py "/url?q=") href); [|apply IH; assumption].
    set (actual_url := hd [] (split (py "&")
                                (nth 1 (split (py "/url?q=") href) []))).
    destruct (starts_with (py "http") actual_url) eqn:Eh;
      [|apply IH; assumption].
    destruct (contains (py "google") actual_url) eqn:Eg; cbn [negb andb];
      [apply IH; assumption|].
    assert (Hf' : Forall product_url (urls ++ [actual_url])).
    { apply Forall_app. split; [exact Hf|]. constructor; [|constructor].
      split; assumption. }
    assert (Hlen : length (urls ++ [actual_url]) = S (length urls)).
    { rewrite length_app. simpl. lia. }
    destruct (5 <=? length (urls ++ [actual_url])) eqn:E5.
    + split; [lia | exact Hf'].
    + apply Nat.leb_gt in E5. apply IH; [exact E5 | exact Hf'].
Qed.

Lemma search_google_shopping_effect query st urls st' :
  search_google_shopping world quote_plus query st = (urls, st') ->
  st' = log (Fetched (shopping_request (quote_plus query))) st /\
  length urls <= 5 /\ Forall product_url urls.
Proof.
  unfold search_google_shopping, get.
  fold (shopping_request (quote_plus query)).
  destruct (http world (trace st) (shopping_request (quote_plus query)))
    as [r|].
  2:{ intros H; inversion H; subst. repeat split; [simpl; lia | constructor]. }
  destruct (status_code r =? 200).
  2:{ intros H; inversion H; subst. repeat split; [simpl; lia | constructor]. }
  intros H; inversion H; subst. split; [reflexivity|].
  apply collect_urls_spec; [simpl; lia | constructor].
Qed.

End World.

Lemma csv_of_shaped (history : list pydict) :
  Forall web_shaped history -> history <> [] ->
  dict_writer (dict_keys (hd [] history)) history = Ret (web_table history).
Proof.
  intros Hs Hne. destruct history as [|r0 h]; [congruence|].
  simpl hd. inversion Hs as [|? ? H0 _]; subst.
  unfold web_shaped in H0. rewrite H0.
  unfold dict_writer. rewrite CsvFacts.csv_rows_total; [reflexivity|].
  intros r k Hr Hk. rewrite Forall_forall in Hs.
  rewrite <- (Hs r Hr). exact Hk.
Qed.

End EnhancedBatch.

(** X10: a batch run of the enhanced crawler over pairwise distinct
    items returns a mapping whose keys are exactly the items, in order,
    and has lengthened the history by exactly the records of that
    mapping, item after item. *)
Theorem enhanced_results_agree_with_history
  (world : World) (quote_plus netloc : pystr -> pystr)
  (items : list pystr) (search_terms : option pystr)
  (st st' : EnhancedPriceCrawler.state)
  (results : list (pystr * list pydict)) :
  NoDup items ->
  EnhancedPriceCrawler.search_multiple_items world quote_plus netloc items
    search_terms st = (results, st') ->
  EnhancedPriceCrawler.price_history st'
  = EnhancedPriceCrawler.price_history st ++ found_lists results items /\
  dict_keys results = items.
Proof.
  intros Hnd H. unfold EnhancedPriceCrawler.search_multiple_items in H.
  destruct (EnhancedBatch.items_loop_effect world quote_plus netloc _
              search_terms items [] st results st' Hnd
              (fun _ _ (F : False) => F) H) as (E1 & E2 & _).
  split; [exact E1 | exact E2].
Qed.

Lemma enhanced_results_agree_with_history_witness :
  exists results st',
    EnhancedPriceCrawler.search_multiple_items Examples.conflict_world
      Examples.identity Examples.identity [py "Gold 1oz"; py "Laptop"] None
      (EnhancedPriceCrawler.init 2 15) = (results, st') /\
    EnhancedPriceCrawler.price_history st'
    = [] ++ found_lists results [py "Gold 1oz"; py "Laptop"] /\
    dict_keys results = [py "Gold 1oz"; py "Laptop"].
Proof.
  do 2 eexists. split; [vm_compute; reflexivity|].
  apply (enhanced_results_agree_with_history Examples.conflict_world
           Examples.identity Examples.identity [py "Gold 1oz"; py "Laptop"]
           None (EnhancedPriceCrawler.init 2 15)).
  - repeat constructor; simpl; intuition discriminate.
  - vm_compute; reflexivity.
Defined.

(** X11: on the history a fresh enhanced crawler has built by a batch
    run, [save_to_csv] never raises: if the history is not empty it
    writes the seven field names of a record as header and under it one
    full row per record. *)
Theorem enhanced_csv_of_own_history
  (world : World) (quote_plus netloc : pystr -> pystr)
  (items : list pystr) (search_terms : option pystr)
  (delay : Q) (max_results : nat)
  (st' : EnhancedPriceCrawler.state) (results : list (pystr * list pydict)) :
  EnhancedPriceCrawler.search_multiple_items world quote_plus netloc items
    search_terms (EnhancedPriceCrawler.init delay max_results)
  = (results, st') ->
  EnhancedPriceCrawler.price_history st' <> [] ->
  EnhancedPriceCrawler.save_to_csv st'
  = Some (Ret (web_table (EnhancedPriceCrawler.price_history st'))) /\
  Forall (fun row => length row = 7)
         (web_table (EnhancedPriceCrawler.price_history st')).
Proof.
  intros H Hne. unfold EnhancedPriceCrawler.search_multiple_items in H.
  apply EnhancedBatch.items_loop_shaped in H; [|constructor].
  apply (Forall_impl web_shaped web_record_shaped) in H.
  split.
  - unfold EnhancedPriceCrawler.save_to_csv.
    pose proof (EnhancedBatch.csv_of_shaped _ H Hne) as E.
    destruct (EnhancedPriceCrawler.price_history st') as [|r0 h];
      [congruence|].
    simpl hd in E. rewrite E. reflexivity.
  - unfold web_table. constructor; [reflexivity|].
    apply Forall_forall. intros row Hr. apply in_map_iff in Hr.
    destruct Hr as (r & <- & _). reflexivity.
Qed.

Lemma enhanced_csv_of_own_history_witness :
  exists results st',
    EnhancedPriceCrawler.search_multiple_items Examples.conflict_world
      Examples.identity Examples.identity [py "Gold 1oz"] None
      (EnhancedPriceCrawler.init 2 15) = (results, st') /\
    EnhancedPriceCrawler.price_history st' <> [] /\
    EnhancedPriceCrawler.save_to_csv st'
    = Some (Ret (web_table (EnhancedPriceCrawler.price_history st'))) /\
    Forall (fun row => length row = 7)
           (web_table (EnhancedPriceCrawler.price_history st')).
Proof.
  do 2 eexists. split; [vm_compute; reflexivity|].
  split; [discriminate|].
  apply (enhanced_csv_of_own_history Examples.conflict_world
           Examples.identity Examples.identity [py "Gold 1oz"] None 2 15 _
           _ eq_refl).
  discriminate.
Defined.

(** X12: when the lower-cased item name contains the name of a known
    commodity, [search_and_crawl] starts with a pass over the URLs of the
    first such commodity: every one of them is requested, in order, each
    followed by a pause of [delay], whether or not it gave a price. *)
Theorem enhanced_known_sources_first
  (world : World) (quote_plus netloc : pystr -> pystr)
  (item_name : pystr) (search_terms : option pystr)
  (st : EnhancedPriceCrawler.state) (commodity : pystr) (urls : list pystr) :
  first_known (lower item_name) = Some (commodity, urls) ->
  exists rest,
    EnhancedPriceCrawler.trace
      (snd (EnhancedPriceCrawler.search_and_crawl world quote_plus netloc
              item_name search_terms st))
    = EnhancedPriceCrawler.trace st
      ++ known_pass (EnhancedPriceCrawler.delay st) urls ++ rest.
Proof.
  intros Hf. unfold EnhancedPriceCrawler.search_and_crawl.
  destruct (EnhancedPriceCrawler.known_loop world netloc item_name
              (lower item_name) EnhancedPriceCrawler.known_sources [] st)
    as [[returned known] s1] eqn:Ek.
  destruct (EnhancedBatch.known_loop_first world netloc _ _ _ _ _ _ _ _ _ _
              Ek Hf) as (rest1 & E1).
  destruct returned; [exists rest1; exact E1|].
  destruct (EnhancedPriceCrawler.search_google_shopping world quote_plus _ s1)
    as [found_urls s2] eqn:Eg.
  apply EnhancedBatch.search_google_shopping_effect in Eg.
  destruct Eg as (-> & _ & _).
  destruct (EnhancedPriceCrawler.crawl_loop _ _ _ _ _ _) as [found st'] eqn:Ec.
  apply EnhancedBatch.crawl_loop_trace in Ec. destruct Ec as (rest2 & E2 & _).
  simpl snd. simpl in E2. rewrite E2, E1, <- !app_assoc.
  eexists. reflexivity.
Qed.

Lemma enhanced_known_sources_first_witness :
  exists rest,
    EnhancedPriceCrawler.trace
      (snd (EnhancedPriceCrawler.search_and_crawl Examples.conflict_world
              Examples.identity Examples.identity (py "Gold 1oz") None
              (EnhancedPriceCrawler.init 2 15)))
    = [] ++ known_pass 2
              [ py "https://www.kitco.com/gold-price-today-usa/";
                py "https://www.bullionvault.com/gold-price-chart.do" ]
         ++ rest.
Proof.
  apply (enhanced_known_sources_first Examples.conflict_world
           Examples.identity Examples.identity (py "Gold 1oz") None
           (EnhancedPriceCrawler.init 2 15) (py "gold")).
  vm_compute; reflexivity.
Defined.

(** X13: when the lower-cased item name contains no known commodity,
    [search_and_crawl] starts with the Google Shopping request for
    ["<item> <terms>"] (["<item> buy price"] without terms), and after it
    requests at most five pages and at most [max_results]. *)
Theorem enhanced_unknown_item_searches
  (world : World) (quote_plus netloc : pystr -> pystr)
  (item_name : pystr) (search_terms : option pystr)
  (st : EnhancedPriceCrawler.state) :
  first_known (lower item_name) = None ->
  exists rest,
    EnhancedPriceCrawler.trace
      (snd (EnhancedPriceCrawler.search_and_crawl world quote_plus netloc
              item_name search_terms st))
    = EnhancedPriceCrawler.trace st
      ++ Fetched (shopping_request
                    (quote_plus (shopping_query item_name search_terms)))
         :: rest /\
    length (fetches rest) <= 5 /\
    length (fetches rest) <= EnhancedPriceCrawler.max_results st.
Proof.
  intros Hf. unfold EnhancedPriceCrawler.search_and_crawl.
  rewrite (EnhancedBatch.known_loop_none world netloc item_name _ _ [] st Hf).
  fold (shopping_query item_name search_terms).
  destruct (EnhancedPriceCrawler.search_google_shopping world quote_plus _ st)
    as [found_urls s2] eqn:Eg.
  apply EnhancedBatch.search_google_shopping_effect in Eg.
  destruct Eg as (-> & Hlen & _).
  destruct (EnhancedPriceCrawler.crawl_loop _ _ _ _ _ _) as [found st'] eqn:Ec.
  apply EnhancedBatch.crawl_loop_trace in Ec. destruct Ec as (rest & E & L).
  exists rest. simpl snd. simpl in E, L.
  split; [rewrite E, <- app_assoc; reflexivity|].
  rewrite length_firstn in L. split; lia.
Qed.

Lemma enhanced_unknown_item_searches_witness :
  exists rest,
    EnhancedPriceCrawler.trace
      (snd (EnhancedPriceCrawler.search_and_crawl Examples.conflict_world
              Examples.identity Examples.identity (py "Laptop") None
              (EnhancedPriceCrawler.init 2 15)))
    = [] ++ Fetched (shopping_request
                       (Examples.identity (shopping_query (py "Laptop") None)))
            :: rest /\
    length (fetches rest) <= 5 /\ length (fetches rest) <= 15.
Proof.
  apply (enhanced_unknown_item_searches Examples.conflict_world
           Examples.identity Examples.identity (py "Laptop") None
           (EnhancedPriceCrawler.init 2 15)).
  vm_compute; reflexivity.
Defined.

(** X14: whatever the network answers, [search_google_shopping] sends
    exactly one request and returns at most five URLs, each of which
    starts with ["http"] and does not contain ["google"]. *)
Theorem search_google_shopping_urls
  (world : World) (quote_plus : pystr -> pystr) (query : pystr)
  (st : EnhancedPriceCrawler.state) :
  let '(urls, st') :=
    EnhancedPriceCrawler.search_google_shopping world quote_plus query st in
  length urls <= 5 /\ Forall product_url urls /\
  EnhancedPriceCrawler.trace st'
  = EnhancedPriceCrawler.trace st
    ++ [Fetched (shopping_request (quote_plus query))] /\
  EnhancedPriceCrawler.price_history st' = EnhancedPriceCrawler.price_history st.
Proof.
  destruct (EnhancedPriceCrawler.search_google_shopping world quote_plus query st)
    as [urls st'] eqn:E.
  apply (EnhancedBatch.search_google_shopping_effect world quote_plus) in E.
  destruct E as (-> & Hl & Hf). repeat split; assumption.
Qed.

(** X15: [compare_prices] never raises on what [search_multiple_items] of
    the enhanced crawler returned, whatever the items (repeated or not)
    and the network: every item with at least one record gets its
    summary, and an item without records gets no entry. *)
Theorem enhanced_compare_own_results
  (world : World) (quote_plus netloc : pystr -> pystr)
  (items : list pystr) (search_terms : option pystr)
  (st st' : EnhancedPriceCrawler.state)
  (results : list (pystr * list pydict)) :
  EnhancedPriceCrawler.search_multiple_items world quote_plus netloc items
    search_terms st = (results, st') ->
  exists comparison,
    EnhancedPriceCrawler.compare_prices results = Ret comparison /\
    forall item,
      match dict_get item results with
      | Some (r :: l) =>
          exists e, dict_get item comparison = Some e /\
                    summary_of (prices_of (r :: l)) e
      | _ => dict_get item comparison = None
      end.
Proof.
  intros H. unfold EnhancedPriceCrawler.search_multiple_items in H.
  apply EnhancedBatch.items_loop_records in H;
    [|constructor | intros item l []].
  destruct H as [Hnd Hok].
  assert (Hcmp : forall item l r,
             In (item, l) results -> In r l -> comparable r = true).
  { intros item l r Hin Hr. apply web_record_comparable.
    pose proof (Hok item l Hin) as F. rewrite Forall_forall in F.
    apply F, Hr. }
  destruct (CompareFacts.compare_loop_spec results Hnd Hcmp [])
    as (comparison & E & Hc).
  exists comparison. split; [exact E|].
  intros item. rewrite Hc.
  destruct (dict_get item results) as [[|r l]|] eqn:Eg; try reflexivity.
  destruct (CompareFacts.entry_spec r l) as (e & Ee & He).
  { rewrite Forall_forall. intros x Hx.
    apply (Hcmp item (r :: l) x); [apply dict_get_In; exact Eg | exact Hx]. }
  exists e. unfold entry_of. rewrite Ee. split; [reflexivity | exact He].
Qed.

Lemma enhanced_compare_own_results_witness :
  exists results st' comparison,
    EnhancedPriceCrawler.search_multiple_items Examples.conflict_world
      Examples.identity Examples.identity [py "Gold 1oz"; py "Laptop"] None
      (EnhancedPriceCrawler.init 2 15) = (results, st') /\
    EnhancedPriceCrawler.compare_prices results = Ret comparison /\
    forall item,
      match dict_get item results with
      | Some (r :: l) =>
          exists e, dict_get item comparison = Some e /\
                    summary_of (prices_of (r :: l)) e
      | _ => dict_get item comparison = None
      end.
Proof.
  destruct (enhanced_compare_own_results Examples.conflict_world
              Examples.identity Examples.identity [py "Gold 1oz"; py "Laptop"]
              None (EnhancedPriceCrawler.init 2 15) _ _ eq_refl)
    as (comparison & H).
  eexists _, _, comparison. split; [reflexivity | exact H].
Defined.

(* ================================================================= *)
(** * Printing the crawler's own results *)

Module ReportFacts.
Import Compare Report.

Section Interpreter.
Variable dict_slice_error : exn.

Lemma print_prices_ok (l : list pydict) :
  Forall is_web_record l -> print_prices dict_slice_error l = Ret tt.
Proof.
  induction 1 as [|r l (i & t & p & c & u & ts & s & ->) _ IH];
    [reflexivity|].
  cbn [print_prices]. exact IH.
Qed.

Lemma print_items_ok (price_results : list (pystr * list pydict)) :
  (forall item l, In (item, l) price_results -> Forall is_web_record l) ->
  print_items dict_slice_error price_results = Ret tt.
Proof.
  induction price_results as [|[item l] rest IH]; intros H; [reflexivity|].
  cbn [print_items].
  assert (IH' : print_items dict_slice_error rest = Ret tt).
  { apply IH. intros i l0 Hin. apply (H i l0). right; exact Hin. }
  destruct l as [|r l]; [exact IH'|].
  rewrite print_prices_ok; [exact IH'|].
  apply (H item). left; reflexivity.
Qed.

Lemma format_number (v : pyval) (q : Q) :
  py_num v = Ret q -> py_format_f v = Ret tt.
Proof. destruct v; simpl; intros H; try discriminate H; reflexivity. Qed.

Lemma print_summary_ok (prices : list Q) (e : pyval) :
  summary_of prices e -> print_summary e = Ret tt.
Proof.
  intros (entries & lowest & highest & average & ql & qh & -> & _ & Hl & _ & _
          & Hh & _).
  unfold print_summary.
  change (py_item _ (py "lowest")) with (Ret (A := pyval) lowest).
  change (py_item _ (py "highest")) with (Ret (A := pyval) highest).
  change (py_item _ (py "average")) with (Ret (A := pyval) (PNum average)).
  change (py_item _ (py "prices")) with (Ret (A := pyval) (PList entries)).
  cbn [obind]. destruct (py_truthy lowest); [|reflexivity].
  rewrite (format_number _ _ Hl), (format_number _ _ Hh). reflexivity.
Qed.

Lemma dict_set_printable (k : pystr) (e : pyval) (comparison : pydict) :
  print_summary e = Ret tt -> printable comparison ->
  printable (dict_set k e comparison).
Proof.
  intros He. induction 1 as [|[k' v'] d Hv Hd IH]; simpl.
  - constructor; [exact He | constructor].
  - destruct (str_eqb k k'); constructor; assumption.
Qed.

Lemma print_comparison_ok (comparison : pydict) :
  printable comparison -> print_comparison comparison = Ret tt.
Proof.
  induction 1 as [|[k v] d Hv _ IH]; [reflexivity|].
  cbn [print_comparison]. simpl in Hv. rewrite Hv. exact IH.
Qed.

Lemma compare_loop_printable (price_results : list (pystr * list pydict)) :
  (forall item l, In (item, l) price_results -> Forall is_web_record l) ->
  forall comparison, printable comparison ->
  exists comparison',
    compare_loop price_results comparison = Ret comparison' /\
    printable comparison'.
Proof.
  induction price_results as [|[item l] rest IH]; intros H comparison Hc.
  - exists comparison. split; [reflexivity | exact Hc].
  - assert (H' : forall i l0, In (i, l0) rest -> Forall is_web_record l0).
    { intros i l0 Hin. apply (H i l0). right; exact Hin. }
    cbn [compare_loop]. destruct l as [|r l]; [apply IH; assumption|].
    destruct (CompareFacts.entry_spec r l) as (e & Ee & He).
    { apply (Forall_impl _ web_record_comparable).
      apply (H item). left; reflexivity. }
    rewrite Ee. cbn [obind]. apply IH; [exact H'|].
    apply dict_set_printable; [|exact Hc].
    eapply print_summary_ok; exact He.
Qed.

Lemma print_results_ok (price_results : list (pystr * list pydict)) :
  (forall item l, In (item, l) price_results -> Forall is_web_record l) ->
  print_results dict_slice_error price_results = Ret tt.
Proof.
  intros H. unfold print_results. rewrite (print_items_ok _ H). cbn [obind].
  destruct (compare_loop_printable price_results H [] (Forall_nil _))
    as (comparison & E & Hp).
  unfold compare_prices. rewrite E. cbn [obind].
  destruct comparison; [reflexivity|]. apply print_comparison_ok, Hp.
Qed.

End Interpreter.
End ReportFacts.

(** X16: [print_results] never raises on what [search_multiple_items] of
    the enhanced crawler returned, whatever the items and the network:
    every record has the keys read and a string ['url'], the comparison
    can be computed, and its lowest, highest and average are numbers. *)
Theorem enhanced_print_own_results
  (dict_slice_error : exn)
  (world : World) (quote_plus netloc : pystr -> pystr)
  (items : list pystr) (search_terms : option pystr)
  (st st' : EnhancedPriceCrawler.state)
  (results : list (pystr * list pydict)) :
  EnhancedPriceCrawler.search_multiple_items world quote_plus netloc items
    search_terms st = (results, st') ->
  Report.print_results dict_slice_error results = Ret tt.
Proof.
  intros H. unfold EnhancedPriceCrawler.search_multiple_items in H.
  apply EnhancedBatch.items_loop_records in H;
    [|constructor | intros item l []].
  apply ReportFacts.print_results_ok. exact (proj2 H).
Qed.

Lemma enhanced_print_own_results_witness :
  Report.print_results TypeError
    (fst (EnhancedPriceCrawler.search_multiple_items Examples.conflict_world
            Examples.identity Examples.identity [py "Gold 1oz"; py "Laptop"]
            None (EnhancedPriceCrawler.init 2 15))) = Ret tt.
Proof.
  exact (enhanced_print_own_results TypeError Examples.conflict_world
           Examples.identity Examples.identity [py "Gold 1oz"; py "Laptop"]
           None (EnhancedPriceCrawler.init 2 15) _ _ eq_refl).
Defined.

(* ================================================================= *)
(** * Batches of the auto-discovery crawler *)

Module AutoBatch.
Import AutoPriceCrawler.

Lemma strategy_selectors_in_range doc p t :
  strategy_selectors doc = Some (p, t) -> in_range p = true.
Proof.
  unfold strategy_selectors. intros H.
  apply first_some_In in H. destruct H as (sel & _ & H).
  apply first_some_In in H. destruct H as (elem & _ & H).
  unfold try_element in H.
  destruct (extract_price_from_text (get_text_strip elem)) as [q|];
    [|discriminate].
  destruct (in_range q) eqn:E; [|discriminate].
  inversion H; subst. exact E.
Qed.

Lemma strategy_body_in_range doc p t :
  strategy_body doc = Some (p, t) -> in_range p = true.
Proof.
  unfold strategy_body. intros H.
  apply first_some_In in H. destruct H as (m & _ & H).
  unfold try_match in H.
  destruct (extract_price_from_text (group0 m)) as [q|]; [|discriminate].
  destruct (in_range q) eqn:E; [|discriminate].
  inversion H; subst. exact E.
Qed.

Lemma strategy_meta_absent doc :
  select_one meta_product_price doc = None -> strategy_meta doc = (None, []).
Proof. unfold strategy_meta. intros ->. reflexivity. Qed.

(** Where the price of a page comes from: a range-checked strategy, or
    the meta tag. *)
Lemma locate_price_origin doc p t :
  locate_price doc = (Some p, t) ->
  in_range p = true \/ fst (strategy_meta doc) = Some p.
Proof.
  unfold locate_price.
  destruct (strategy_selectors doc) as [[p1 t1]|] eqn:E1.
  - apply strategy_selectors_in_range in E1.
    assert (T : truthy_price (Some p1) = true).
    { unfold in_range in E1. simpl.
      destruct (truthy_num p1); [reflexivity | discriminate E1]. }
    rewrite T. cbn [negb]. rewrite T. cbn [negb].
    intros H; inversion H; subst. left; exact E1.
  - cbn [truthy_price negb].
    destruct (strategy_meta doc) as [pm tm] eqn:Em.
    destruct (truthy_price pm) eqn:Tm; cbn [negb].
    + intros H; inversion H; subst. right; reflexivity.
    + destruct (strategy_body doc) as [[p3 t3]|] eqn:E3.
      * apply strategy_body_in_range in E3.
        intros H; inversion H; subst. left; exact E3.
      * intros H; inversion H; subst. right; reflexivity.
Qed.

Section World.
Variable world : World.
Variable quote_plus : pystr -> pystr.
Variable netloc : pystr -> pystr.

Lemma auto_crawl_shape url item_name st res st1 :
  smart_crawl_url world netloc url item_name st = (res, st1) ->
  st1 = log (Fetched (auto_page_request url)) st /\
  (forall r, res = Some r -> is_web_record r).
Proof.
  unfold smart_crawl_url, get. fold (auto_page_request url).
  assert (E : forall x, (forall r, x = Some r -> is_web_record r) ->
              (x, log (Fetched (auto_page_request url)) st) = (res, st1) ->
              st1 = log (Fetched (auto_page_request url)) st /\
              (forall r, res = Some r -> is_web_record r)).
  { intros x Hx H; inversion H; subst. auto. }
  assert (N : forall r : pydict, None = Some r -> is_web_record r)
    by discriminate.
  destruct (http world (trace st) (auto_page_request url)) as [r|];
    [|apply E, N].
  destruct (http_error r); [apply E, N|].
  destruct (locate_price (content r)) as [[p|] t]; [|apply E, N].
  destruct (truthy_num p); [|apply E, N].
  apply E. intros r0 Hr; inversion Hr; subst.
  unfold is_web_record. repeat eexists.
Qed.

Lemma auto_crawl_loop_effect item_name n urls : forall found st found' st',
  crawl_loop world netloc item_name n urls found st = (found', st') ->
  exists new,
    found' = found ++ new /\
    price_history st' = price_history st ++ new /\
    Forall is_web_record new.
Proof.
  induction urls as [|url urls IH]; intros found st found' st' H; simpl in H.
  - inversion H; subst. exists []. rewrite !app_nil_r. auto.
  - destruct (smart_crawl_url world netloc url item_name st) as [res s1] eqn:E.
    apply auto_crawl_shape in E. destruct E as [-> Hres].
    destruct res as [r|].
    + destruct (n <=? length (found ++ [r])).
      * inversion H; subst. exists [r]. simpl. repeat split; auto.
      * apply IH in H. destruct H as (new & E1 & E2 & E3).
        exists (r :: new). simpl in *.
        rewrite E1, E2, <- !app_assoc. simpl. repeat split; auto.
    + apply IH in H. destruct H as (new & E1 & E2 & E3).
      exists new. simpl in *. auto.
Qed.

Lemma auto_collect_urls_spec cap links : forall urls,
  length urls < Nat.max 1 cap -> Forall result_url urls ->
  length (collect_urls cap links urls) <= Nat.max 1 cap /\
  Forall result_url (collect_urls cap links urls).
Proof.
  induction links as [|link links IH]; intros urls Hl Hf; cbn [collect_urls].
  - split; [lia | exact Hf].
  - destruct (attr (py "href") link) as [href|]; [|apply IH; assumption].
    destruct (truthy_str href); cbn [andb]; [|apply IH; assumption].
    destruct (starts_with (py "http") href) eqn:Eh; [|apply IH; assumption].
    destruct (contains (py "//duckduckgo.com/l/?") href) eqn:Ed;
      [apply IH; assumption|].
    assert (Hf' : Forall result_url (urls ++ [href])).
    { apply Forall_app. split; [exact Hf|]. constructor; [|constructor].
      split; assumption. }
    assert (Hlen : length (urls ++ [href]) = S (length urls)).
    { rewrite length_app. simpl. lia. }
    destruct (cap <=? length (urls ++ [href])) eqn:E5.
    + split; [lia | exact Hf'].
    + apply Nat.leb_gt in E5. apply IH; [lia | exact Hf'].
Qed.

Lemma search_web_for_item_effect item_name search_terms st urls st' :
  search_web_for_item world quote_plus item_name search_terms st = (urls, st') ->
  st' = log (Fetched (duck_request
                        (quote_plus (auto_search_terms item_name search_terms))))
            st /\
  length urls <= Nat.max 1 (max_results st) /\ Forall result_url urls.
Proof.
  unfold search_web_for_item, get.
  fold (auto_search_terms item_name search_terms).
  fold (duck_request (quote_plus (auto_search_terms item_name search_terms))).
  destruct (http world (trace st) _) as [r|].
  2:{ intros H; inversion H; subst. repeat split; [simpl; lia | constructor]. }
  destruct (http_error r).
  { intros H; inversion H; subst. repeat split; [simpl; lia | constructor]. }
  intros H; inversion H; subst. split; [reflexivity|].
  apply auto_collect_urls_spec; [cbn [length]; lia | constructor].
Qed.

Lemma auto_search_and_crawl_effect item_name search_terms n st found st' :
  search_and_crawl world quote_plus netloc item_name search_terms n st
  = (found, st') ->
  price_history st' = price_history st ++ found /\ Forall is_web_record found.
Proof.
  unfold search_and_crawl. intros H.
  destruct (search_web_for_item world quote_plus item_name search_terms st)
    as [urls s1] eqn:Es.
  apply search_web_for_item_effect in Es. destruct Es as (-> & _ & _).
  destruct urls as [|u urls].
  - inversion H; subst. simpl. rewrite app_nil_r. split; [reflexivity|constructor].
  - apply auto_crawl_loop_effect in H. destruct H as (new & E1 & E2 & E3).
    simpl in E1, E2. subst found. split; assumption.
Qed.

Lemma auto_items_loop_records last_item search_terms items :
  forall results0 st results st',
  items_loop world quote_plus netloc last_item search_terms items results0 st
  = (results, st') ->
  Forall is_web_record (price_history st) ->
  (forall item l, In (item, l) results0 -> Forall is_web_record l) ->
  Forall is_web_record (price_history st') /\
  (forall item l, In (item, l) results -> Forall is_web_record l).
Proof.
  induction items as [|i items IH]; intros results0 st results st' H Hh Hok;
    simpl in H.
  - inversion H; subst. split; assumption.
  - destruct (search_and_crawl world quote_plus netloc i search_terms 3 st)
      as [found s1] eqn:Es.
    apply auto_search_and_crawl_effect in Es. destruct Es as [Eh Hf].
    apply IH in H; [exact H | |].
    + replace (price_history (if negb (str_eqb i last_item)
                              then sleep (delay s1 * 2) s1 else s1))
        with (price_history s1)
        by (destruct (negb (str_eqb i last_item)); reflexivity).
      rewrite Eh. apply Forall_app. split; assumption.
    + intros item l Hin. apply dict_set_In in Hin.
      destruct Hin as [[_ ->]|Hin]; [exact Hf | exact (Hok item l Hin)].
Qed.

End World.
End AutoBatch.

(** X17: whatever the network answers, [search_web_for_item] of the
    auto-discovery crawler sends exactly one request, for the item name
    followed by the search terms (["price buy"] when none are given), and
    returns URLs that start with ["http"] and are no DuckDuckGo
    redirects; it returns at most [max_results] of them, except that a
    cap of 0 still lets one URL through, the length being checked after
    the append. *)
Theorem search_web_for_item_urls
  (world : World) (quote_plus : pystr -> pystr)
  (item_name : pystr) (search_terms : option pystr)
  (st : AutoPriceCrawler.state) :
  let '(urls, st') :=
    AutoPriceCrawler.search_web_for_item world quote_plus item_name
      search_terms st in
  length urls <= Nat.max 1 (AutoPriceCrawler.max_results st) /\
  Forall result_url urls /\
  AutoPriceCrawler.trace st'
  = AutoPriceCrawler.trace st
    ++ [Fetched (duck_request
                   (quote_plus (auto_search_terms item_name search_terms)))] /\
  AutoPriceCrawler.price_history st' = AutoPriceCrawler.price_history st.
Proof.
  destruct (AutoPriceCrawler.search_web_for_item world quote_plus item_name
              search_terms st) as [urls st'] eqn:E.
  apply (AutoBatch.search_web_for_item_effect world quote_plus) in E.
  destruct E as (-> & Hl & Hf). repeat split; assumption.
Qed.

(** That bound is reached: with [max_results = 0] and a result page of
    ten links, one URL is returned. *)
Example search_web_for_item_cap_zero :
  fst (AutoPriceCrawler.search_web_for_item Examples.ten_candidates_world
         Examples.identity (py "Gold") None (AutoPriceCrawler.init 2 0))
  = [py "http://site0"].
Proof. vm_compute. reflexivity. Qed.

(** X18: a record returned by [smart_crawl_url] of the auto-discovery
    crawler never has the price 0, and its price lies strictly between
    0.01 and 1,000,000 unless it is the one read from the
    [product:price:amount] meta tag, which is the only price not range
    checked. *)
Theorem auto_price_checked_unless_meta
  (world : World) (netloc : pystr -> pystr) (url item_name : pystr)
  (st st' : AutoPriceCrawler.state) (resp : Response) (r : pydict) :
  http world (AutoPriceCrawler.trace st) (auto_page_request url) = Some resp ->
  AutoPriceCrawler.smart_crawl_url world netloc url item_name st
  = (Some r, st') ->
  exists q,
    dict_get (py "price") r = Some (PNum q) /\
    ~ (q == 0)%Q /\
    (((1 # 100) < q)%Q /\ (q < 1000000)%Q \/
     fst (AutoPriceCrawler.strategy_meta (content resp)) = Some q) /\
    (select_one AutoPriceCrawler.meta_product_price (content resp) = None ->
     ((1 # 100) < q)%Q /\ (q < 1000000)%Q).
Proof.
  intros Hh H. unfold AutoPriceCrawler.smart_crawl_url, AutoPriceCrawler.get in H.
  fold (auto_page_request url) in H. rewrite Hh in H.
  destruct (http_error resp); [discriminate H|].
  destruct (AutoPriceCrawler.locate_price (content resp)) as [[p|] t] eqn:El;
    [|discriminate H].
  destruct (truthy_num p) eqn:Et; [|discriminate H].
  inversion H; subst; clear H. exists p.
  split; [reflexivity|].
  assert (Hnz : ~ (p == 0)%Q).
  { intros Hz. unfold truthy_num in Et. apply Qeq_bool_iff in Hz.
    rewrite Hz in Et. discriminate Et. }
  split; [exact Hnz|].
  apply AutoBatch.locate_price_origin in El.
  assert (Hr : AutoPriceCrawler.in_range p = true ->
               ((1 # 100) < p)%Q /\ (p < 1000000)%Q).
  { intros Hin. apply AutoParser.auto_in_range_spec in Hin. exact Hin. }
  split.
  - destruct El as [Hin|Hm]; [left; apply Hr, Hin | right; exact Hm].
  - intros Hno. destruct El as [Hin|Hm]; [apply Hr, Hin|].
    rewrite (AutoBatch.strategy_meta_absent _ Hno) in Hm. discriminate Hm.
Qed.

Lemma auto_price_checked_unless_meta_witness :
  exists r st' q,
    AutoPriceCrawler.smart_crawl_url Examples.ten_candidates_world
      Examples.identity (py "http://site0") (py "Gold")
      (AutoPriceCrawler.init 2 10) = (Some r, st') /\
    dict_get (py "price") r = Some (PNum q) /\
    ~ (q == 0)%Q /\
    (((1 # 100) < q)%Q /\ (q < 1000000)%Q \/
     fst (AutoPriceCrawler.strategy_meta Examples.price_page) = Some q) /\
    (select_one AutoPriceCrawler.meta_product_price Examples.price_page = None ->
     ((1 # 100) < q)%Q /\ (q < 1000000)%Q).
Proof.
  destruct (auto_price_checked_unless_meta Examples.ten_candidates_world
              Examples.identity (py "http://site0") (py "Gold")
              (AutoPriceCrawler.init 2 10) _
              (mkResponse 200 None Examples.price_page) _ eq_refl eq_refl)
    as (q & H).
  eexists _, _, q. split; [reflexivity | exact H].
Defined.

(** X19: what a fresh auto-discovery crawler produced by a batch run can
    be reported and saved: [print_results] never raises on the returned
    mapping, and [save_to_csv], when the history is not empty, writes the
    seven field names of a record and one full row per record. *)
Theorem auto_own_results_reportable
  (dict_slice_error : exn)
  (world : World) (quote_plus netloc : pystr -> pystr)
  (items : list pystr) (search_terms : option pystr)
  (delay : Q) (max_results : nat)
  (st' : AutoPriceCrawler.state) (results : list (pystr * list pydict)) :
  AutoPriceCrawler.search_multiple_items world quote_plus netloc items
    search_terms (AutoPriceCrawler.init delay max_results) = (results, st') ->
  Report.print_results dict_slice_error results = Ret tt /\
  (AutoPriceCrawler.price_history st' <> [] ->
   AutoPriceCrawler.save_to_csv st'
   = Some (Ret (web_table (AutoPriceCrawler.price_history st')))).
Proof.
  intros H. unfold AutoPriceCrawler.search_multiple_items in H.
  apply AutoBatch.auto_items_loop_records in H;
    [|constructor | intros item l []].
  destruct H as [Hh Hr]. split.
  - apply ReportFacts.print_results_ok. exact Hr.
  - intros Hne. unfold AutoPriceCrawler.save_to_csv.
    apply (Forall_impl web_shaped web_record_shaped) in Hh.
    pose proof (EnhancedBatch.csv_of_shaped _ Hh Hne) as E.
    destruct (AutoPriceCrawler.price_history st') as [|r0 h]; [congruence|].
    simpl hd in E. rewrite E. reflexivity.
Qed.

Lemma auto_own_results_reportable_witness :
  exists results st',
    AutoPriceCrawler.search_multiple_items Examples.ten_candidates_world
      Examples.identity Examples.identity [py "Gold"] None
      (AutoPriceCrawler.init 2 10) = (results, st') /\
    AutoPriceCrawler.price_history st' <> [] /\
    Report.print_results KeyError results = Ret tt /\
    (AutoPriceCrawler.price_history st' <> [] ->
     AutoPriceCrawler.save_to_csv st'
     = Some (Ret (web_table (AutoPriceCrawler.price_history st')))).
Proof.
  do 2 eexists. split; [vm_compute; reflexivity|].
  split; [discriminate|].
  apply (auto_own_results_reportable KeyError Examples.ten_candidates_world
           Examples.identity Examples.identity [py "Gold"] None 2 10 _ _ eq_refl).
Defined.

(* ================================================================= *)
(** * Printing the results of the API crawler *)

Module APIReportFacts.
Import APIPriceCrawler.

Lemma yields_ret {A} (P : A -> Prop) (a : A) : P a -> yields P (ret a).
Proof. intros H st a' st' E. inversion E; subst. exact H. Qed.

Lemma yields_bind {A B} (P : B -> Prop) (m : M A) (f : A -> M B) :
  (forall a, yields P (f a)) -> yields P (bind m f).
Proof.
  intros H st b st' E. unfold bind in E.
  destruct (m st) as [[a|x] s1]; [eapply H; eauto | discriminate E].
Qed.

Lemma yields_lift_bind {A B} (P : B -> Prop) (o : outcome A) (f : A -> M B) :
  (forall a, o = Ret a -> yields P (f a)) -> yields P (bind (lift o) f).
Proof.
  intros H st b st' E. unfold bind, lift in E.
  destruct o as [a|x]; [eapply (H a eq_refl); eauto | discriminate E].
Qed.

Lemma yields_try {A} (P : option A -> Prop) (body : M (option A)) :
  P None -> yields P body -> yields P (try_except body).
Proof.
  intros HN H st r st' E. unfold try_except in E.
  destruct (body st) as [[a|x] s1] eqn:Eb.
  - inversion E; subst. eapply H; eauto.
  - destruct (handled x); inversion E; subst. exact HN.
Qed.

Section World.
Variable world : World.
Variable dict_slice_error : exn.

Lemma crypto_printed crypto_id item_name :
  yields (api_printed dict_slice_error)
         (fetch_crypto_price world crypto_id item_name).
Proof.
  unfold fetch_crypto_price, raise_for_status, json_of.
  apply yields_try; [reflexivity|].
  apply yields_bind; intros response.
  apply yields_bind; intros _.
  apply yields_bind; intros data.
  apply yields_bind; intros has_id.
  destruct has_id; [|apply yields_ret; reflexivity].
  apply yields_bind; intros entry.
  apply yields_bind; intros has_usd.
  destruct has_usd; [|apply yields_ret; reflexivity].
  apply yields_bind; intros price.
  apply yields_bind; intros change.
  apply yields_lift_bind; intros rounded Hr.
  apply yields_bind; intros ts.
  apply yields_lift_bind; intros [] Hp.
  apply yields_bind; intros _.
  apply yields_ret. unfold api_printed.
  destruct price; try discriminate Hp;
    destruct change; try discriminate Hr; inversion Hr; subst; reflexivity.
Qed.

Lemma metal_record_printed item_name q source api ts url :
  api_printed dict_slice_error
    (Some (metal_record item_name (PNum q) source api ts url)).
Proof. reflexivity. Qed.

Lemma alternative_printed metal_code item_name :
  yields (api_printed dict_slice_error)
         (fetch_metal_price_alternative world metal_code item_name).
Proof.
  unfold fetch_metal_price_alternative, json_of.
  apply yields_try; [reflexivity|].
  apply yields_bind; intros token.
  apply yields_bind; intros response.
  destruct (status_code response =? 200); [|apply yields_ret; reflexivity].
  apply yields_bind; intros data.
  apply yields_bind; intros has_price.
  destruct has_price; [|apply yields_ret; reflexivity].
  apply yields_bind; intros price.
  apply yields_lift_bind; intros rounded Hr.
  apply yields_bind; intros ts.
  apply yields_bind; intros _.
  apply yields_ret.
  destruct price; try discriminate Hr; inversion Hr; subst;
    apply metal_record_printed.
Qed.

Lemma metal_printed metal_code item_name :
  yields (api_printed dict_slice_error)
         (fetch_metal_price world metal_code item_name).
Proof.
  unfold fetch_metal_price, json_of.
  apply yields_try; [reflexivity|].
  apply yields_bind; intros api_key.
  apply yields_bind; intros response.
  destruct (status_code response =? 200); [|apply alternative_printed].
  apply yields_bind; intros data.
  apply yields_bind; intros has_rates.
  destruct has_rates; [|apply yields_ret; reflexivity].
  apply yields_bind; intros rates.
  apply yields_bind; intros has_code.
  destruct has_code; [|apply yields_ret; reflexivity].
  apply yields_bind; intros rate.
  apply yields_bind; intros r.
  apply yields_bind; intros ts.
  apply yields_ret. apply metal_record_printed.
Qed.

Lemma commodity_printed commodity_code item_name :
  yields (api_printed dict_slice_error)
         (fetch_commodity_price world commodity_code item_name).
Proof.
  intros st a st' E. unfold fetch_commodity_price in E.
  destruct (dict_get (py "alphavantage") (api_keys st)) as [apikey|];
    [|inversion E; subst; reflexivity].
  revert st a st' E.
  change (yields (api_printed dict_slice_error)
            (try_except
               (bind (get world (py "https://www.alphavantage.co/query")
                          [ (py "function",
                             if str_eqb commodity_code (py "WTI")
                             then py "WTI" else py "BRENT");
                            (py "apikey", apikey); (py "datatype", py "json") ]
                          [])
                     (fun response =>
                        bind (raise_for_status response) (fun _ =>
                        bind (json_of response) (fun data =>
                        bind (lift (py_in (py "data") data)) (fun has_data =>
                        if has_data then
                          bind (lift (py_item data (py "data"))) (fun series =>
                          bind (lift (py_len series)) (fun n =>
                          if 0 <? n then
                            bind (lift (py_item0 series)) (fun latest =>
                            bind (lift (py_item latest (py "value"))) (fun value =>
                            bind (lift (py_float value)) (fun price =>
                            bind (timestamp world) (fun ts =>
                            ret (Some
                              [ (py "item_name", PStr item_name);
                                (py "title",
                                 PStr (title item_name ++ py " per Barrel"));
                                (py "price", PNum (round2 price));
                                (py "currency", PStr [DOLLAR]);
                                (py "unit", PStr (py "barrel"));
                                (py "source", PStr (py "Alpha Vantage"));
                                (py "api", PStr (py "alphavantage"));
                                (py "timestamp", PStr ts);
                                (py "url",
                                 PStr (py "https://www.alphavantage.co/")) ])))))
                          else ret None))
                        else ret None))))))).
  apply yields_try; [reflexivity|].
  apply yields_bind; intros response.
  apply yields_bind; intros _.
  apply yields_bind; intros data.
  apply yields_bind; intros has_data.
  destruct has_data; [|apply yields_ret; reflexivity].
  apply yields_bind; intros series.
  apply yields_bind; intros n.
  destruct (0 <? n); [|apply yields_ret; reflexivity].
  apply yields_bind; intros latest.
  apply yields_bind; intros value.
  apply yields_bind; intros price.
  apply yields_bind; intros ts.
  apply yields_ret. reflexivity.
Qed.

Lemma search_item_printed item_name :
  yields (api_printed dict_slice_error)
         (search_item world item_name).
Proof.
  unfold search_item.
  destruct (lookup_in crypto_map _) as [crypto_id|]; [apply crypto_printed|].
  destruct (lookup_in metal_map _) as [metal_code|]; [apply metal_printed|].
  destruct (lookup_in commodity_map _) as [code|]; [apply commodity_printed|].
  apply yields_ret. reflexivity.
Qed.

Lemma dict_set_printed (k : pystr) (r : option pydict)
      (results : list (pystr * option pydict)) :
  api_printed dict_slice_error r ->
  APIReport.print_results dict_slice_error results = Ret tt ->
  APIReport.print_results dict_slice_error (dict_set k r results) = Ret tt.
Proof.
  intros Hr. induction results as [|[k' r'] results IH]; intros H.
  - simpl. unfold api_printed in Hr. rewrite Hr. reflexivity.
  - cbn [APIReport.print_results] in H.
    destruct (APIReport.print_result dict_slice_error r') as [[]|x] eqn:E;
      [|discriminate H].
    cbn [obind] in H. cbn [dict_set].
    destruct (str_eqb k k'); cbn [APIReport.print_results].
    + unfold api_printed in Hr. rewrite Hr. exact H.
    + rewrite E. cbn [obind]. apply IH, H.
Qed.

Lemma items_loop_printed last items : forall results0 st results st',
  APIReport.print_results dict_slice_error results0 = Ret tt ->
  items_loop world last items results0 st = (Ret results, st') ->
  APIReport.print_results dict_slice_error results = Ret tt.
Proof.
  induction items as [|i items IH]; intros results0 st results st' H0 H.
  - simpl in H. inversion H; subst. exact H0.
  - rewrite APIMore.items_loop_cons in H.
    destruct (search_item world i st) as [[res|x] s1] eqn:Es; [|discriminate H].
    apply search_item_printed in Es. cbv zeta in H.
    eapply IH; [|exact H]. apply dict_set_printed; assumption.
Qed.

End World.
End APIReportFacts.

(** X20: [print_results] never raises on what [search_multiple_items] of
    the API crawler returned, whatever the items, the keys and the
    network: every record an adapter returns has a price and a 24h change
    that can be formatted as numbers, a ['currency'], a ['source'] and a
    string ['timestamp']. *)
Theorem api_print_own_results
  (dict_slice_error : exn) (world : World) (items : list pystr)
  (st st' : APIPriceCrawler.state) (results : list (pystr * option pydict)) :
  APIPriceCrawler.search_multiple_items world items st = (Ret results, st') ->
  APIReport.print_results dict_slice_error results = Ret tt.
Proof.
  intros H. unfold APIPriceCrawler.search_multiple_items in H.
  eapply APIReportFacts.items_loop_printed; [|exact H]. reflexivity.
Qed.

Lemma api_print_own_results_witness :
  exists results st',
    APIPriceCrawler.search_multiple_items Examples.quote_without_change
      [py "Bitcoin"; py "Laptop"] (APIPriceCrawler.init 1) = (Ret results, st') /\
    APIReport.print_results TypeError results = Ret tt.
Proof.
  do 2 eexists. split; [vm_compute; reflexivity|].
  apply (api_print_own_results TypeError Examples.quote_without_change
           [py "Bitcoin"; py "Laptop"] (APIPriceCrawler.init 1) _ _ eq_refl).
Defined.

(* ================================================================= *)
(** * What the enhanced parser needs to see *)

Module EnhancedMarker.
Import RegexFacts AmountFacts EnhancedPriceCrawler.

Lemma marker_sign (c : N) (w : pystr) :
  is_currency_sign c = true -> existsb price_marker (c :: w) = true.
Proof. intros H. cbn [existsb]. unfold price_marker. rewrite H. reflexivity. Qed.

Lemma marker_app_l (a b : pystr) :
  existsb price_marker a = true -> existsb price_marker (a ++ b) = true.
Proof. intros H. rewrite existsb_app, H. reflexivity. Qed.

Lemma marker_app_r (a b : pystr) :
  existsb price_marker b = true -> existsb price_marker (a ++ b) = true.
Proof. intros H. rewrite existsb_app, H. apply orb_true_r. Qed.

Lemma word_usd_marker w cap cap' :
  matches (word_i (py "USD")) w cap cap' -> existsb price_marker w = true.
Proof.
  intros (w1 & w2 & c1 & -> & (x & -> & Hx & _) & _).
  cbn [existsb app]. unfold price_marker.
  change (to_lower (N_of_ascii "U")) with 117%N in Hx.
  change (117 =? 105)%N with false in Hx.
  change (117 =? 115)%N with false in Hx.
  change (117 =? 107)%N with false in Hx.
  rewrite !andb_false_l, !orb_false_r in Hx. rewrite Hx, orb_true_r.
  reflexivity.
Qed.

Lemma word_price_marker w cap cap' :
  matches (word_i (py "Price")) w cap cap' -> existsb price_marker w = true.
Proof.
  intros (w1 & w2 & c1 & -> & (x & -> & Hx & _) & _).
  cbn [existsb app]. unfold price_marker.
  change (to_lower (N_of_ascii "P")) with 112%N in Hx.
  change (112 =? 105)%N with false in Hx.
  change (112 =? 115)%N with false in Hx.
  change (112 =? 107)%N with false in Hx.
  rewrite !andb_false_l, !orb_false_r in Hx. rewrite Hx, !orb_true_r.
  reflexivity.
Qed.

(** Every pattern needs a marker in what it matches. *)
Lemma patterns_need_marker (r : regex) (w : pystr) (cap cap' : option pystr) :
  In r patterns -> matches r w cap cap' -> existsb price_marker w = true.
Proof.
  intros [<-|[<-|[<-|[<-|[<-|[<-|[]]]]]]] H.
  - destruct H as (w1 & w23 & c1 & -> & (c & -> & Hc & _) & _).
    apply marker_sign, Hc.
  - destruct H as (w1 & w23 & c1 & -> & _ & H).
    destruct H as (w2 & w3 & c2 & -> & _ & (c & -> & Hc & _)).
    apply marker_app_r, marker_app_r, marker_sign, Hc.
  - destruct H as (w1 & w23 & c1 & -> & H & _).
    apply marker_app_l. eapply word_usd_marker; exact H.
  - destruct H as (w1 & w23 & c1 & -> & _ & H).
    destruct H as (w2 & w3 & c2 & -> & _ & H).
    apply marker_app_r, marker_app_r. eapply word_usd_marker; exact H.
  - destruct H as (w1 & w23 & c1 & -> & H & _).
    apply marker_app_l. eapply word_price_marker; exact H.
  - destruct H as (w1 & w23 & c1 & -> & (c & -> & Hc & _) & _).
    apply marker_sign. unfold is_currency_sign.
    cbn beta in Hc. apply N.eqb_eq in Hc. subst c. reflexivity.
Qed.

Lemma search_needs_marker (r : regex) (s : pystr) :
  In r patterns -> existsb price_marker s = false -> search r s = None.
Proof.
  intros Hr Hs. destruct (search r s) as [m|] eqn:E; [|reflexivity].
  apply search_sound in E. destruct E as (before & E & H).
  apply (patterns_need_marker r _ _ _ Hr) in H.
  rewrite E, !existsb_app, H, orb_true_r in Hs. discriminate Hs.
Qed.

Lemma marker_remove_char (c : N) (s : pystr) :
  existsb price_marker s = false ->
  existsb price_marker (remove_char c s) = false.
Proof.
  induction s as [|x s IH]; simpl; [auto|].
  intros H. apply orb_false_iff in H. destruct H as [Hx Hs].
  destruct (negb (x =? c)%N); simpl; [rewrite Hx|]; apply IH, Hs.
Qed.

Lemma extract_loop_needs_marker (ps : list regex) (text : pystr) :
  (forall r, In r ps -> In r patterns) ->
  existsb price_marker text = false -> extract_loop ps text = None.
Proof.
  intros Hps Ht. induction ps as [|r ps IH]; [reflexivity|].
  cbn [extract_loop].
  rewrite (search_needs_marker r text (Hps r (or_introl eq_refl)) Ht).
  apply IH. intros r' Hr'. apply Hps. right; exact Hr'.
Qed.

End EnhancedMarker.

(** X21: the parser of the enhanced crawler never reads a bare number:
    on a text without a currency sign and without the letters U and P,
    in either case (so without "USD" and "price"), every one of its six
    patterns fails and it returns [None]. *)
Theorem enhanced_extract_needs_marker (text : pystr) :
  existsb price_marker text = false ->
  EnhancedPriceCrawler.extract_price_from_text text = None.
Proof.
  intros H. unfold EnhancedPriceCrawler.extract_price_from_text.
  apply EnhancedMarker.extract_loop_needs_marker; [auto|].
  apply EnhancedMarker.marker_remove_char, EnhancedMarker.marker_remove_char, H.
Qed.

Lemma enhanced_extract_needs_marker_witness :
  EnhancedPriceCrawler.extract_price_from_text (py "1,234.56") = None /\
  EnhancedPriceCrawler.extract_price_from_text (py "19.99 each") = None.
Proof.
  split; apply enhanced_extract_needs_marker; reflexivity.
Defined.

(* ================================================================= *)
(** * The auto-discovery parser on a dollar amount *)

Module AutoDollar.
Import RegexFacts AmountFacts AutoParser DollarAmount AutoPriceCrawler.

(** No comma group starts where the fraction starts or the text ends. *)
Lemma no_group_here {A} fuel (frac : pystr) cap (k' : cont A) :
  (frac = [] \/ exists d1 d2, frac = [DOT; d1; d2] /\ is_digit d1 = true /\
                              is_digit d2 = true) ->
  rmatch (lit COMMA +++ times 3 digit)%re fuel frac cap k' = None.
Proof.
  intros [->|(d1 & d2 & -> & _)]; reflexivity.
Qed.

Lemma auto_first_pattern_here (ds frac : pystr) :
  ds <> [] -> forallb is_digit ds = true ->
  (frac = [] \/ exists d1 d2, frac = [DOT; d1; d2] /\ is_digit d1 = true /\
                              is_digit d2 = true) ->
  match_here (currency_sign +++ star space +++ amount_grouped)%re
             (DOLLAR :: ds ++ frac)
  = Some (MatchObj (DOLLAR :: ds ++ frac) (Some (ds ++ frac)) []).
Proof.
  intros Hne Hd Hf. unfold match_here.
  set (s := DOLLAR :: ds ++ frac).
  set (fuel := S (length s)).
  assert (Hfuel : length ds + length frac + 2 = fuel).
  { unfold fuel, s. simpl. rewrite length_app. lia. }
  cbn [rmatch]. unfold s at 1. unfold currency_sign at 1. cbn [rmatch].
  change (is_currency_sign DOLLAR) with true. cbv iota.
  unfold star at 1. cbn [rmatch].
  rewrite rep_skip.
  2:{ intros k'. destruct ds as [|d ds']; [congruence|].
      simpl in Hd. apply andb_true_iff in Hd. destruct Hd as [Hd _].
      unfold space. simpl. rewrite (not_space_digit d Hd). reflexivity. }
  unfold amount_grouped. cbn [rmatch]. unfold plus at 1. cbn [rmatch].
  assert (Hlen : 1 <= length ds) by (destruct ds; [congruence | simpl; lia]).
  assert (Hfirst : firstn (length s - 0) s = s)
    by (rewrite Nat.sub_0_r; apply firstn_all).
  assert (Hgrp : firstn (length (ds ++ frac) - 0) (ds ++ frac) = ds ++ frac)
    by (rewrite Nat.sub_0_r; apply firstn_all).
  apply rep_digits_greedy; try assumption; try lia.
  - destruct Hf as [->|(d1 & d2 & -> & _)]; [exact I | reflexivity].
  - unfold star. cbn [rmatch]. rewrite rep_skip.
    2:{ intros k'. apply (no_group_here fuel frac None k' Hf). }
    destruct Hf as [->|(d1 & d2 & -> & H1 & H2)].
    + rewrite cents_none. cbv beta. change (length (@nil N)) with 0.
      rewrite Hgrp, Hfirst. reflexivity.
    + apply cents_some; try assumption.
      * simpl in Hfuel. lia.
      * cbv beta. change (length (@nil N)) with 0.
        rewrite Hgrp, Hfirst. reflexivity.
Qed.

Lemma auto_detect_dollar (text : pystr) :
  detect_currency (DOLLAR :: text) = [DOLLAR].
Proof. reflexivity. Qed.

End AutoDollar.

(** X22: for a dollar sign followed by a comma-grouped amount, the
    parser of the auto-discovery crawler returns exactly the value of the
    amount without its commas, whatever its size (there is no range
    check), and currency detection answers the dollar sign. *)
Theorem auto_extract_dollar_amount
  (lead : pystr) (groups : list pystr) (frac : pystr) :
  comma_grouped lead groups frac ->
  exists v,
    float_of_string (remove_char COMMA (grouped_amount lead groups frac)) = Some v /\
    AutoPriceCrawler.extract_price_from_text
      (DOLLAR :: grouped_amount lead groups frac) = Some v /\
    AutoPriceCrawler.detect_currency
      (DOLLAR :: grouped_amount lead groups frac) = [DOLLAR].
Proof.
  intros H.
  destruct (DollarAmount.cleaned_amount lead groups frac H) as (Hne & Hd & Hc & _).
  destruct H as (_ & _ & _ & Hf).
  assert (Hshape : decimal_shape ((lead ++ concat groups) ++ frac)).
  { exists (lead ++ concat groups), frac. auto. }
  destruct (AmountFacts.float_of_shape _ Hshape) as (v & Hv).
  exists v. rewrite Hc. split; [exact Hv|].
  split; [|apply AutoDollar.auto_detect_dollar].
  unfold AutoPriceCrawler.extract_price_from_text, AutoPriceCrawler.patterns.
  cbn [AutoPriceCrawler.extract_loop].
  change (remove_char COMMA (DOLLAR :: grouped_amount lead groups frac))
    with (DOLLAR :: remove_char COMMA (grouped_amount lead groups frac)).
  rewrite Hc. cbn [search].
  rewrite (AutoDollar.auto_first_pattern_here _ _ Hne Hd Hf).
  cbn [group1].
  rewrite (AmountFacts.decimal_shape_no_comma _ Hshape), Hv. reflexivity.
Qed.

Lemma auto_extract_dollar_amount_witness :
  AutoPriceCrawler.extract_price_from_text (py "$1,234,567.89") = Some 1234567.89%Q /\
  AutoPriceCrawler.detect_currency (py "$1,234,567.89") = py "$".
Proof.
  destruct (auto_extract_dollar_amount (py "1") [py "234"; py "567"] (py ".89"))
    as (v & Hv & Hx & Hd).
  - split; [simpl; lia|]. split; [reflexivity|].
    split; [repeat constructor|].
    right. exists 56%N, 57%N. repeat split; reflexivity.
  - vm_compute in Hv. inversion Hv; subst v. split; [exact Hx | exact Hd].
Defined.

(* ================================================================= *)
(** * The value read by the commodity adapter *)

Module CommodityValue.
Import APIPriceCrawler.








Section World.
Variable world : World.


End World.
End CommodityValue.



(** X24: whatever the network answers, and whether it returns a record
    or [None], [fetch_metal_price_alternative] sends exactly one request,
    to the Gold API address of the metal code, with the stored 'goldapi'
    key as access token or the demo key when none is stored, and leaves
    the history as it was. *)
Theorem fetch_metal_price_alternative_request
  (world : World) (metal_code item_name : pystr) (st : APIPriceCrawler.state) :
  APIPriceCrawler.trace
    (snd (APIPriceCrawler.fetch_metal_price_alternative world metal_code
            item_name st))
  = APIPriceCrawler.trace st
    ++ [Fetched (goldapi_request
                   (key_of (py "goldapi") (py "goldapi-demo-key") st)
                   metal_code)] /\
  APIPriceCrawler.price_history
    (snd (APIPriceCrawler.fetch_metal_price_alternative world metal_code
            item_name st))
  = APIPriceCrawler.price_history st.
Proof.
  split; [|apply APIMore.hist_alternative].
  unfold APIPriceCrawler.fetch_metal_price_alternative.
  set (token := key_of (py "goldapi") (py "goldapi-demo-key") st).
  match goal with
  | |- APIPriceCrawler.trace
         (snd (APIPriceCrawler.try_except
                 (APIPriceCrawler.bind _ ?f) st)) = _ =>
      change (APIPriceCrawler.trace
                (snd (APIPriceCrawler.try_except (f token) st))
              = APIPriceCrawler.trace st
                ++ [Fetched (goldapi_request token metal_code)])
  end.
  cbv beta. generalize st.
  match goal with
  | |- forall s, APIPriceCrawler.trace (snd (?m s)) = _ ++ ?t =>
      change (adds m t)
  end.
  unfold APIPriceCrawler.json_of.
  apply APIFacts.adds_try. apply APIFacts.adds_bind; [apply APIFacts.adds_get|].
  intros response.
  repeat first
    [ apply APIFacts.adds_ret | apply APIFacts.adds_lift
    | apply APIFacts.adds_timestamp
    | apply APIFacts.adds_bind; [|intros]
    | match goal with
      | |- adds (if ?b then _ else _) _ => destruct b
      end ].
Qed.

(* ================================================================= *)
(** * Request budgets of a batch run *)

Lemma fetches_length (t : list event) : length (fetches t) <= length t.
Proof.
  induction t as [|[r|d] t IH]; simpl; lia.
Qed.

Module APIBudget.
Import APIPriceCrawler.

Section World.
Variable world : World.

Lemma items_loop_budget last items : forall results st,
  exists t,
    trace (snd (items_loop world last items results st)) = trace st ++ t /\
    length (fetches t) <= 2 * length items /\
    length t <= 3 * length items.
Proof.
  induction items as [|i items IH]; intros results st.
  - exists []. simpl. rewrite app_nil_r. auto.
  - rewrite APIMore.items_loop_cons.
    destruct (APIMore.upto_search_item world i st) as (t1 & E1 & L1).
    pose proof (fetches_length t1) as F1.
    destruct (search_item world i st) as [[res|e] s1]; simpl in E1.
    2:{ exists t1. simpl. split; [exact E1|]. simpl length. lia. }
    cbv zeta.
    set (s2 := match res with
               | Some (x :: r) => snd (append_history (x :: r) s1)
               | _ => s1
               end).
    assert (E2 : trace s2 = trace s1).
    { unfold s2. destruct res as [[|x r]|]; reflexivity. }
    set (s3 := if negb (str_eqb i last) then snd (sleep (delay s2) s2) else s2).
    assert (E3 : exists p, trace s3 = trace s2 ++ p /\ fetches p = [] /\
                           length p <= 1).
    { unfold s3. destruct (negb (str_eqb i last)).
      - exists [Slept (delay s2)]. simpl. auto.
      - exists []. rewrite app_nil_r. simpl. auto. }
    destruct E3 as (p & E3 & Fp & Lp).
    destruct (IH (dict_set i res results) s3) as (t2 & E4 & L4 & L5).
    exists (t1 ++ p ++ t2).
    split; [rewrite E4, E3, E2, E1, <- !app_assoc; reflexivity|].
    rewrite !fetches_app, Fp, !length_app. simpl length. split; lia.
Qed.

End World.
End APIBudget.

(** X25: a batch run of the API crawler over [n] items, whether it
    returns or raises and whatever the network answers, sends at most
    [2 * n] requests and adds at most [3 * n] events (requests and
    pauses) to the trace. *)
Theorem api_batch_budget
  (world : World) (items : list pystr) (st : APIPriceCrawler.state) :
  exists t,
    APIPriceCrawler.trace
      (snd (APIPriceCrawler.search_multiple_items world items st))
    = APIPriceCrawler.trace st ++ t /\
    length (fetches t) <= 2 * length items /\
    length t <= 3 * length items.
Proof. apply APIBudget.items_loop_budget. Qed.

Module EnhancedBudget.
Import EnhancedPriceCrawler.

Lemma known_pass_fetches (d : Q) (urls : list pystr) :
  length (fetches (known_pass d urls)) = length urls.
Proof.
  induction urls as [|u urls IH]; [reflexivity|].
  change (known_pass d (u :: urls))
    with ([Fetched (enhanced_page_request u); Slept d] ++ known_pass d urls).
  rewrite fetches_app, length_app, IH. reflexivity.
Qed.

Section World.
Variable world : World.
Variable quote_plus : pystr -> pystr.
Variable netloc : pystr -> pystr.

Lemma known_loop_budget item_name item_lower sources :
  forall found st returned found' st',
  known_loop world netloc item_name item_lower sources found st
  = (returned, found', st') ->
  exists t,
    trace st' = trace st ++ t /\
    length (fetches t) <= length (flat_map snd sources).
Proof.
  induction sources as [|[commodity urls] sources IH];
    intros found st returned found' st' H; simpl in H.
  - inversion H; subst. exists []. rewrite app_nil_r. simpl. auto.
  - simpl flat_map. rewrite length_app.
    destruct (contains commodity item_lower).
    2:{ apply IH in H. destruct H as (t & E & L). exists t. split; [exact E|lia]. }
    destruct (check_loop world netloc item_name urls found st) as [f1 s1] eqn:E.
    apply EnhancedBatch.check_loop_pass in E. destruct E as [E _].
    pose proof (known_pass_fetches (delay st) urls) as F.
    destruct f1 as [|r f1].
    + apply IH in H. destruct H as (t & E2 & L).
      exists (known_pass (delay st) urls ++ t).
      split; [rewrite E2, E, <- app_assoc; reflexivity|].
      rewrite fetches_app, length_app. lia.
    + inversion H; subst. exists (known_pass (delay st) urls).
      split; [exact E | lia].
Qed.

Lemma search_and_crawl_budget item_name search_terms st :
  exists t,
    trace (snd (search_and_crawl world quote_plus netloc item_name
                  search_terms st))
    = trace st ++ t /\
    length (fetches t) <= 14.
Proof.
  unfold search_and_crawl.
  destruct (known_loop world netloc item_name (lower item_name)
                       known_sources [] st) as [[returned known] s1] eqn:Ek.
  apply known_loop_budget in Ek. destruct Ek as (t1 & E1 & L1).
  change (length (flat_map snd known_sources)) with 8 in L1.
  destruct returned; [exists t1; split; [exact E1 | lia]|].
  destruct (search_google_shopping world quote_plus _ s1) as [urls s2] eqn:Eg.
  apply EnhancedBatch.search_google_shopping_effect in Eg.
  destruct Eg as (-> & Hlen & _).
  destruct (crawl_loop _ _ _ _ _ _) as [found st'] eqn:Ec.
  apply EnhancedBatch.crawl_loop_trace in Ec. destruct Ec as (t2 & E2 & L2).
  rewrite length_firstn in L2. simpl snd. simpl in E2.
  eexists (t1 ++ [Fetched _] ++ t2).
  split; [rewrite E2, E1, <- !app_assoc; reflexivity|].
  rewrite !fetches_app, !length_app. simpl. lia.
Qed.

Lemma enhanced_items_loop_budget last_item search_terms items :
  forall results st,
  exists t,
    trace (snd (items_loop world quote_plus netloc last_item search_terms
                  items results st))
    = trace st ++ t /\
    length (fetches t) <= 14 * length items.
Proof.
  induction items as [|i items IH]; intros results st.
  - exists []. simpl. rewrite app_nil_r. auto.
  - cbn [items_loop].
    destruct (search_and_crawl_budget i search_terms st) as (t1 & E1 & L1).
    destruct (search_and_crawl world quote_plus netloc i search_terms st)
      as [found s1].
    simpl in E1.
    set (s2 := if negb (str_eqb i last_item)
               then sleep (delay s1 * 3) s1 else s1).
    assert (E2 : exists p, trace s2 = trace s1 ++ p /\ fetches p = []).
    { unfold s2. destruct (negb (str_eqb i last_item)).
      - exists [Slept (delay s1 * 3)]. simpl. auto.
      - exists []. rewrite app_nil_r. auto. }
    destruct E2 as (p & E2 & Fp).
    destruct (IH (dict_set i found results) s2) as (t2 & E3 & L3).
    exists (t1 ++ p ++ t2).
    split; [rewrite E3, E2, E1, <- !app_assoc; reflexivity|].
    rewrite !fetches_app, Fp, !length_app. simpl length. lia.
Qed.

End World.
End EnhancedBudget.

(** X26: a batch run of the enhanced crawler over [n] items sends at
    most [14 * n] requests, whatever the network answers and whatever
    [max_results] is: per item at most the eight known URLs, one search
    and the five pages the search can give. *)
Theorem enhanced_batch_budget
  (world : World) (quote_plus netloc : pystr -> pystr)
  (items : list pystr) (search_terms : option pystr)
  (st : EnhancedPriceCrawler.state) :
  exists t,
    EnhancedPriceCrawler.trace
      (snd (EnhancedPriceCrawler.search_multiple_items world quote_plus netloc
              items search_terms st))
    = EnhancedPriceCrawler.trace st ++ t /\
    length (fetches t) <= 14 * length items.
Proof. apply EnhancedBudget.enhanced_items_loop_budget. Qed.

(** That budget is reached: an item that names the four known
    commodities, in a world where no page shows a price, costs fourteen
    requests. *)
Example fourteen_requests_for_one_item :
  length (fetches (EnhancedPriceCrawler.trace
                     (snd (EnhancedPriceCrawler.search_multiple_items
                             Samples.barren_world Examples.identity
                             Examples.identity
                             [py "Gold Silver Bitcoin Crude Oil"] None
                             (EnhancedPriceCrawler.init 2 15)))))
  = 14.
Proof. vm_compute. reflexivity. Qed.

Module AutoBudget.
Import AutoPriceCrawler.

Section World.
Variable world : World.
Variable quote_plus : pystr -> pystr.
Variable netloc : pystr -> pystr.

Lemma auto_crawl_loop_trace item_name n urls : forall found st found' st',
  crawl_loop world netloc item_name n urls found st = (found', st') ->
  exists t,
    trace st' = trace st ++ t /\ length (fetches t) <= length urls /\
    max_results st' = max_results st.
Proof.
  unfold fetches.
  induction urls as [|url urls IH]; intros found st found' st' H; simpl in H.
  - inversion H; subst. exists []. rewrite app_nil_r. simpl. auto.
  - destruct (smart_crawl_url world netloc url item_name st) as [res s1] eqn:E.
    apply AutoBatch.auto_crawl_shape in E. destruct E as [-> _].
    destruct res as [r|].
    + destruct (n <=? length (found ++ [r])).
      * inversion H; subst.
        exists [Fetched (auto_page_request url)]. simpl.
        split; [reflexivity|]. split; [lia | reflexivity].
      * apply IH in H. destruct H as (t & E & L & M).
        exists (Fetched (auto_page_request url) :: Slept (delay st) :: t).
        simpl in *. rewrite E, <- !app_assoc. simpl.
        split; [reflexivity|]. split; [lia | exact M].
    + apply IH in H. destruct H as (t & E & L & M).
      exists (Fetched (auto_page_request url) :: Slept (delay st) :: t).
      simpl in *. rewrite E, <- !app_assoc. simpl.
      split; [reflexivity|]. split; [lia | exact M].
Qed.

Lemma auto_search_and_crawl_budget item_name search_terms n st :
  exists t,
    trace (snd (search_and_crawl world quote_plus netloc item_name
                  search_terms n st))
    = trace st ++ t /\
    length (fetches t) <= 1 + Nat.max 1 (max_results st) /\
    max_results (snd (search_and_crawl world quote_plus netloc item_name
                        search_terms n st))
    = max_results st.
Proof.
  unfold search_and_crawl.
  destruct (search_web_for_item world quote_plus item_name search_terms st)
    as [urls s1] eqn:Es.
  apply AutoBatch.search_web_for_item_effect in Es.
  destruct Es as (-> & Hlen & _).
  destruct urls as [|u urls].
  - eexists [Fetched _]. simpl. split; [reflexivity|]. split; [lia|reflexivity].
  - destruct (crawl_loop world netloc item_name n (u :: urls) [] _)
      as [found st'] eqn:Ec.
    apply auto_crawl_loop_trace in Ec. destruct Ec as (t & E & L & M).
    simpl snd. simpl trace in E. simpl max_results in M.
    eexists ([Fetched _] ++ t).
    split; [rewrite E, <- app_assoc; reflexivity|].
    split; [|exact M].
    rewrite fetches_app, length_app.
    change (length (fetches [Fetched ?r])) with 1. lia.
Qed.

Lemma auto_items_loop_budget last_item search_terms items :
  forall results st,
  exists t,
    trace (snd (items_loop world quote_plus netloc last_item search_terms
                  items results st))
    = trace st ++ t /\
    length (fetches t) <= length items * (1 + Nat.max 1 (max_results st)).
Proof.
  induction items as [|i items IH]; intros results st.
  - exists []. simpl. rewrite app_nil_r. auto.
  - cbn [items_loop].
    destruct (auto_search_and_crawl_budget i search_terms 3 st)
      as (t1 & E1 & L1 & M1).
    destruct (search_and_crawl world quote_plus netloc i search_terms 3 st)
      as [found s1].
    simpl in E1, M1.
    set (s2 := if negb (str_eqb i last_item)
               then sleep (delay s1 * 2) s1 else s1).
    assert (E2 : exists p, trace s2 = trace s1 ++ p /\ fetches p = [] /\
                           max_results s2 = max_results s1).
    { unfold s2. destruct (negb (str_eqb i last_item)).
      - exists [Slept (delay s1 * 2)]. simpl. auto.
      - exists []. rewrite app_nil_r. auto. }
    destruct E2 as (p & E2 & Fp & M2).
    destruct (IH (dict_set i found results) s2) as (t2 & E3 & L3).
    rewrite M2, M1 in L3.
    exists (t1 ++ p ++ t2).
    split; [rewrite E3, E2, E1, <- !app_assoc; reflexivity|].
    rewrite !fetches_app, Fp, !length_app. simpl length. lia.
Qed.

End World.
End AutoBudget.

(** X27: a batch run of the auto-discovery crawler over [n] items sends
    at most [n * (1 + max(1, max_results))] requests, whatever the
    network answers: per item one search and at most the URLs the search
    may return. *)
Theorem auto_batch_budget
  (world : World) (quote_plus netloc : pystr -> pystr)
  (items : list pystr) (search_terms : option pystr)
  (st : AutoPriceCrawler.state) :
  exists t,
    AutoPriceCrawler.trace
      (snd (AutoPriceCrawler.search_multiple_items world quote_plus netloc
              items search_terms st))
    = AutoPriceCrawler.trace st ++ t /\
    length (fetches t)
    <= length items * (1 + Nat.max 1 (AutoPriceCrawler.max_results st)).
Proof. apply AutoBudget.auto_items_loop_budget. Qed.
